(** * restful.py: a command-line REST client

    A shallow embedding of [src/restful.py] (classes [Writer] and
    [APITester], function [main]) and the properties its specification
    states about it.

    The program is a straight pipeline: parse the command line, perform one
    HTTP call, check the status, then print the body or hand it to the
    writer.  Its effects are modelled as a trace of [event]s, its
    exceptions as values of [exn], and the two are threaded through a small
    trace-and-error monad [M].  The libraries the script calls (argparse,
    json, requests, pandas) are interfaces: the program is defined over any
    implementation of them, and a reference model of each is given further
    down for the statements that depend on what the libraries compute. *)

From Stdlib Require Import String Ascii List ZArith Lia Bool Arith.
From Stdlib Require Import Decimal DecimalString DecimalZ DecimalFacts.
Import ListNotations.

Set Warnings "-register-all".
Local Open Scope list_scope.
Local Open Scope string_scope.

(** ** Python strings *)

Module Str.

(** The double quote character, and the line feed. *)
Definition dq : ascii := "034"%char.
Definition lf : ascii := "010"%char.

Definition DQ : string := String dq EmptyString.
Definition LF : string := String lf EmptyString.

(** [s.startswith(c)] and [s.endswith(c)] for a one-character [c]. *)
Definition startswith (c : ascii) (s : string) : bool :=
  match s with
  | String a _ => Ascii.eqb a c
  | EmptyString => false
  end.

Fixpoint endswith (c : ascii) (s : string) : bool :=
  match s with
  | EmptyString => false
  | String a EmptyString => Ascii.eqb a c
  | String _ r => endswith c r
  end.

(** [bool(s)] of a string: the empty string is falsy. *)
Definition truthy (s : string) : bool :=
  match s with EmptyString => false | _ => true end.

(** [str(n)] for an integer. *)
Definition of_Z (z : Z) : string := NilZero.string_of_int (Z.to_int z).

(** [s[0]], as an option. *)
Definition head (s : string) : option ascii :=
  match s with String a _ => Some a | EmptyString => None end.

(** Whether [c] occurs in [s]. *)
Fixpoint mem (c : ascii) (s : string) : bool :=
  match s with
  | EmptyString => false
  | String a r => Ascii.eqb a c || mem c r
  end.

(** The split point of [s.rsplit(c, 1)]: the text before and after the
    last occurrence of [c], when there is one. *)
Fixpoint rcut (c : ascii) (s : string) : option (string * string) :=
  match s with
  | EmptyString => None
  | String a r =>
      match rcut c r with
      | Some (x, y) => Some (String a x, y)
      | None => if Ascii.eqb a c then Some (EmptyString, r) else None
      end
  end.

(** [s.rsplit(c, 1)]: one element when [c] does not occur, two when it
    does. *)
Definition rsplit1 (c : ascii) (s : string) : list string :=
  match rcut c s with
  | Some (x, y) => [x; y]
  | None => [s]
  end.

End Str.

(** ** Exceptions, events and the monad of the script *)

(** An HTTP response, as far as the script looks at it. *)
Record response : Type := mkResponse {
  status_code : Z;
  reason : string;
  url : string;
  text : string
}.

(** The exceptions that flow through the script.  [SystemExit] derives from
    [BaseException] only; every other Python class below derives from
    [Exception].  [Unmodelled] is not a Python exception: a reference model
    of a library answers it on an input outside the fragment it models, and
    no handler of the script catches it. *)
Inductive exn : Type :=
| SystemExit (code : Z)
| TypeError (msg : string)
| ValueError (msg : string)
| JSONDecodeError (msg : string)
| HTTPError (msg : string) (resp : response)
| RequestException (msg : string)
| AttributeError (msg : string)
| Exception_ (msg : string)
| Unmodelled.

(** [isinstance(e, Exception)]. *)
Definition is_Exception (e : exn) : bool :=
  match e with
  | SystemExit _ | Unmodelled => false
  | _ => true
  end.

(** [isinstance(e, TypeError)]. *)
Definition is_TypeError (e : exn) : bool :=
  match e with TypeError _ => true | _ => false end.

(** [str(e)]. *)
Definition str_exn (e : exn) : string :=
  match e with
  | SystemExit code => Str.of_Z code
  | TypeError m | ValueError m | JSONDecodeError m
  | RequestException m | AttributeError m | Exception_ m => m
  | HTTPError m _ => m
  | Unmodelled => EmptyString
  end.

Inductive result (A : Type) : Type :=
| Ok (a : A)
| Raise (e : exn).
Arguments Ok {A} a.
Arguments Raise {A} e.

Inductive http_method : Type := get | post.

(** JSON values as Python holds them after [json.loads]: [dict]s keep
    their insertion order, so an object is an association list.  Strings
    are sequences of code points below 256; numbers are integers (a number
    with a fraction or an exponent is a float, which is not modelled). *)
Inductive json : Type :=
| JNull
| JBool (b : bool)
| JInt (z : Z)
| JStr (s : string)
| JArr (items : list json)
| JObj (members : list (string * json)).

(** A call of [requests.get(url)] or [requests.post(url, data=...)]. *)
Record request : Type := mkRequest {
  req_method : http_method;
  req_url : string;
  req_data : option json
}.

(** The ways [ArgumentParser.error] is reached for this parser. *)
Inductive arg_error : Type :=
| Required (names : list string)
| InvalidChoice (dest : string) (value : string)
| ExpectedOneArgument (flag : string)
| Unrecognized (args : list string).

(** What the script does to the outside world, in order.  [Print] is a
    call of [print] with the line it writes; [PPrint] is a call of
    [pprint], whose layout is the library's; [ArgparseError] is the usage
    line and the error message argparse writes to the standard error, and
    [ArgparseHelp] the help text of [-h]. *)
Inductive event : Type :=
| Print (line : string)
| PPrint (value : json)
| ArgparseError (err : arg_error)
| ArgparseHelp
| HttpRequest (req : request)
| FileWrite (path : string) (content : string).

(** A computation: the events it performed, and its value or the exception
    it raised. *)
Definition M (A : Type) : Type := (list event * result A)%type.

Definition ret {A} (a : A) : M A := ([], Ok a).
Definition raise {A} (e : exn) : M A := ([], Raise e).
Definition emit (ev : event) : M unit := ([ev], Ok tt).
Definition lift {A} (r : result A) : M A := ([], r).

Definition bind {A B} (m : M A) (k : A -> M B) : M B :=
  match m with
  | (tr, Ok a) => let (tr', r) := k a in ((tr ++ tr')%list, r)
  | (tr, Raise e) => (tr, Raise e)
  end.

Notation "x <- m ;; k" := (bind m (fun x => k))
  (at level 61, m at next level, right associativity).
Notation "m ;;; k" := (bind m (fun _ => k))
  (at level 61, right associativity).

(** An [except C as e: suite] clause: the class test and the suite. *)
Definition clause (B : Type) : Type := ((exn -> bool) * (exn -> M B))%type.

(** The first clause whose class matches, as Python selects it. *)
Fixpoint select {B} (clauses : list (clause B)) (e : exn) : option (M B) :=
  match clauses with
  | [] => None
  | (catches, handler) :: rest =>
      if catches e then Some (handler e) else select rest e
  end.

(** [try: body / except ...: ... / else: orelse(v)].  An exception of the
    body that no clause matches propagates; exceptions raised by a handler
    or by the [else] suite are not handled here. *)
Definition try_except_else {A B} (body : M A) (clauses : list (clause B))
    (orelse : A -> M B) : M B :=
  match body with
  | (tr, Ok a) => let (tr', r) := orelse a in ((tr ++ tr')%list, r)
  | (tr, Raise e) =>
      match select clauses e with
      | Some (tr', r) => ((tr ++ tr')%list, r)
      | None => (tr, Raise e)
      end
  end.

Definition print (s : string) : M unit := emit (Print s).

Definition trace {A} (m : M A) : list event := fst m.
Definition outcome {A} (m : M A) : result A := snd m.

(** Whether a trace wrote a file, or called the HTTP client. *)
Definition is_write (ev : event) : bool :=
  match ev with FileWrite _ _ => true | _ => false end.
Definition is_http (ev : event) : bool :=
  match ev with HttpRequest _ => true | _ => false end.
Definition writes (tr : list event) : list event := filter is_write tr.
Definition requests_made (tr : list event) : list event := filter is_http tr.

(** ** The libraries, as interfaces *)

(** Keyword arguments of a call, in the order they are passed. *)
Inductive kwval : Type :=
| KStr (s : string)
| KInt (z : Z)
| KBool (b : bool).

Definition kwargs : Type := list (string * kwval).

(** The command line as [vars(args)] holds it: [method] is one of the two
    choices of the parser, [data] and [output] are [None] unless given. *)
Record payload : Type := mkPayload {
  method : http_method;
  endpoint : string;
  data : option string;
  output : option string
}.

(** [ArgumentParser.parse_args] for the parser [main] builds. *)
Class Argparse : Type := {
  parse_args : list string -> M payload
}.

(** [json.loads] on a [str]. *)
Class Json : Type := {
  json_loads : string -> result json
}.

(** What the HTTP client and the network answer to a call: a response, or
    an exception of the client. *)
Class Requests : Type := {
  send : request -> result response
}.

(** The three pandas calls of [Writer.save]: [pd.read_json] on the text,
    and the text [DataFrame.to_json] and [DataFrame.to_csv] write to the
    path they are given. *)
Class Pandas : Type := {
  DataFrame : Type;
  read_json : string -> result DataFrame;
  to_json : DataFrame -> kwargs -> result string;
  to_csv : DataFrame -> kwargs -> result string
}.

(** ** The script *)

Section Script.

Context {argparse : Argparse} {jsonlib : Json} {requests : Requests}
        {pandas : Pandas}.

(** *** class Writer *)

(** [Writer.dump_params]. *)
Definition dump_params : list (string * kwargs) :=
  [ ("json", [("orient", KStr "records"); ("indent", KInt 2)]);
    ("csv", []) ].

(** [d.get(k)] and [k in d] on a dict held as an association list. *)
Fixpoint dict_get {V} (k : string) (d : list (string * V)) : option V :=
  match d with
  | [] => None
  | (k', v) :: rest => if String.eqb k' k then Some v else dict_get k rest
  end.

(** [getattr(df, 'to_' + ext)] for the two methods the table can name. *)
Definition DataFrame_to (ext : string)
  : option (DataFrame -> kwargs -> result string) :=
  if String.eqb ext "json" then Some to_json
  else if String.eqb ext "csv" then Some to_csv
  else None.

(** The unpacking [file_name, ext = out_file.rsplit('.', 1)]. *)
Definition unpack2 (l : list string) : result (string * string) :=
  match l with
  | [a; b] => Ok (a, b)
  | _ => Raise (ValueError "not enough values to unpack (expected 2, got 1)")
  end.

(** [Writer.save(self, out_file, res_text)]. *)
Definition Writer_save (out_file res_text : string) : M unit :=
  df <- lift (read_json res_text) ;;
  fe <- lift (unpack2 (Str.rsplit1 "." out_file)) ;;
  let (file_name, ext) := (fe : string * string) in
  match dict_get ext dump_params with
  | Some params =>
      match DataFrame_to ext with
      | Some to_ext =>
          content <- lift (to_ext df (("index", KBool false) :: params)) ;;
          emit (FileWrite (file_name ++ "." ++ ext) content)
      | None =>
          raise (AttributeError ("'DataFrame' object has no attribute 'to_"
                                   ++ ext ++ "'"))
      end
  | None => print "not implemented for .{ext}"
  end.

(** *** class APITester *)

Definition domain : string := "https://jsonplaceholder.typicode.com".

(** [requests.get(url)]. *)
Definition APITester_get (self : payload) (url : string) : M response :=
  let req := mkRequest get url None in
  emit (HttpRequest req) ;;; lift (send req).

(** [json.loads(x)] where [x] may be [None]. *)
Definition py_json_loads (x : option string) : result json :=
  match x with
  | Some s => json_loads s
  | None =>
      Raise (TypeError
        "the JSON object must be str, bytes or bytearray, not NoneType")
  end.

(** [requests.post(url, data=data)]. *)
Definition requests_post (url : string) (d : json) : M response :=
  let req := mkRequest post url (Some d) in
  emit (HttpRequest req) ;;; lift (send req).

(** [APITester.post(self, url)]. *)
Definition APITester_post (self : payload) (url : string) : M response :=
  try_except_else (lift (py_json_loads (data self)))
    [ (is_TypeError,
       fun _ => raise (Exception_ "Must required valid json data")) ]
    (fun d => requests_post url d).

(** [getattr(self, self.payload['method'])]. *)
Definition APITester_getattr (m : http_method)
  : payload -> string -> M response :=
  match m with
  | get => APITester_get
  | post => APITester_post
  end.

(** [Response.raise_for_status]. *)
Definition raise_for_status (r : response) : M unit :=
  let sc := status_code r in
  if (400 <=? sc)%Z && (sc <? 500)%Z then
    raise (HTTPError (Str.of_Z sc ++ " Client Error: " ++ reason r
                        ++ " for url: " ++ url r) r)
  else if (500 <=? sc)%Z && (sc <? 600)%Z then
    raise (HTTPError (Str.of_Z sc ++ " Server Error: " ++ reason r
                        ++ " for url: " ++ url r) r)
  else ret tt.

(** [str(response.status_code)[0] != '2']. *)
Definition not_success (r : response) : bool :=
  match Str.head (Str.of_Z (status_code r)) with
  | Some c => negb (Ascii.eqb c "2")
  | None => true
  end.

(** The text handed to [save]: a single object is wrapped in an array. *)
Definition normalized_text (t : string) : string :=
  if Str.startswith "{" t && Str.endswith "}" t then "[" ++ t ++ "]"
  else t.

(** [Response.json]. *)
Definition Response_json (r : response) : M json := lift (json_loads (text r)).

Section Init.

(** [self.save]: looked up on the instance, so any class that derives
    from [APITester] may supply its own. *)
Variable save : string -> string -> M unit.

(** The [else] suite of [APITester.__init__]. *)
Definition on_response (self : payload) (r : response) : M unit :=
  if not_success r then
    raise (Exception_ "Can't process non-success(2xx) request")
  else
    match output self with
    | Some out =>
        if Str.truthy out then save out (normalized_text (text r))
        else v <- Response_json r ;; emit (PPrint v)
    | None => v <- Response_json r ;; emit (PPrint v)
    end.

(** [APITester.__init__(self, payload)]. *)
Definition APITester_init_with (self : payload) : M unit :=
  let url := domain ++ "/" ++ endpoint self in
  try_except_else
    (r <- APITester_getattr (method self) self url ;;
     print ("status_code: " ++ Str.of_Z (status_code r)) ;;;
     raise_for_status r ;;;
     ret r)
    [ (is_Exception, fun e => print (str_exn e)) ]
    (on_response self).

End Init.

Definition APITester_init : payload -> M unit :=
  APITester_init_with Writer_save.

(** *** main *)

Definition is_SystemExit (e : exn) : bool :=
  match e with SystemExit _ => true | _ => false end.

(** [main()], on the command line [argv] (without the program name). *)
Definition main (argv : list string) : M unit :=
  try_except_else
    (args <- parse_args argv ;; APITester_init args)
    [ (is_SystemExit,
       fun e => print ("ExitCode:" ++ str_exn e ++ "    (-h for more info)"));
      (is_Exception, fun e => print (str_exn e)) ]
    (fun _ => ret tt).

(** The exit status of the interpreter after [main()]: 0 when [main]
    returns, the code of an uncaught [SystemExit], 1 for any other
    uncaught exception. *)
Definition exit_status (r : result unit) : option Z :=
  match r with
  | Ok _ => Some 0%Z
  | Raise (SystemExit c) => Some c
  | Raise Unmodelled => None
  | Raise _ => Some 1%Z
  end.

End Script.

(** ** Reference model of the [json] module *)

Definition rbind {A B} (r : result A) (k : A -> result B) : result B :=
  match r with
  | Ok a => k a
  | Raise e => Raise e
  end.

Notation "'let?' x := r 'in' k" := (rbind r (fun x => k))
  (at level 10, x pattern, r at level 100, k at level 200).

Module PyJson.

(** [dict.__setitem__] on an association list: an existing key keeps its
    place and takes the new value, a new key goes last. *)
Fixpoint dict_set (k : string) (v : json) (d : list (string * json))
  : list (string * json) :=
  match d with
  | [] => [(k, v)]
  | (k', v') :: rest =>
      if String.eqb k' k then (k', v) :: rest
      else (k', v') :: dict_set k v rest
  end.

(** [dict(pairs)]. *)
Definition dict_of (pairs : list (string * json)) : list (string * json) :=
  fold_left (fun d kv => dict_set (fst kv) (snd kv) d) pairs [].

(** The whitespace of the decoder: space, tab, line feed, carriage
    return. *)
Definition is_ws (c : ascii) : bool :=
  Ascii.eqb c " " || Ascii.eqb c "009" || Ascii.eqb c "010"
  || Ascii.eqb c "013".

Fixpoint skip_ws (s : string) : string :=
  match s with
  | String c r => if is_ws c then skip_ws r else s
  | EmptyString => s
  end.

(** [s[len(p):]] when [s.startswith(p)]. *)
Fixpoint strip_prefix (p s : string) : option string :=
  match p, s with
  | EmptyString, _ => Some s
  | String a p', String b s' =>
      if Ascii.eqb a b then strip_prefix p' s' else None
  | String _ _, EmptyString => None
  end.

(** A decimal digit, as the constructor of [Decimal.uint] it stands for. *)
Definition digit_of (c : ascii) : option (uint -> uint) :=
  if Ascii.eqb c "0" then Some D0
  else if Ascii.eqb c "1" then Some D1
  else if Ascii.eqb c "2" then Some D2
  else if Ascii.eqb c "3" then Some D3
  else if Ascii.eqb c "4" then Some D4
  else if Ascii.eqb c "5" then Some D5
  else if Ascii.eqb c "6" then Some D6
  else if Ascii.eqb c "7" then Some D7
  else if Ascii.eqb c "8" then Some D8
  else if Ascii.eqb c "9" then Some D9
  else None.

Definition is_digit (c : ascii) : bool :=
  match digit_of c with Some _ => true | None => false end.

(** The longest run of digits at the head of [s], and what follows. *)
Fixpoint read_uint (s : string) : uint * string :=
  match s with
  | String c r =>
      match digit_of c with
      | Some d => let (u, rest) := read_uint r in (d u, rest)
      | None => (Nil, s)
      end
  | EmptyString => (Nil, s)
  end.

(** Whether a fraction [\.\d+] or an exponent [[eE][-+]?\d+] starts
    here: the number is then a float. *)
Definition float_tail (s : string) : bool :=
  match s with
  | String c (String d r) =>
      if Ascii.eqb c "." then is_digit d
      else if Ascii.eqb c "e" || Ascii.eqb c "E" then
        if is_digit d then true
        else if Ascii.eqb d "+" || Ascii.eqb d "-" then
          match r with String x _ => is_digit x | EmptyString => false end
        else false
      else false
  | _ => false
  end.

(** The integer part [0|[1-9]\d*] of the number pattern at the head of
    [s]. *)
Definition int_part (s : string) : option (uint * string) :=
  match s with
  | String c r =>
      if Ascii.eqb c "0" then Some (D0 Nil, r)
      else if is_digit c then Some (read_uint s)
      else None
  | EmptyString => None
  end.

(** The number pattern at the head of [s]: no match, an [int], or a
    float (not modelled). *)
Definition match_number (s : string) : option (result (json * string)) :=
  let (neg, body) :=
    match s with
    | String c r => if Ascii.eqb c "-" then (true, r) else (false, s)
    | EmptyString => (false, s)
    end in
  match int_part body with
  | Some (u, rest) =>
      if float_tail rest then Some (Raise Unmodelled)
      else Some (Ok (JInt (Z.of_int (if neg then Neg u else Pos u)), rest))
  | None => None
  end.

Definition hex_of (c : ascii) : option N :=
  let n := N_of_ascii c in
  if (48 <=? n)%N && (n <=? 57)%N then Some (n - 48)%N
  else if (97 <=? n)%N && (n <=? 102)%N then Some (n - 87)%N
  else if (65 <=? n)%N && (n <=? 70)%N then Some (n - 55)%N
  else None.

(** The code point of the four hexadecimal digits of a [\u] escape. *)
Definition hex4 (a b c d : ascii) : option N :=
  match hex_of a, hex_of b, hex_of c, hex_of d with
  | Some x, Some y, Some z, Some w =>
      Some (((x * 16 + y) * 16 + z) * 16 + w)%N
  | _, _, _, _ => None
  end.

(** The one-letter escapes. *)
Definition unescape (c : ascii) : option ascii :=
  if Ascii.eqb c Str.dq then Some Str.dq
  else if Ascii.eqb c "\" then Some "\"%char
  else if Ascii.eqb c "/" then Some "/"%char
  else if Ascii.eqb c "b" then Some "008"%char
  else if Ascii.eqb c "f" then Some "012"%char
  else if Ascii.eqb c "n" then Some "010"%char
  else if Ascii.eqb c "r" then Some "013"%char
  else if Ascii.eqb c "t" then Some "009"%char
  else None.

Definition cons_char (c : ascii) (r : result (string * string))
  : result (string * string) :=
  let? (s, rest) := r in Ok (String c s, rest).

(** [scanstring], strict, from just after the opening quote: the string
    and the text after its closing quote.  Messages are those of the
    decoder without their position suffix.  A [\u] escape above U+00FF
    is outside the alphabet of the model. *)
Fixpoint scanstring (s : string) : result (string * string) :=
  match s with
  | EmptyString => Raise (JSONDecodeError "Unterminated string starting at")
  | String c r =>
      if Ascii.eqb c Str.dq then Ok (EmptyString, r)
      else if Ascii.eqb c "\" then
        match r with
        | EmptyString =>
            Raise (JSONDecodeError "Unterminated string starting at")
        | String e r1 =>
            if Ascii.eqb e "u" then
              match r1 with
              | String h1 (String h2 (String h3 (String h4 r2))) =>
                  match hex4 h1 h2 h3 h4 with
                  | Some n =>
                      if (n <? 256)%N then
                        cons_char (ascii_of_N n) (scanstring r2)
                      else Raise Unmodelled
                  | None => Raise (JSONDecodeError "Invalid \uXXXX escape")
                  end
              | _ => Raise (JSONDecodeError "Invalid \uXXXX escape")
              end
            else
              match unescape e with
              | Some c' => cons_char c' (scanstring r1)
              | None => Raise (JSONDecodeError "Invalid \escape")
              end
        end
      else if (N_of_ascii c <? 32)%N then
        Raise (JSONDecodeError "Invalid control character at")
      else cons_char c (scanstring r)
  end.

Definition expecting_value : exn := JSONDecodeError "Expecting value".

(** [scan_once], [JSONArray] and [JSONObject] of the decoder.  The three
    recurse into each other; [fuel] bounds the depth of the calls.  Each
    call into a container has consumed a character, so twice the length of
    the text is enough of it. *)
Fixpoint scan_once (fuel : nat) (s : string) {struct fuel}
  : result (json * string) :=
  match fuel with
  | O => Raise Unmodelled
  | S f =>
      match s with
      | EmptyString => Raise expecting_value
      | String c r =>
          if Ascii.eqb c Str.dq then
            let? (str, rest) := scanstring r in Ok (JStr str, rest)
          else if Ascii.eqb c "{" then
            match skip_ws r with
            | String c1 r1 =>
                if Ascii.eqb c1 "}" then Ok (JObj [], r1)
                else if Ascii.eqb c1 Str.dq then
                  let? (pairs, rest) := object_items f r1 in
                  Ok (JObj (dict_of pairs), rest)
                else Raise (JSONDecodeError
                  "Expecting property name enclosed in double quotes")
            | EmptyString => Raise (JSONDecodeError
                  "Expecting property name enclosed in double quotes")
            end
          else if Ascii.eqb c "[" then
            match skip_ws r with
            | String c1 r1 =>
                if Ascii.eqb c1 "]" then Ok (JArr [], r1)
                else
                  let? (items, rest) := array_items f (String c1 r1) in
                  Ok (JArr items, rest)
            | EmptyString => Raise expecting_value
            end
          else
            match strip_prefix "null" s, strip_prefix "true" s,
                  strip_prefix "false" s with
            | Some rest, _, _ => Ok (JNull, rest)
            | _, Some rest, _ => Ok (JBool true, rest)
            | _, _, Some rest => Ok (JBool false, rest)
            | None, None, None =>
                match match_number s with
                | Some res => res
                | None =>
                    match strip_prefix "NaN" s, strip_prefix "Infinity" s,
                          strip_prefix "-Infinity" s with
                    | None, None, None => Raise expecting_value
                    | _, _, _ => Raise Unmodelled
                    end
                end
            end
      end
  end

with array_items (fuel : nat) (s : string) {struct fuel}
  : result (list json * string) :=
  match fuel with
  | O => Raise Unmodelled
  | S f =>
      let? (v, r) := scan_once f s in
      match skip_ws r with
      | String c r1 =>
          if Ascii.eqb c "]" then Ok ([v], r1)
          else if Ascii.eqb c "," then
            let? (vs, rest) := array_items f (skip_ws r1) in
            Ok (v :: vs, rest)
          else Raise (JSONDecodeError "Expecting ',' delimiter")
      | EmptyString => Raise (JSONDecodeError "Expecting ',' delimiter")
      end
  end

with object_items (fuel : nat) (s : string) {struct fuel}
  : result (list (string * json) * string) :=
  match fuel with
  | O => Raise Unmodelled
  | S f =>
      let? (key, r) := scanstring s in
      match skip_ws r with
      | String c r1 =>
          if Ascii.eqb c ":" then
            let? (v, r2) := scan_once f (skip_ws r1) in
            match skip_ws r2 with
            | String c2 r3 =>
                if Ascii.eqb c2 "}" then Ok ([(key, v)], r3)
                else if Ascii.eqb c2 "," then
                  match skip_ws r3 with
                  | String c3 r4 =>
                      if Ascii.eqb c3 Str.dq then
                        let? (kvs, rest) := object_items f r4 in
                        Ok ((key, v) :: kvs, rest)
                      else Raise (JSONDecodeError
                        "Expecting property name enclosed in double quotes")
                  | EmptyString => Raise (JSONDecodeError
                        "Expecting property name enclosed in double quotes")
                  end
                else Raise (JSONDecodeError "Expecting ',' delimiter")
            | EmptyString =>
                Raise (JSONDecodeError "Expecting ',' delimiter")
            end
          else Raise (JSONDecodeError "Expecting ':' delimiter")
      | EmptyString => Raise (JSONDecodeError "Expecting ':' delimiter")
      end
  end.

(** [json.loads(s)] for a [str]: leading whitespace, one value, trailing
    whitespace, nothing else. *)
Definition loads (s : string) : result json :=
  let? (v, rest) := scan_once (S (2 * String.length s)) (skip_ws s) in
  match skip_ws rest with
  | EmptyString => Ok v
  | String _ _ => Raise (JSONDecodeError "Extra data")
  end.

End PyJson.

Definition RefJson : Json := {| json_loads := PyJson.loads |}.

(** ** Text encoders of the libraries *)

Module Encode.

(** A hexadecimal digit, lower and upper case. *)
Definition hexchar (upper : bool) (n : N) : ascii :=
  if (n <? 10)%N then ascii_of_N (48 + n)
  else ascii_of_N ((if upper then 55 else 87) + n).

Definition hex2 (upper : bool) (n : N) : string :=
  String (hexchar upper (n / 16)) (String (hexchar upper (n mod 16)) "").

(** The escape of one character inside a JSON string.  [solidus] says
    whether [/] is escaped (pandas does, [json.dumps] does not); [del]
    whether U+007F is (the converse). *)
Definition escape_char (solidus del : bool) (c : ascii) : string :=
  let n := N_of_ascii c in
  if Ascii.eqb c Str.dq then String "\" Str.DQ
  else if Ascii.eqb c "\" then "\\"
  else if Ascii.eqb c "/" then (if solidus then "\/" else "/")
  else if (n =? 8)%N then "\b"
  else if (n =? 9)%N then "\t"
  else if (n =? 10)%N then "\n"
  else if (n =? 12)%N then "\f"
  else if (n =? 13)%N then "\r"
  else if (n <? 32)%N then "\u00" ++ hex2 false n
  else if (n <? 127)%N then String c ""
  else if (n =? 127)%N then (if del then "\u00" ++ hex2 false n else String c "")
  else "\u00" ++ hex2 false n.

Fixpoint escape (solidus del : bool) (s : string) : string :=
  match s with
  | EmptyString => EmptyString
  | String c r => escape_char solidus del c ++ escape solidus del r
  end.

(** A string between quotes, with ASCII output forced. *)
Definition quote (solidus del : bool) (s : string) : string :=
  Str.DQ ++ escape solidus del s ++ Str.DQ.

(** [json.dumps(v)] with its default separators. *)
Fixpoint dumps (v : json) : string :=
  match v with
  | JNull => "null"
  | JBool true => "true"
  | JBool false => "false"
  | JInt z => Str.of_Z z
  | JStr s => quote false true s
  | JArr items => "[" ++ String.concat ", " (map dumps items) ++ "]"
  | JObj members =>
      "{" ++ String.concat ", "
               (map (fun kv : string * json =>
                       let (k, x) := kv in
                       quote false true k ++ ": " ++ dumps x) members)
          ++ "}"
  end.

(** [n] spaces. *)
Fixpoint spaces (n : nat) : string :=
  match n with
  | O => EmptyString
  | S k => String " " (spaces k)
  end.

(** The line break and the margin of the pandas encoder: nothing unless
    [indent] is positive. *)
Definition newline (indent : nat) : string :=
  match indent with O => EmptyString | S _ => Str.LF end.

Definition margin (indent level : nat) : string := spaces (indent * level).

(** The encoder behind [DataFrame.to_json]: no space after [:] or [,];
    with a positive [indent], one item per line, each at its nesting
    level, and the closing bracket on a line of its own. *)
Fixpoint ujson (indent level : nat) (v : json) : string :=
  match v with
  | JNull => "null"
  | JBool true => "true"
  | JBool false => "false"
  | JInt z => Str.of_Z z
  | JStr s => quote true false s
  | JArr items =>
      "[" ++ newline indent
        ++ String.concat ("," ++ newline indent)
             (map (fun x => margin indent (S level)
                             ++ ujson indent (S level) x) items)
        ++ newline indent ++ margin indent level ++ "]"
  | JObj members =>
      "{" ++ newline indent
        ++ String.concat ("," ++ newline indent)
             (map (fun kv : string * json =>
                     let (k, x) := kv in
                     margin indent (S level) ++ quote true false k ++ ":"
                       ++ ujson indent (S level) x) members)
        ++ newline indent ++ margin indent level ++ "}"
  end.

(** [s.encode('utf-8')] for code points below 256, as byte values. *)
Fixpoint utf8 (s : string) : list N :=
  match s with
  | EmptyString => []
  | String c r =>
      let n := N_of_ascii c in
      if (n <? 128)%N then n :: utf8 r
      else (192 + n / 64)%N :: (128 + n mod 64)%N :: utf8 r
  end.

Definition is_alnum (n : N) : bool :=
  ((48 <=? n) && (n <=? 57) || (65 <=? n) && (n <=? 90)
   || (97 <=? n) && (n <=? 122))%N.

(** [urllib.parse.quote_plus] on bytes. *)
Fixpoint quote_plus (bytes : list N) : string :=
  match bytes with
  | [] => EmptyString
  | n :: r =>
      (if is_alnum n || (n =? 95)%N || (n =? 46)%N || (n =? 45)%N
          || (n =? 126)%N then String (ascii_of_N n) ""
       else if (n =? 32)%N then "+"
       else "%" ++ hex2 true n) ++ quote_plus r
  end.

End Encode.

(** ** Reference model of the request body [requests] prepares *)

Module RequestsRef.

Definition form_content_type : string := "application/x-www-form-urlencoded".

(** The text of one form value: [None] is dropped from the form, a string
    is percent-encoded, a number or a boolean goes through [str] first.
    Containers nested in a form value are outside the model. *)
Definition form_value (v : json) : result (option string) :=
  match v with
  | JNull => Ok None
  | JBool b =>
      Ok (Some (Encode.quote_plus
                  (Encode.utf8 (if b then "True" else "False"))))
  | JInt z => Ok (Some (Encode.quote_plus (Encode.utf8 (Str.of_Z z))))
  | JStr s => Ok (Some (Encode.quote_plus (Encode.utf8 s)))
  | JArr _ | JObj _ => Raise Unmodelled
  end.

Fixpoint form_values (vs : list json) : result (list string) :=
  match vs with
  | [] => Ok []
  | v :: rest =>
      let? o := form_value v in
      let? l := form_values rest in
      Ok (match o with Some s => s :: l | None => l end)
  end.

(** The [key=value] fields one member of the mapping contributes: one per
    element when the value is a list. *)
Definition form_fields (kv : string * json) : result (list string) :=
  let (k, v) := kv in
  let key := Encode.quote_plus (Encode.utf8 k) in
  let? vals :=
    match v with
    | JArr items => form_values items
    | JObj _ => Raise Unmodelled
    | _ => form_values [v]
    end in
  Ok (map (fun s => key ++ "=" ++ s) vals).

Fixpoint form_all (kvs : list (string * json)) : result (list string) :=
  match kvs with
  | [] => Ok []
  | kv :: rest =>
      let? a := form_fields kv in
      let? b := form_all rest in
      Ok (a ++ b)%list
  end.

(** [PreparedRequest.prepare_body] for the keyword [data=d]: the body on
    the wire and the content type the library sets, if any.  A falsy [d]
    sends no body; a string is sent as it is; a mapping is form-encoded.
    The other shapes are outside the model. *)
Definition prepare_body (d : json)
  : result (option string * option string) :=
  match d with
  | JNull | JBool false | JInt 0%Z | JStr EmptyString
  | JArr [] | JObj [] => Ok (None, None)
  | JStr s => Ok (Some s, None)
  | JObj kvs =>
      let? fields := form_all kvs in
      Ok (Some (String.concat "&" fields), Some form_content_type)
  | _ => Raise Unmodelled
  end.

(** The body and content type of the keyword [json=d]. *)
Definition prepare_json (d : json) : option string * option string :=
  (Some (Encode.dumps d), Some "application/json").

(** A server that answers every request with [r]. *)
Definition canned (r : response) : Requests := {| send := fun _ => Ok r |}.

End RequestsRef.

(** ** Reference model of the three pandas calls *)

Module PandasRef.

(** A table: its column labels, and its rows, each with one cell per
    column.  A cell is a value, or missing ([None], pandas' NaN). *)
Record frame : Type := mkFrame {
  columns : list string;
  rows : list (list (option json))
}.

Fixpoint mem_string (k : string) (l : list string) : bool :=
  match l with
  | [] => false
  | x :: r => String.eqb x k || mem_string k r
  end.

(** The columns after one more record: its new keys go last. *)
Definition add_keys (cols : list string) (rec : list (string * json))
  : list string :=
  fold_left (fun cs kv => if mem_string (fst kv) cs then cs
                          else (cs ++ [fst kv])%list) rec cols.

(** Modelled from the spec: pandas is not part of the repository; section
    4.3 has the writer parse the JSON array into an ordered sequence of
    records, each a mapping from column name to value, with the columns
    the union of the keys in first-seen order.  A key a record lacks
    leaves its cell missing.  Cells keep the values as parsed: the
    conversions pandas applies after parsing are not part of the table
    (see [TablePandas]). *)
Definition frame_of (recs : list (list (string * json))) : frame :=
  let cols := fold_left add_keys recs [] in
  mkFrame cols (map (fun rec => map (fun c => dict_get c rec) cols) recs).

Fixpoint as_records (items : list json)
  : option (list (list (string * json))) :=
  match items with
  | [] => Some []
  | JObj m :: rest =>
      match as_records rest with
      | Some l => Some (m :: l)
      | None => None
      end
  | _ :: _ => None
  end.

(** [pd.read_json(StringIO(text))]: text that is not JSON is a
    [ValueError] (with the decoder's message here, not the wording of
    pandas' own parser); an array of objects is a table of records; the
    other shapes of JSON are outside the model. *)
Definition read_json (text : string) : result frame :=
  match PyJson.loads text with
  | Ok (JArr items) =>
      match as_records items with
      | Some recs => Ok (frame_of recs)
      | None => Raise Unmodelled
      end
  | Ok _ => Raise Unmodelled
  | Raise (JSONDecodeError m) => Raise (ValueError m)
  | Raise e => Raise e
  end.

(** The records of a table, as [to_json(orient='records')] walks them: a
    missing cell is written [null]. *)
Definition cell_json (c : option json) : json :=
  match c with Some v => v | None => JNull end.

Definition records (df : frame) : list (list (string * json)) :=
  map (fun row => combine (columns df) (map cell_json row)) (rows df).

Definition kw_indent (kw : kwargs) : option nat :=
  match dict_get "indent" kw with
  | Some (KInt z) => if (0 <=? z)%Z then Some (Z.to_nat z) else None
  | Some _ => None
  | None => Some 0
  end.

(** [df.to_json(path, index=False, orient='records', indent=n)]: the text
    written.  Other orientations are outside the model. *)
Definition to_json (df : frame) (kw : kwargs) : result string :=
  match dict_get "orient" kw, kw_indent kw with
  | Some (KStr o), Some n =>
      if String.eqb o "records" then
        Ok (Encode.ujson n 0 (JArr (map JObj (records df))))
      else Raise Unmodelled
  | _, _ => Raise Unmodelled
  end.

(** The text [save] has [to_json] write. *)
Definition to_json_text (df : frame) : string :=
  Encode.ujson 2 0 (JArr (map JObj (records df))).

(** A field that the CSV writer copies as it is: not empty, and without
    separator, quote or line break. *)
Definition plain_field (s : string) : bool :=
  Str.truthy s
  && negb (Str.mem "," s || Str.mem Str.dq s || Str.mem "010" s
           || Str.mem "013" s).

Definition csv_cell (c : option json) : result string :=
  match c with
  | None | Some JNull => Ok EmptyString
  | Some (JBool b) => Ok (if b then "True" else "False")
  | Some (JInt z) => Ok (Str.of_Z z)
  | Some (JStr s) => if plain_field s then Ok s else Raise Unmodelled
  | Some (JArr _) | Some (JObj _) => Raise Unmodelled
  end.

Fixpoint csv_fields {A} (f : A -> result string) (l : list A)
  : result (list string) :=
  match l with
  | [] => Ok []
  | x :: r =>
      let? a := f x in
      let? b := csv_fields f r in
      Ok (a :: b)
  end.

Definition csv_line {A} (f : A -> result string) (l : list A)
  : result string :=
  let? fs := csv_fields f l in Ok (String.concat "," fs ++ Str.LF).

Fixpoint csv_lines (rs : list (list (option json))) : result string :=
  match rs with
  | [] => Ok EmptyString
  | r :: rest =>
      let? a := csv_line csv_cell r in
      let? b := csv_lines rest in
      Ok (a ++ b)
  end.

(** [df.to_csv(path, index=False)]: a header line and one line per row,
    for tables of at least two columns whose labels and cells need no
    quoting; the rest is outside the model. *)
Definition to_csv (df : frame) (kw : kwargs) : result string :=
  match columns df with
  | _ :: _ :: _ =>
      let? header :=
        csv_line (fun c => if plain_field c then Ok c else Raise Unmodelled)
                 (columns df) in
      let? body := csv_lines (rows df) in
      Ok (header ++ body)
  | _ => Raise Unmodelled
  end.

End PandasRef.

Definition RefPandas : Pandas :=
  {| DataFrame := PandasRef.frame;
     read_json := PandasRef.read_json;
     to_json := PandasRef.to_json;
     to_csv := PandasRef.to_csv |}.

(** pandas over the same tables and the same two writers, with
    [pd.read_json] left open.  Between the text and the table pandas
    converts what it has parsed: a column of numeric strings becomes
    numbers, an integer next to a missing value becomes a float, a column
    or a label that reads as a date becomes a timestamp, records without
    keys give no row, an integer beyond 64 bits is refused.
    [PandasRef.read_json] models none of this: it is pandas on the texts
    those conversions leave as they are.  A statement about every text
    takes the reading as [read] and says what it needs of it. *)
Definition TablePandas (read : string -> result PandasRef.frame) : Pandas :=
  {| DataFrame := PandasRef.frame;
     read_json := read;
     to_json := PandasRef.to_json;
     to_csv := PandasRef.to_csv |}.

(** ** Reference model of the argument parser *)

Module ArgparseRef.

Inductive token : Type :=
| THelp
| TData
| TOutput
| TPositional (s : string).

(** The tokens of the documented command line: the option strings the
    parser declares, written in full, and arguments that do not start
    with a dash.  Abbreviated or attached forms ([--dat], [--data=x],
    [-dx]), [--] and other words with a leading dash are outside the
    model. *)
Definition classify (s : string) : option token :=
  if String.eqb s "-h" || String.eqb s "--help" then Some THelp
  else if String.eqb s "-d" || String.eqb s "--data" then Some TData
  else if String.eqb s "-o" || String.eqb s "--output" then Some TOutput
  else if Str.startswith "-" s then None
  else Some (TPositional s).

Fixpoint classify_all (argv : list string) : option (list token) :=
  match argv with
  | [] => Some []
  | a :: r =>
      match classify a, classify_all r with
      | Some t, Some ts => Some (t :: ts)
      | _, _ => None
      end
  end.

(** The namespace under construction: the positionals still expected are
    read off [ns_method] and [ns_endpoint]. *)
Record namespace : Type := mkNamespace {
  ns_method : option http_method;
  ns_endpoint : option string;
  ns_data : option string;
  ns_output : option string;
  ns_extras : list string
}.

Definition error {A} (e : arg_error) : M A :=
  emit (ArgparseError e) ;;; raise (SystemExit 2).

(** The [choices] of the first positional. *)
Definition choice (s : string) : option http_method :=
  if String.eqb s "get" then Some get
  else if String.eqb s "post" then Some post
  else None.

(** The checks at the end of the command line: required positionals
    first, then the arguments nothing consumed. *)
Definition finish (ns : namespace) : M payload :=
  match ns_method ns, ns_endpoint ns with
  | None, _ => error (Required ["method"; "endpoint"])
  | Some _, None => error (Required ["endpoint"])
  | Some m, Some e =>
      match ns_extras ns with
      | [] => ret (mkPayload m e (ns_data ns) (ns_output ns))
      | extras => error (Unrecognized extras)
      end
  end.

(** One pass over the tokens, left to right: a positional fills the next
    free positional (checked against the choices for [method]), an
    option takes the next token as its value unless that is an option
    too, [-h] prints the help and exits with code 0. *)
Fixpoint consume (ts : list token) (ns : namespace) : M payload :=
  match ts with
  | [] => finish ns
  | THelp :: _ => emit ArgparseHelp ;;; raise (SystemExit 0)
  | TData :: TPositional v :: rest =>
      consume rest (mkNamespace (ns_method ns) (ns_endpoint ns) (Some v)
                      (ns_output ns) (ns_extras ns))
  | TData :: _ => error (ExpectedOneArgument "-d/--data")
  | TOutput :: TPositional v :: rest =>
      consume rest (mkNamespace (ns_method ns) (ns_endpoint ns) (ns_data ns)
                      (Some v) (ns_extras ns))
  | TOutput :: _ => error (ExpectedOneArgument "-o/--output")
  | TPositional s :: rest =>
      match ns_method ns, ns_endpoint ns with
      | None, _ =>
          match choice s with
          | Some m =>
              consume rest (mkNamespace (Some m) (ns_endpoint ns)
                              (ns_data ns) (ns_output ns) (ns_extras ns))
          | None => error (InvalidChoice "method" s)
          end
      | Some _, None =>
          consume rest (mkNamespace (ns_method ns) (Some s) (ns_data ns)
                          (ns_output ns) (ns_extras ns))
      | Some _, Some _ =>
          consume rest (mkNamespace (ns_method ns) (ns_endpoint ns)
                          (ns_data ns) (ns_output ns)
                          (ns_extras ns ++ [s])%list)
      end
  end.

(** [parser.parse_args()] on the arguments after the program name. *)
Definition parse_args (argv : list string) : M payload :=
  match classify_all argv with
  | Some ts => consume ts (mkNamespace None None None None [])
  | None => raise Unmodelled
  end.

End ArgparseRef.

Definition RefArgparse : Argparse := {| parse_args := ArgparseRef.parse_args |}.

(** ** Vocabulary of the statements *)

(** Whether [sub] occurs in [s] as a substring. *)
Fixpoint mentions (sub s : string) : bool :=
  match PyJson.strip_prefix sub s with
  | Some _ => true
  | None =>
      match s with
      | String _ r => mentions sub r
      | EmptyString => false
      end
  end.

(** An error carries a status code when it is the HTTP error of a response
    with that status, or when its message spells the code out. *)
Definition carries_status (e : exn) (sc : Z) : bool :=
  match e with
  | HTTPError m r => (status_code r =? sc)%Z || mentions (Str.of_Z sc) m
  | _ => mentions (Str.of_Z sc) (str_exn e)
  end.

(** The message [raise_for_status] builds for a 4xx or 5xx response. *)
Definition http_error_message (r : response) : string :=
  Str.of_Z (status_code r)
    ++ (if (status_code r <? 500)%Z then " Client Error: "
        else " Server Error: ")
    ++ reason r ++ " for url: " ++ url r.

Definition is_http_error_status (sc : Z) : bool :=
  (400 <=? sc)%Z && (sc <? 600)%Z.

Definition non_success_message : string :=
  "Can't process non-success(2xx) request".

(** The line [__init__] prints once the response is in. *)
Definition status_line (r : response) : string :=
  "status_code: " ++ Str.of_Z (status_code r).

(** The URL [__init__] builds. *)
Definition request_url (p : payload) : string := domain ++ "/" ++ endpoint p.

(** A run fails with [e] when it raises [e], or when it has caught [e] and
    ends on printing it. *)
Definition fails_with (m : M unit) (e : exn) : Prop :=
  outcome m = Raise e
  \/ (outcome m = Ok tt
      /\ exists tr, trace m = (tr ++ [Print (str_exn e)])%list).

Definition fails_carrying_status (m : M unit) (sc : Z) : Prop :=
  exists e, fails_with m e /\ carries_status e sc = true.

(** The keyword arguments [save] passes for the two supported formats. *)
Definition json_kwargs : kwargs :=
  [("index", KBool false); ("orient", KStr "records"); ("indent", KInt 2)].
Definition csv_kwargs : kwargs := [("index", KBool false)].

(** The response body of the worked example of the specification, the
    array of records it stands for once wrapped, and that array laid out
    with an indentation of two spaces. *)
Definition sample_body : string :=
  "{" ++ Str.DQ ++ "id" ++ Str.DQ ++ ":1," ++ Str.DQ ++ "name" ++ Str.DQ
      ++ ":" ++ Str.DQ ++ "a" ++ Str.DQ ++ "}".

Definition sample_records : json :=
  JArr [JObj [("id", JInt 1); ("name", JStr "a")]].

Definition sample_file : string :=
  "[" ++ Str.LF
  ++ "  {" ++ Str.LF
  ++ "    " ++ Str.DQ ++ "id" ++ Str.DQ ++ ":1," ++ Str.LF
  ++ "    " ++ Str.DQ ++ "name" ++ Str.DQ ++ ":" ++ Str.DQ ++ "a" ++ Str.DQ
  ++ Str.LF
  ++ "  }" ++ Str.LF
  ++ "]".

(** The one-line text of the worked example, with a space after each
    colon and comma. *)
Definition sample_line : string :=
  "[{" ++ Str.DQ ++ "id" ++ Str.DQ ++ ": 1, " ++ Str.DQ ++ "name" ++ Str.DQ
       ++ ": " ++ Str.DQ ++ "a" ++ Str.DQ ++ "}]".

(** A POST body, as typed after [-d], and the value it decodes to. *)
Definition title_data : string :=
  "{" ++ Str.DQ ++ "title" ++ Str.DQ ++ ":" ++ Str.DQ ++ "foo" ++ Str.DQ ++ "}".

Definition title_value : json := JObj [("title", JStr "foo")].

(** Two records with different keys. *)
Definition ragged_text : string :=
  "[{" ++ Str.DQ ++ "a" ++ Str.DQ ++ ":" ++ Str.DQ ++ "x" ++ Str.DQ ++ "},{"
       ++ Str.DQ ++ "b" ++ Str.DQ ++ ":" ++ Str.DQ ++ "y" ++ Str.DQ ++ "}]".

Definition ragged_records : list (list (string * json)) :=
  [[("a", JStr "x")]; [("b", JStr "y")]].

(** Two records with the same keys, as a response body. *)
Definition uniform_text : string :=
  "[{" ++ Str.DQ ++ "id" ++ Str.DQ ++ ":1," ++ Str.DQ ++ "name" ++ Str.DQ
       ++ ":" ++ Str.DQ ++ "a" ++ Str.DQ ++ "},{"
       ++ Str.DQ ++ "id" ++ Str.DQ ++ ":2," ++ Str.DQ ++ "name" ++ Str.DQ
       ++ ":" ++ Str.DQ ++ "b" ++ Str.DQ ++ "}]".

Definition uniform_records : list (list (string * json)) :=
  [[("id", JInt 1); ("name", JStr "a")]; [("id", JInt 2); ("name", JStr "b")]].

(** A JSON value as [dict] can hold it: no object lists a key twice. *)
Fixpoint distinct_keys (v : json) : Prop :=
  match v with
  | JArr items => fold_right (fun x acc => distinct_keys x /\ acc) True items
  | JObj members =>
      NoDup (map fst members)
      /\ fold_right (fun kv acc => distinct_keys (snd kv) /\ acc) True members
  | _ => True
  end.

(** Two records that map every key to the same value: equal as [dict]s. *)
Definition same_record (r r' : list (string * json)) : Prop :=
  forall k, dict_get k r' = dict_get k r.

(** Whether a number literal that ends just before [s] ends there for
    the decoder too: [s] does not go on with a digit, a fraction or an
    exponent. *)
Definition number_ends (s : string) : bool :=
  match s with
  | EmptyString => true
  | String c _ =>
      negb (PyJson.is_digit c || Ascii.eqb c "." || Ascii.eqb c "e"
            || Ascii.eqb c "E")
  end.

(** Whether a decimal number starts with the digit 0. *)
Definition leading_zero (u : uint) : bool :=
  match u with D0 _ => true | _ => false end.

(** Fuel that is enough for the decoder to read a value back. *)
Fixpoint need (v : json) : nat :=
  match v with
  | JArr items => S (fold_right (fun x acc => S (need x + acc)) 0 items)
  | JObj members =>
      S (fold_right (fun kv acc => S (need (snd kv) + acc)) 0 members)
  | _ => 1
  end.

(** The text of an encoded array from its first item on, followed by
    [rest]; and the same for an object, from after the opening quote of
    its first key. *)
Fixpoint array_tail (ind lvl : nat) (items : list json) (rest : string)
  : string :=
  match items with
  | [] => rest
  | x :: xs =>
      Encode.ujson ind (S lvl) x
      ++ match xs with
         | [] => Encode.newline ind ++ Encode.margin ind lvl ++ "]" ++ rest
         | _ :: _ =>
             "," ++ Encode.newline ind ++ Encode.margin ind (S lvl)
                 ++ array_tail ind lvl xs rest
         end
  end.

Fixpoint object_tail (ind lvl : nat) (members : list (string * json))
    (rest : string) : string :=
  match members with
  | [] => rest
  | (k, x) :: ms =>
      Encode.escape true false k ++ Str.DQ ++ ":"
      ++ Encode.ujson ind (S lvl) x
      ++ match ms with
         | [] => Encode.newline ind ++ Encode.margin ind lvl ++ "}" ++ rest
         | _ :: _ =>
             "," ++ Encode.newline ind ++ Encode.margin ind (S lvl)
                 ++ Str.DQ ++ object_tail ind lvl ms rest
         end
  end.

(** A printed value starts with a character that is neither whitespace
    nor a closing bracket. *)
Definition starts_value (c : ascii) : bool :=
  negb (PyJson.is_ws c) && negb (Ascii.eqb c "]").

(** The decoder reads a printed value back, whatever follows it. *)
Definition reads_back (v : json) : Prop :=
  forall ind lvl rest f,
    need v <= f -> number_ends rest = true ->
    PyJson.scan_once f (Encode.ujson ind lvl v ++ rest) = Ok (v, rest).

(** A value is settled before the rest [r] of a text when no text put
    after [r] can change how the value is read: a number must be followed
    by a character that ends it. *)
Definition settled (v : json) (r : string) : Prop :=
  match v with
  | JInt _ => r <> EmptyString /\ number_ends r = true
  | _ => True
  end.

(** An HTTP client whose every call raises [e]. *)
Definition failing (e : exn) : Requests := {| send := fun _ => Raise e |}.

(** * Properties *)

(** ** The monad *)

Lemma bind_ok {A B} (tr : list event) (a : A) (k : A -> M B) :
  bind (tr, Ok a) k = ((tr ++ fst (k a))%list, snd (k a)).
Proof. unfold bind. destruct (k a); reflexivity. Qed.

Lemma bind_raise {A B} (tr : list event) (e : exn) (k : A -> M B) :
  bind (tr, Raise e) k = (tr, Raise e).
Proof. reflexivity. Qed.

Lemma bind_lift_ok {A B} (a : A) (k : A -> M B) :
  bind (lift (Ok a)) k = k a.
Proof. unfold lift, bind. destruct (k a); reflexivity. Qed.

(** ** Strings *)

Lemma strip_prefix_app (p r : string) :
  PyJson.strip_prefix p (p ++ r) = Some r.
Proof.
  induction p as [|c p IH]; simpl; [reflexivity|].
  rewrite Ascii.eqb_refl. exact IH.
Qed.

Lemma mentions_prefix (p r : string) : mentions p (p ++ r) = true.
Proof.
  destruct p as [|c p]; [destruct r; reflexivity|].
  change (mentions (String c p) (String c p ++ r))
    with (match PyJson.strip_prefix (String c p) (String c p ++ r) with
          | Some _ => true
          | None => mentions (String c p) (p ++ r)
          end).
  rewrite strip_prefix_app. reflexivity.
Qed.

Lemma append_assoc (a b c : string) : (a ++ b) ++ c = a ++ (b ++ c).
Proof. induction a as [|x a IH]; simpl; [reflexivity|now rewrite IH]. Qed.

Lemma append_nil_r (a : string) : a ++ "" = a.
Proof. induction a as [|x a IH]; simpl; [reflexivity|now rewrite IH]. Qed.

Lemma length_append (a b : string) :
  String.length (a ++ b) = String.length a + String.length b.
Proof. induction a as [|x a IH]; simpl; [reflexivity|now rewrite IH]. Qed.

(** [rcut] finds the last occurrence: what it returns rebuilds the string,
    and the second part is free of the separator. *)
Lemma rcut_sound (c : ascii) (s x y : string) :
  Str.rcut c s = Some (x, y) ->
  s = x ++ String c y /\ Str.mem c y = false.
Proof.
  revert x y. induction s as [|a s IH]; simpl; intros x y H; [discriminate|].
  destruct (Str.rcut c s) as [[x' y']|] eqn:E.
  - inversion H; subst. destruct (IH _ _ eq_refl) as [-> Hm].
    split; [reflexivity|exact Hm].
  - destruct (Ascii.eqb a c) eqn:Ea; [|discriminate].
    inversion H; subst. apply Ascii.eqb_eq in Ea. subst a.
    split; [reflexivity|].
    clear IH H. induction y as [|b y IHy]; simpl in *; [reflexivity|].
    destruct (Str.rcut c y) as [[? ?]|]; [discriminate|].
    destruct (Ascii.eqb b c); [discriminate|]. simpl. apply IHy. reflexivity.
Qed.

Lemma rcut_none (c : ascii) (s : string) :
  Str.mem c s = false -> Str.rcut c s = None.
Proof.
  induction s as [|a s IH]; simpl; [reflexivity|].
  intros H. apply orb_false_iff in H as [Ha Hs].
  rewrite (IH Hs), Ha. reflexivity.
Qed.

Lemma rcut_complete (c : ascii) (x y : string) :
  Str.mem c y = false -> Str.rcut c (x ++ String c y) = Some (x, y).
Proof.
  intros Hy. induction x as [|a x IH]; simpl.
  - rewrite (rcut_none _ _ Hy), Ascii.eqb_refl. reflexivity.
  - rewrite IH. reflexivity.
Qed.

(** ** Status codes *)

(** A check that holds on every integer of a list of consecutive ones
    holds on the interval. *)
Lemma interval_check (P : Z -> bool) (lo : Z) (n : nat) :
  forallb P (map (fun k => (lo + Z.of_nat k)%Z) (seq 0 n)) = true ->
  forall z, (lo <= z < lo + Z.of_nat n)%Z -> P z = true.
Proof.
  intros H z Hz. rewrite forallb_forall in H. apply H.
  apply in_map_iff. exists (Z.to_nat (z - lo)). split; [lia|].
  apply in_seq. lia.
Qed.

(** The status codes [raise_for_status] rejects do not start with 2. *)
Lemma http_error_status_leading (sc : Z) :
  is_http_error_status sc = true ->
  exists c, Str.head (Str.of_Z sc) = Some c /\ Ascii.eqb c "2" = false.
Proof.
  intros H. unfold is_http_error_status in H.
  apply andb_true_iff in H as [H1 H2].
  apply Z.leb_le in H1. apply Z.ltb_lt in H2.
  pose (P := fun z => match Str.head (Str.of_Z z) with
                      | Some c => negb (Ascii.eqb c "2")
                      | None => false
                      end).
  assert (HP : P sc = true).
  { apply (interval_check P 400 200); [vm_compute; reflexivity|lia]. }
  unfold P in HP. destruct (Str.head (Str.of_Z sc)) as [c|]; [|discriminate].
  exists c. split; [reflexivity|]. now apply negb_true_iff.
Qed.

(** X14.  On three-digit status codes, the leading digit is 2 exactly on
    the range 200 to 299. *)
Lemma leading_digit_range (sc : Z) :
  (100 <= sc <= 999)%Z ->
  (Str.head (Str.of_Z sc) = Some "2"%char <-> (200 <= sc <= 299)%Z).
Proof.
  intros Hr.
  pose (P := fun z =>
    Bool.eqb (match Str.head (Str.of_Z z) with
              | Some c => Ascii.eqb c "2"
              | None => false
              end)
             ((200 <=? z)%Z && (z <=? 299)%Z)).
  assert (HP : P sc = true).
  { apply (interval_check P 100 900); [vm_compute; reflexivity|lia]. }
  unfold P in HP. apply Bool.eqb_prop in HP.
  split.
  - intros Hh. rewrite Hh in HP. simpl in HP. symmetry in HP.
    apply andb_true_iff in HP as [H1 H2]. lia.
  - intros Hs.
    assert (Hb : ((200 <=? sc)%Z && (sc <=? 299)%Z) = true).
    { apply andb_true_iff. split; [apply Z.leb_le|apply Z.leb_le]; lia. }
    rewrite Hb in HP.
    destruct (Str.head (Str.of_Z sc)) as [c|]; [|discriminate].
    apply Ascii.eqb_eq in HP. now subst.
Qed.

(** ** The script over any libraries *)

Section ScriptProperties.

Context {argparse : Argparse} {jsonlib : Json} {requests : Requests}
        {pandas : Pandas}.

Lemma raise_for_status_error (r : response) :
  is_http_error_status (status_code r) = true ->
  raise_for_status r = ([], Raise (HTTPError (http_error_message r) r)).
Proof.
  unfold is_http_error_status, raise_for_status, http_error_message.
  destruct (Z.leb_spec 400 (status_code r)),
           (Z.ltb_spec (status_code r) 500),
           (Z.leb_spec 500 (status_code r)),
           (Z.ltb_spec (status_code r) 600);
    simpl; intros Hs; try reflexivity; try discriminate; lia.
Qed.

Lemma raise_for_status_pass (r : response) :
  is_http_error_status (status_code r) = false ->
  raise_for_status r = ([], Ok tt).
Proof.
  unfold is_http_error_status, raise_for_status.
  destruct (Z.leb_spec 400 (status_code r)),
           (Z.ltb_spec (status_code r) 500),
           (Z.leb_spec 500 (status_code r)),
           (Z.ltb_spec (status_code r) 600);
    simpl; intros Hs; try reflexivity; try discriminate; lia.
Qed.

Lemma success_passes_status_check (r : response) :
  not_success r = false -> is_http_error_status (status_code r) = false.
Proof.
  intros H. destruct (is_http_error_status (status_code r)) eqn:E;
    [|reflexivity].
  destruct (http_error_status_leading _ E) as [c [Hh Hc]].
  unfold not_success in H. rewrite Hh, Hc in H. discriminate.
Qed.

(** What [__init__] does once the request method has returned. *)
Lemma init_after_response (save : string -> string -> M unit)
    (p : payload) (req : request) (r : response) :
  APITester_getattr (method p) p (request_url p)
    = ([HttpRequest req], Ok r) ->
  APITester_init_with save p =
    if is_http_error_status (status_code r) then
      ([HttpRequest req; Print (status_line r);
        Print (http_error_message r)], Ok tt)
    else
      (([HttpRequest req; Print (status_line r)]
          ++ trace (on_response save p r))%list,
       outcome (on_response save p r)).
Proof.
  intros Hd. unfold APITester_init_with.
  fold (request_url p). rewrite Hd.
  unfold try_except_else, bind, print, emit. cbv beta.
  destruct (is_http_error_status (status_code r)) eqn:E.
  - rewrite (raise_for_status_error r E). reflexivity.
  - rewrite (raise_for_status_pass r E). unfold ret, trace, outcome.
    destruct (on_response save p r); reflexivity.
Qed.

(** C1, as amended.  For every response whose status code does not start
    with 2, [__init__] prints the status code and stops without calling
    [save], whatever the output path: no file is written.  For a 4xx or
    5xx status the failure is the HTTP error of [raise_for_status], which
    is printed and whose message starts with the status code; for any
    other status it is a plain exception with a fixed message, which
    [main] prints.  Either way [main] ends on the failure message. *)
Theorem non_success_response_aborts (save : string -> string -> M unit)
    (p : payload) (req : request) (r : response) :
  APITester_getattr (method p) p (request_url p)
    = ([HttpRequest req], Ok r) ->
  not_success r = true ->
  writes (trace (APITester_init_with save p)) = []
  /\ (is_http_error_status (status_code r) = true ->
      APITester_init_with save p
        = ([HttpRequest req; Print (status_line r);
            Print (http_error_message r)], Ok tt)
      /\ carries_status (HTTPError (http_error_message r) r)
           (status_code r) = true
      /\ mentions (Str.of_Z (status_code r)) (http_error_message r) = true)
  /\ (is_http_error_status (status_code r) = false ->
      APITester_init_with save p
        = ([HttpRequest req; Print (status_line r)],
           Raise (Exception_ non_success_message)))
  /\ (forall argv tr0, parse_args argv = (tr0, Ok p) ->
      main argv
        = ((tr0 ++ [HttpRequest req; Print (status_line r);
                    Print (if is_http_error_status (status_code r)
                           then http_error_message r
                           else non_success_message)])%list, Ok tt)).
Proof.
  intros Hd Hn.
  assert (Hon : forall sv, on_response sv p r
                 = ([], Raise (Exception_ non_success_message))).
  { intros sv. unfold on_response. rewrite Hn. reflexivity. }
  assert (Hinit : forall sv, APITester_init_with sv p =
            if is_http_error_status (status_code r) then
              ([HttpRequest req; Print (status_line r);
                Print (http_error_message r)], Ok tt)
            else ([HttpRequest req; Print (status_line r)],
                  Raise (Exception_ non_success_message))).
  { intros sv. rewrite (init_after_response sv p req r Hd), Hon.
    destruct (is_http_error_status (status_code r)); reflexivity. }
  repeat split.
  - rewrite Hinit.
    destruct (is_http_error_status (status_code r)); reflexivity.
  - rewrite Hinit, H. reflexivity.
  - simpl. rewrite Z.eqb_refl. reflexivity.
  - unfold http_error_message. apply mentions_prefix.
  - intros H. rewrite Hinit, H. reflexivity.
  - intros argv tr0 Hp. unfold main. rewrite Hp.
    rewrite bind_ok. unfold APITester_init. rewrite Hinit.
    destruct (is_http_error_status (status_code r)); simpl;
      rewrite <- ?app_assoc; reflexivity.
Qed.

(** C5.  A POST without data, whatever the endpoint and the output path:
    [post] raises the exception with the message that valid JSON data is
    required, [__init__] prints it, and the HTTP client is never
    called. *)
Theorem post_without_data_fails (save : string -> string -> M unit)
    (e : string) (o : option string) :
  let p := mkPayload post e None o in
  APITester_post p (request_url p)
    = ([], Raise (Exception_ "Must required valid json data"))
  /\ APITester_init_with save p
       = ([Print "Must required valid json data"], Ok tt)
  /\ requests_made (trace (APITester_init_with save p)) = []
  /\ (forall argv tr0, parse_args argv = (tr0, Ok p) ->
      main argv
        = ((tr0 ++ [Print "Must required valid json data"])%list, Ok tt)).
Proof.
  intros p.
  assert (Hpost : APITester_post p (request_url p)
            = ([], Raise (Exception_ "Must required valid json data")))
    by reflexivity.
  assert (Hinit : forall sv, APITester_init_with sv p
            = ([Print "Must required valid json data"], Ok tt)).
  { intros sv. unfold APITester_init_with. fold (request_url p).
    change (APITester_getattr (method p) p (request_url p))
      with (APITester_post p (request_url p)).
    rewrite Hpost. reflexivity. }
  split; [exact Hpost|]. split; [apply Hinit|]. split.
  - rewrite Hinit. reflexivity.
  - intros argv tr0 Hp. unfold main. rewrite Hp, bind_ok.
    unfold APITester_init. rewrite Hinit. simpl.
    rewrite ?List.app_nil_r. reflexivity.
Qed.

(** C10.  A POST whose data is not valid JSON: the decode error is not a
    [TypeError], so [post] lets it through unchanged and the HTTP client
    is never called; [__init__] catches it and prints its message, not
    the message of the missing-data case. *)
Theorem post_with_invalid_json_propagates
    (save : string -> string -> M unit) (p : payload) (s m : string) :
  method p = post ->
  data p = Some s ->
  json_loads s = Raise (JSONDecodeError m) ->
  APITester_post p (request_url p) = ([], Raise (JSONDecodeError m))
  /\ APITester_init_with save p = ([Print m], Ok tt)
  /\ requests_made (trace (APITester_init_with save p)) = [].
Proof.
  intros Hm Hd Hj.
  assert (Hpost : APITester_post p (request_url p)
                    = ([], Raise (JSONDecodeError m))).
  { unfold APITester_post, py_json_loads. rewrite Hd, Hj. reflexivity. }
  assert (Hinit : APITester_init_with save p = ([Print m], Ok tt)).
  { unfold APITester_init_with. fold (request_url p). rewrite Hm.
    change (APITester_getattr post p (request_url p))
      with (APITester_post p (request_url p)).
    rewrite Hpost. reflexivity. }
  split; [exact Hpost|]. split; [exact Hinit|].
  rewrite Hinit. reflexivity.
Qed.

(** X13.  A POST whose data decodes calls the HTTP client once, on the
    fixed domain followed by the endpoint, with the decoded value as the
    [data] keyword. *)
Lemma post_sends_decoded_value (p : payload) (s : string) (v : json) :
  data p = Some s ->
  json_loads s = Ok v ->
  APITester_post p (request_url p)
    = ([HttpRequest (mkRequest post (domain ++ "/" ++ endpoint p) (Some v))],
       send (mkRequest post (domain ++ "/" ++ endpoint p) (Some v))).
Proof.
  intros Hd Hj. unfold APITester_post, py_json_loads.
  rewrite Hd, Hj. reflexivity.
Qed.

Lemma normalized_text_grows (t : string) : "[" ++ t ++ "]" <> t.
Proof.
  intros H. apply (f_equal String.length) in H.
  simpl in H. rewrite length_append in H. simpl in H. lia.
Qed.

(** On a 2xx response with an output path, [__init__] goes on with
    [save], on that path and on the normalised text. *)
Lemma init_on_success (save : string -> string -> M unit)
    (p : payload) (req : request) (r : response) (out : string) :
  APITester_getattr (method p) p (request_url p)
    = ([HttpRequest req], Ok r) ->
  not_success r = false ->
  output p = Some out ->
  Str.truthy out = true ->
  APITester_init_with save p
    = (([HttpRequest req; Print (status_line r)]
          ++ trace (save out (normalized_text (text r))))%list,
       outcome (save out (normalized_text (text r)))).
Proof.
  intros Hd Hn Ho Ht.
  rewrite (init_after_response save p req r Hd).
  rewrite (success_passes_status_check r Hn).
  unfold on_response. rewrite Hn, Ho, Ht. reflexivity.
Qed.

(** C6.  On a 2xx response with an output path, [save] is called with
    that path and with the response text, wrapped in square brackets
    exactly when it starts with an opening brace and ends with a closing
    one, and unchanged otherwise. *)
Theorem object_text_is_wrapped (save : string -> string -> M unit)
    (p : payload) (req : request) (r : response) (out : string) :
  APITester_getattr (method p) p (request_url p)
    = ([HttpRequest req], Ok r) ->
  not_success r = false ->
  output p = Some out ->
  Str.truthy out = true ->
  APITester_init_with save p
    = (([HttpRequest req; Print (status_line r)]
          ++ trace (save out (normalized_text (text r))))%list,
       outcome (save out (normalized_text (text r))))
  /\ (normalized_text (text r) = "[" ++ text r ++ "]"
      <-> Str.startswith "{" (text r) && Str.endswith "}" (text r) = true)
  /\ (Str.startswith "{" (text r) && Str.endswith "}" (text r) = false ->
      normalized_text (text r) = text r).
Proof.
  intros Hd Hn Ho Ht. split; [|split].
  - exact (init_on_success save p req r out Hd Hn Ho Ht).
  - unfold normalized_text.
    destruct (Str.startswith "{" (text r) && Str.endswith "}" (text r)).
    + split; reflexivity.
    + split; [|discriminate].
      intros H. symmetry in H. now apply normalized_text_grows in H.
  - intros H. unfold normalized_text. rewrite H. reflexivity.
Qed.

(** [save] once pandas has read the text and the path has split at its
    last dot. *)
Lemma Writer_save_after_split (text_ : string) (df : DataFrame)
    (name ext : string) :
  read_json text_ = Ok df ->
  Str.mem "." ext = false ->
  Writer_save (name ++ "." ++ ext) text_ =
    match dict_get ext dump_params with
    | Some params =>
        match DataFrame_to ext with
        | Some to_ext =>
            content <- lift (to_ext df (("index", KBool false) :: params)) ;;
            emit (FileWrite (name ++ "." ++ ext) content)
        | None =>
            raise (AttributeError
              ("'DataFrame' object has no attribute 'to_" ++ ext ++ "'"))
        end
    | None => print "not implemented for .{ext}"
    end.
Proof.
  intros Hr Hm.
  assert (Hcut : Str.rsplit1 "." (name ++ "." ++ ext) = [name; ext]).
  { unfold Str.rsplit1. simpl.
    rewrite (rcut_complete "." name ext Hm). reflexivity. }
  unfold Writer_save. rewrite Hr, bind_lift_ok, Hcut. simpl unpack2.
  rewrite bind_lift_ok. reflexivity.
Qed.

(** [save] on a path that ends in [.json], when pandas reads the text and
    serialises the table. *)
Lemma Writer_save_json (text_ : string) (df : DataFrame)
    (name content : string) :
  read_json text_ = Ok df ->
  to_json df json_kwargs = Ok content ->
  Writer_save (name ++ ".json") text_
    = ([FileWrite (name ++ ".json") content], Ok tt).
Proof.
  intros Hr Hc.
  change (name ++ ".json") with (name ++ "." ++ "json").
  rewrite (Writer_save_after_split text_ df name "json" Hr eq_refl).
  simpl dict_get. unfold DataFrame_to. simpl String.eqb. cbv iota.
  fold json_kwargs. rewrite Hc. reflexivity.
Qed.

(** C7, as amended.  For a path whose part after the last dot is [ext].
    When pandas cannot read the text, [save] raises its error before it
    looks at the path: no notice, no file.  When pandas reads the text:
    if [ext] is neither json nor csv, [save] prints the not-implemented
    notice and writes nothing; if it is json or csv, [save] calls the
    serialiser of that name, and either writes one file, at the path as
    given, and does nothing else, or raises what the serialiser raises,
    with nothing written and nothing printed. *)
Theorem save_dispatches_on_extension (text_ name ext : string) :
  Str.mem "." ext = false ->
  let out_file := name ++ "." ++ ext in
  (forall e, read_json text_ = Raise e ->
     Writer_save out_file text_ = ([], Raise e))
  /\ (forall df, read_json text_ = Ok df ->
      (ext <> "json" -> ext <> "csv" ->
         Writer_save out_file text_
           = ([Print "not implemented for .{ext}"], Ok tt)
         /\ writes (trace (Writer_save out_file text_)) = [])
      /\ (ext = "json" ->
          (forall content, to_json df json_kwargs = Ok content ->
             Writer_save out_file text_
               = ([FileWrite out_file content], Ok tt))
          /\ (forall e, to_json df json_kwargs = Raise e ->
                Writer_save out_file text_ = ([], Raise e)))
      /\ (ext = "csv" ->
          (forall content, to_csv df csv_kwargs = Ok content ->
             Writer_save out_file text_
               = ([FileWrite out_file content], Ok tt))
          /\ (forall e, to_csv df csv_kwargs = Raise e ->
                Writer_save out_file text_ = ([], Raise e)))).
Proof.
  intros Hm out_file. split.
  - intros e Hr. unfold Writer_save. rewrite Hr. reflexivity.
  - intros df Hr.
    pose proof (Writer_save_after_split text_ df name ext Hr Hm) as Hsave.
    fold out_file in Hsave.
    split; [|split].
    + intros Hj Hc.
      assert (Hp : dict_get ext dump_params = None).
      { assert (H1 : String.eqb "json" ext = false)
          by (apply String.eqb_neq; congruence).
        assert (H2 : String.eqb "csv" ext = false)
          by (apply String.eqb_neq; congruence).
        unfold dump_params. cbn [dict_get]. rewrite H1, H2. reflexivity. }
      rewrite Hsave, Hp. split; reflexivity.
    + intros He. subst ext. simpl dict_get in Hsave.
      unfold DataFrame_to in Hsave. simpl String.eqb in Hsave.
      cbv iota in Hsave. fold json_kwargs in Hsave.
      split; [intros content Hc|intros e Hc]; rewrite Hsave, Hc; reflexivity.
    + intros He. subst ext. simpl dict_get in Hsave.
      unfold DataFrame_to in Hsave. simpl String.eqb in Hsave.
      cbv iota in Hsave. fold csv_kwargs in Hsave.
      split; [intros content Hc|intros e Hc]; rewrite Hsave, Hc; reflexivity.
Qed.

(** C9.  For a path without a dot, [save] raises before the dispatch on
    the extension: it performs no effect at all, neither a file nor the
    notice, and once pandas has read the text the exception is the
    [ValueError] of the two-element unpacking. *)
Theorem save_without_dot_raises (out_file text_ : string) :
  Str.mem "." out_file = false ->
  exists e,
    Writer_save out_file text_ = ([], Raise e)
    /\ (forall df, read_json text_ = Ok df ->
        e = ValueError "not enough values to unpack (expected 2, got 1)").
Proof.
  intros Hm. unfold Writer_save, Str.rsplit1.
  rewrite (rcut_none _ _ Hm). simpl unpack2.
  destruct (read_json text_) as [df|e].
  - exists (ValueError "not enough values to unpack (expected 2, got 1)").
    split; [reflexivity|intros; reflexivity].
  - exists e. split; [reflexivity|intros df H; discriminate].
Qed.

(** X12.  What [main] does with the exit of the argument parser: it
    prints the exit code with the hint and returns, so the interpreter
    ends with status 0. *)
Lemma main_swallows_system_exit (argv : list string) (tr : list event)
    (code : Z) :
  parse_args argv = (tr, Raise (SystemExit code)) ->
  main argv
    = ((tr ++ [Print ("ExitCode:" ++ Str.of_Z code
                        ++ "    (-h for more info)")])%list, Ok tt)
  /\ exit_status (outcome (main argv)) = Some 0%Z.
Proof.
  intros Hp. unfold main. rewrite Hp. simpl. split; reflexivity.
Qed.

End ScriptProperties.

(** ** The script on the reference libraries *)

Lemma non_success_response_aborts_witness :
  let r := mkResponse 404 "Not Found"
             "https://jsonplaceholder.typicode.com/posts/0" "{}" in
  let p := mkPayload get "posts/0" None (Some "out.json") in
  not_success r = true
  /\ writes (trace (@APITester_init RefJson (RequestsRef.canned r)
                      RefPandas p)) = [].
Proof.
  split; [reflexivity|].
  apply (non_success_response_aborts (argparse := RefArgparse)
           (jsonlib := RefJson)
           (requests := RequestsRef.canned
              (mkResponse 404 "Not Found"
                 "https://jsonplaceholder.typicode.com/posts/0" "{}"))
           (pandas := RefPandas) (@Writer_save RefPandas)
           (mkPayload get "posts/0" None (Some "out.json"))
           (mkRequest get "https://jsonplaceholder.typicode.com/posts/0" None)
           (mkResponse 404 "Not Found"
              "https://jsonplaceholder.typicode.com/posts/0" "{}"));
    reflexivity.
Defined.

(** C1, as stated, fails on a redirect: the response has a status that
    does not start with 2, yet the error the run fails with is the plain
    exception of the [else] suite, which neither is an HTTP error nor
    spells the status code out. *)
Lemma redirect_error_lacks_status :
  let r := mkResponse 301 "Moved Permanently"
             "https://jsonplaceholder.typicode.com/posts" "" in
  let p := mkPayload get "posts" None (Some "out.json") in
  not_success r = true
  /\ @APITester_init RefJson (RequestsRef.canned r) RefPandas p
       = ([HttpRequest
             (mkRequest get "https://jsonplaceholder.typicode.com/posts" None);
           Print "status_code: 301"],
          Raise (Exception_ "Can't process non-success(2xx) request"))
  /\ ~ fails_carrying_status
         (@APITester_init RefJson (RequestsRef.canned r) RefPandas p)
         (status_code r).
Proof.
  split; [reflexivity|]. split; [reflexivity|].
  intros [e [[H|[H _]] Hc]].
  - vm_compute in H. inversion H; subst e. vm_compute in Hc. discriminate.
  - vm_compute in H. discriminate.
Qed.

Lemma post_without_data_fails_witness :
  parse_args (Argparse := RefArgparse) ["post"; "posts"]
    = ([], Ok (mkPayload post "posts" None None))
  /\ main (argparse := RefArgparse) (jsonlib := RefJson)
       (requests := RequestsRef.canned (mkResponse 201 "" "" ""))
       (pandas := RefPandas) ["post"; "posts"]
     = ([Print "Must required valid json data"], Ok tt).
Proof.
  split; [reflexivity|].
  apply (proj2 (proj2 (proj2
           (post_without_data_fails (argparse := RefArgparse)
              (jsonlib := RefJson)
              (requests := RequestsRef.canned (mkResponse 201 "" "" ""))
              (pandas := RefPandas) (Writer_save (pandas := RefPandas))
              "posts" None))) ["post"; "posts"] []).
  reflexivity.
Defined.

Lemma post_with_invalid_json_propagates_witness :
  let p := mkPayload post "posts" (Some "{bad") None in
  PyJson.loads "{bad"
    = Raise (JSONDecodeError
               "Expecting property name enclosed in double quotes")
  /\ @APITester_init RefJson (RequestsRef.canned (mkResponse 201 "" "" ""))
       RefPandas p
     = ([Print "Expecting property name enclosed in double quotes"], Ok tt).
Proof.
  split; [reflexivity|].
  apply (post_with_invalid_json_propagates (jsonlib := RefJson)
           (requests := RequestsRef.canned (mkResponse 201 "" "" ""))
           (@Writer_save RefPandas)
           (mkPayload post "posts" (Some "{bad") None) "{bad"
           "Expecting property name enclosed in double quotes");
    reflexivity.
Defined.

Lemma object_text_is_wrapped_witness :
  let r := mkResponse 200 "OK"
             "https://jsonplaceholder.typicode.com/posts/1" "{}" in
  let p := mkPayload get "posts/1" None (Some "out.xml") in
  not_success r = false
  /\ normalized_text (text r) = "[{}]"
  /\ @APITester_init RefJson (RequestsRef.canned r) RefPandas p
     = (([HttpRequest
            (mkRequest get "https://jsonplaceholder.typicode.com/posts/1"
               None);
          Print "status_code: 200"]
           ++ trace (@Writer_save RefPandas "out.xml" "[{}]"))%list,
        outcome (@Writer_save RefPandas "out.xml" "[{}]")).
Proof.
  split; [reflexivity|]. split; [reflexivity|].
  apply (object_text_is_wrapped (jsonlib := RefJson)
           (requests := RequestsRef.canned
              (mkResponse 200 "OK"
                 "https://jsonplaceholder.typicode.com/posts/1" "{}"))
           (@Writer_save RefPandas)
           (mkPayload get "posts/1" None (Some "out.xml"))
           (mkRequest get "https://jsonplaceholder.typicode.com/posts/1" None)
           (mkResponse 200 "OK"
              "https://jsonplaceholder.typicode.com/posts/1" "{}")
           "out.xml");
    reflexivity.
Defined.

Lemma save_dispatches_on_extension_witness :
  Str.mem "." "xml" = false
  /\ @Writer_save RefPandas ("report" ++ "." ++ "xml") uniform_text
     = ([Print "not implemented for .{ext}"], Ok tt)
  /\ @Writer_save RefPandas ("report" ++ "." ++ "json") uniform_text
     = ([FileWrite "report.json"
           (PandasRef.to_json_text (PandasRef.frame_of uniform_records))],
        Ok tt)
  /\ (exists content,
        @Writer_save RefPandas ("report" ++ "." ++ "csv") uniform_text
          = ([FileWrite "report.csv" content], Ok tt))
  /\ (exists e,
        @Writer_save RefPandas ("report" ++ "." ++ "csv") "oops"
          = ([], Raise e)).
Proof.
  split; [reflexivity|].
  pose proof (fun ext H =>
                proj2 (save_dispatches_on_extension (pandas := RefPandas)
                         uniform_text "report" ext H)
                  (PandasRef.frame_of uniform_records) eq_refl) as H.
  split; [|split; [|split]].
  - apply (proj1 (H "xml" eq_refl)); discriminate.
  - apply (proj1 (proj1 (proj2 (H "json" eq_refl)) eq_refl)). reflexivity.
  - eexists.
    apply (proj1 (proj2 (proj2 (H "csv" eq_refl)) eq_refl)). reflexivity.
  - eexists.
    apply (proj1 (save_dispatches_on_extension (pandas := RefPandas)
                    "oops" "report" "csv" eq_refl)). reflexivity.
Defined.

(** C7, as stated, fails on a text pandas cannot read: [read_json] runs
    before the path is split, so with an extension that is neither json
    nor csv [save] raises the [ValueError] of pandas and prints no
    notice. *)
Lemma unreadable_text_gets_no_notice :
  Str.rsplit1 "." "out.xml" = ["out"; "xml"]
  /\ trace (@Writer_save RefPandas "out.xml" "oops") = []
  /\ (exists m,
        outcome (@Writer_save RefPandas "out.xml" "oops")
          = Raise (ValueError m))
  /\ @Writer_save RefPandas "out.xml" "oops"
     <> ([Print "not implemented for .{ext}"], Ok tt).
Proof.
  split; [reflexivity|]. split; [reflexivity|].
  split; [eexists; reflexivity|discriminate].
Qed.

Lemma save_without_dot_raises_witness :
  Str.mem "." "report" = false
  /\ @Writer_save RefPandas "report" "[{}]"
     = ([], Raise (ValueError
                     "not enough values to unpack (expected 2, got 1)")).
Proof.
  split; [reflexivity|].
  destruct (save_without_dot_raises (pandas := RefPandas) "report" "[{}]"
              eq_refl)
    as [e [H He]].
  rewrite H. rewrite (He (PandasRef.mkFrame [] [[]]) eq_refl). reflexivity.
Defined.

(** C2, as amended.  The worked example: for a 2xx response whose body is
    the object with [id] 1 and [name] a, and the output path [out.json],
    the run writes exactly one file, [out.json]; its content is
    [sample_file], the one-record array laid out on six lines with two
    spaces of indentation per level and nothing after a colon, and
    reading it back gives that array. *)
Theorem sample_object_written_as_records {requests : Requests}
    (p : payload) (req : request) (r : response) :
  APITester_getattr (jsonlib := RefJson) (method p) p (request_url p)
    = ([HttpRequest req], Ok r) ->
  not_success r = false ->
  text r = sample_body ->
  output p = Some "out.json" ->
  APITester_init (jsonlib := RefJson) (pandas := RefPandas) p
    = ([HttpRequest req; Print (status_line r);
        FileWrite "out.json" sample_file], Ok tt)
  /\ Writer_save (pandas := RefPandas) "out.json" ("[" ++ sample_body ++ "]")
     = ([FileWrite "out.json" sample_file], Ok tt)
  /\ sample_file = Encode.ujson 2 0 sample_records
  /\ PyJson.loads sample_file = Ok sample_records.
Proof.
  intros Hd Hn Ht Ho.
  assert (Hs : Writer_save (pandas := RefPandas) "out.json"
                 ("[" ++ sample_body ++ "]")
               = ([FileWrite "out.json" sample_file], Ok tt))
    by (vm_compute; reflexivity).
  split; [|split; [exact Hs|split; vm_compute; reflexivity]].
  unfold APITester_init.
  rewrite (init_on_success (jsonlib := RefJson)
             (Writer_save (pandas := RefPandas)) p req r "out.json"
             Hd Hn Ho eq_refl).
  rewrite Ht.
  change (normalized_text sample_body) with ("[" ++ sample_body ++ "]").
  rewrite Hs. reflexivity.
Qed.

Lemma sample_object_written_as_records_witness :
  let r := mkResponse 200 "OK"
             "https://jsonplaceholder.typicode.com/posts/1" sample_body in
  let p := mkPayload get "posts/1" None (Some "out.json") in
  not_success r = false
  /\ APITester_init (jsonlib := RefJson) (requests := RequestsRef.canned r)
       (pandas := RefPandas) p
     = ([HttpRequest
           (mkRequest get "https://jsonplaceholder.typicode.com/posts/1" None);
         Print "status_code: 200";
         FileWrite "out.json" sample_file], Ok tt).
Proof.
  split; [reflexivity|].
  apply (sample_object_written_as_records
           (requests := RequestsRef.canned
              (mkResponse 200 "OK"
                 "https://jsonplaceholder.typicode.com/posts/1" sample_body))
           (mkPayload get "posts/1" None (Some "out.json"))
           (mkRequest get "https://jsonplaceholder.typicode.com/posts/1" None)
           (mkResponse 200 "OK"
              "https://jsonplaceholder.typicode.com/posts/1" sample_body));
    reflexivity.
Defined.

(** C2, as stated, fails: the file the run writes for the worked example
    is not the one-line text of the claim.  The two hold the same array,
    but the file spreads it over six lines, two spaces per level, and
    puts nothing after a colon. *)
Lemma sample_file_is_not_one_line :
  let r := mkResponse 200 "OK"
             "https://jsonplaceholder.typicode.com/posts/1" sample_body in
  let p := mkPayload get "posts/1" None (Some "out.json") in
  exists content,
    writes (trace (APITester_init (jsonlib := RefJson)
                     (requests := RequestsRef.canned r)
                     (pandas := RefPandas) p))
      = [FileWrite "out.json" content]
    /\ content <> sample_line
    /\ String.length content = 38
    /\ String.length sample_line = 24
    /\ PyJson.loads sample_line = PyJson.loads content.
Proof.
  exists sample_file. split; [vm_compute; reflexivity|].
  split; [|split; [|split]]; try (vm_compute; reflexivity).
  intros H. apply (f_equal String.length) in H. vm_compute in H.
  discriminate H.
Qed.

(** C3 at a failing input.  With the data [title_data], [post] decodes
    the string and calls the HTTP client on the fixed domain followed by
    the endpoint, passing the decoded value as the [data] keyword.  The
    body [requests] prepares for that keyword is the form encoding of the
    value, with the form content type: it is not the JSON encoding. *)
Theorem post_body_is_form_encoded {requests : Requests}
    (e : string) (o : option string) :
  let p := mkPayload post e (Some title_data) o in
  let req := mkRequest post (domain ++ "/" ++ e) (Some title_value) in
  PyJson.loads title_data = Ok title_value
  /\ APITester_post (jsonlib := RefJson) p (request_url p)
     = ([HttpRequest req], send req)
  /\ RequestsRef.prepare_body title_value
     = Ok (Some "title=foo", Some RequestsRef.form_content_type)
  /\ RequestsRef.prepare_json title_value
     = (Some ("{" ++ Str.DQ ++ "title" ++ Str.DQ ++ ": " ++ Str.DQ ++ "foo"
                  ++ Str.DQ ++ "}"), Some "application/json")
  /\ RequestsRef.prepare_body title_value
     <> Ok (RequestsRef.prepare_json title_value).
Proof.
  intros p req.
  split; [reflexivity|]. split; [reflexivity|]. split; [reflexivity|].
  split; [reflexivity|]. vm_compute. discriminate.
Qed.

(** C4 at a failing input.  On the command line [put posts] the parser
    rejects the method and exits with code 2; [main] catches the exit,
    prints the code with the hint, and returns: the interpreter ends with
    status 0. *)
Theorem malformed_command_line_exits_zero {jsonlib : Json}
    {requests : Requests} {pandas : Pandas} :
  parse_args (Argparse := RefArgparse) ["put"; "posts"]
    = ([ArgparseError (InvalidChoice "method" "put")], Raise (SystemExit 2))
  /\ main (argparse := RefArgparse) ["put"; "posts"]
     = ([ArgparseError (InvalidChoice "method" "put");
         Print "ExitCode:2    (-h for more info)"], Ok tt)
  /\ exit_status (outcome (main (argparse := RefArgparse) ["put"; "posts"]))
     = Some 0%Z.
Proof.
  split; [reflexivity|]. split; reflexivity.
Qed.

(** C8, as stated, fails on records with different keys: the table has a
    column for every key, the cells a record lacks are written as null,
    and the file reads back as records with more keys than the original
    ones, which differ from them even as mappings. *)
Lemma ragged_records_do_not_round_trip :
  PyJson.loads ragged_text = Ok (JArr (map JObj ragged_records))
  /\ exists content recs',
       Writer_save (pandas := RefPandas) "out.json" ragged_text
         = ([FileWrite "out.json" content], Ok tt)
       /\ PyJson.loads content = Ok (JArr (map JObj recs'))
       /\ recs' = [[("a", JStr "x"); ("b", JNull)];
                   [("a", JNull); ("b", JStr "y")]]
       /\ recs' <> ragged_records
       /\ ~ Forall2 same_record ragged_records recs'.
Proof.
  split; [reflexivity|].
  exists (PandasRef.to_json_text (PandasRef.frame_of ragged_records)).
  exists [[("a", JStr "x"); ("b", JNull)]; [("a", JNull); ("b", JStr "y")]].
  split; [vm_compute; reflexivity|].
  split; [vm_compute; reflexivity|].
  split; [reflexivity|]. split; [discriminate|].
  intros H. inversion H as [|r r' l l' Hs _]; subst.
  specialize (Hs "b"). discriminate Hs.
Qed.

(** ** The decoder reads back what the pandas encoder writes *)

Lemma pos_to_uint_fixed (p : positive) : unorm (Pos.to_uint p) = Pos.to_uint p.
Proof.
  rewrite <- DecimalPos.Unsigned.to_of, DecimalPos.Unsigned.of_to.
  reflexivity.
Qed.

Lemma pos_to_uint_leading (p : positive) : leading_zero (Pos.to_uint p) = false.
Proof.
  pose proof (pos_to_uint_fixed p) as Hf.
  pose proof (DecimalPos.Unsigned.to_uint_nonzero p) as Hz.
  destruct (Pos.to_uint p) as [|u|u|u|u|u|u|u|u|u|u] eqn:E; try reflexivity.
  exfalso. rewrite unorm_D0 in Hf.
  destruct u as [|u|u|u|u|u|u|u|u|u|u]; [now apply Hz| | | | | | | | | |];
    match goal with
    | H : unorm ?d = D0 ?d |- _ =>
        assert (Hn : nb_digits (unorm d) <= nb_digits d)
          by (apply nb_digits_unorm; discriminate);
        rewrite H in Hn; simpl in Hn; lia
    end.
Qed.

Lemma read_uint_stop (s : string) :
  number_ends s = true -> PyJson.read_uint s = (Nil, s).
Proof.
  destruct s as [|c s]; [reflexivity|]. simpl. unfold PyJson.is_digit.
  destruct (PyJson.digit_of c); [discriminate|reflexivity].
Qed.

Lemma read_uint_print (u : uint) (rest : string) :
  number_ends rest = true ->
  PyJson.read_uint (NilEmpty.string_of_uint u ++ rest) = (u, rest).
Proof.
  intros Hs. induction u; simpl; try (rewrite IHu; reflexivity).
  apply read_uint_stop, Hs.
Qed.

Lemma float_tail_stop (s : string) :
  number_ends s = true -> PyJson.float_tail s = false.
Proof.
  destruct s as [|c [|d r]]; try reflexivity. simpl.
  intros H. apply negb_true_iff in H.
  repeat (apply orb_false_iff in H as [H ?]).
  match goal with
  | H1 : Ascii.eqb c "." = false, H2 : Ascii.eqb c "e" = false,
    H3 : Ascii.eqb c "E" = false |- _ => rewrite H1, H2, H3
  end. reflexivity.
Qed.

(** The integer part of the pattern reads back a printed positive. *)
Lemma int_part_print (p : positive) (rest : string) :
  number_ends rest = true ->
  PyJson.int_part (NilEmpty.string_of_uint (Pos.to_uint p) ++ rest)
    = Some (Pos.to_uint p, rest).
Proof.
  intros Hs.
  pose proof (pos_to_uint_leading p) as Hl.
  pose proof (DecimalPos.Unsigned.to_uint_nonnil p) as Hn.
  pose proof (read_uint_print (Pos.to_uint p) rest Hs) as Hr.
  destruct (Pos.to_uint p) as [|u|u|u|u|u|u|u|u|u|u];
    [congruence|discriminate| | | | | | | | |];
    unfold PyJson.int_part; cbn [NilEmpty.string_of_uint append];
    cbn [Ascii.eqb Bool.eqb PyJson.is_digit PyJson.digit_of];
    cbn [NilEmpty.string_of_uint append] in Hr; rewrite Hr; reflexivity.
Qed.

Lemma scan_once_number (f : nat) (c : ascii) (r : string)
    (res : result (json * string)) :
  PyJson.is_digit c = true \/ c = "-"%char ->
  PyJson.match_number (String c r) = Some res ->
  PyJson.scan_once (S f) (String c r) = res.
Proof.
  intros [Hd| ->] Hn.
  - destruct c as [[] [] [] [] [] [] [] []]; try discriminate Hd;
      cbn -[PyJson.match_number]; rewrite Hn; reflexivity.
  - cbn -[PyJson.match_number]. rewrite Hn. reflexivity.
Qed.

Lemma string_of_uint_head (u : uint) :
  u <> Nil ->
  exists c r, NilEmpty.string_of_uint u = String c r
              /\ PyJson.is_digit c = true.
Proof.
  destruct u; [congruence| | | | | | | | | |]; intros _;
    eexists; eexists; (split; [reflexivity|reflexivity]).
Qed.

(** The decoder reads a printed integer back, when what follows cannot
    continue the literal. *)
Lemma scan_once_of_Z (f : nat) (z : Z) (rest : string) :
  number_ends rest = true ->
  PyJson.scan_once (S f) (Str.of_Z z ++ rest) = Ok (JInt z, rest).
Proof.
  intros Hs. unfold Str.of_Z.
  destruct z as [|p|p]; cbn [Z.to_int NilZero.string_of_int].
  - cbn -[PyJson.float_tail]. rewrite (float_tail_stop rest Hs). reflexivity.
  - pose proof (DecimalPos.Unsigned.to_uint_nonnil p) as Hn.
    assert (Hz : NilZero.string_of_uint (Pos.to_uint p)
                 = NilEmpty.string_of_uint (Pos.to_uint p))
      by (destruct (Pos.to_uint p); [congruence|reflexivity..]).
    rewrite Hz.
    destruct (string_of_uint_head _ Hn) as [c [r [Hcr Hd]]].
    pose proof (int_part_print p rest Hs) as Hi.
    rewrite Hcr in *. cbn [append].
    apply scan_once_number; [left; exact Hd|].
    unfold PyJson.match_number.
    assert (Hm : Ascii.eqb c "-" = false).
    { destruct c as [[] [] [] [] [] [] [] []]; try discriminate Hd;
        reflexivity. }
    rewrite Hm. cbn [append] in Hi. rewrite Hi.
    rewrite (float_tail_stop rest Hs).
    pose proof (DecimalZ.of_to (Zpos p)) as Ho. cbn [Z.to_int] in Ho.
    rewrite Ho. reflexivity.
  - pose proof (DecimalPos.Unsigned.to_uint_nonnil p) as Hn.
    assert (Hz : NilZero.string_of_uint (Pos.to_uint p)
                 = NilEmpty.string_of_uint (Pos.to_uint p))
      by (destruct (Pos.to_uint p); [congruence|reflexivity..]).
    rewrite Hz. cbn [append].
    apply scan_once_number; [right; reflexivity|].
    unfold PyJson.match_number. cbn [Ascii.eqb Bool.eqb].
    rewrite (int_part_print p rest Hs), (float_tail_stop rest Hs).
    pose proof (DecimalZ.of_to (Zneg p)) as Ho. cbn [Z.to_int] in Ho.
    rewrite Ho. reflexivity.
Qed.

Lemma scanstring_escape_char (c : ascii) (t : string) :
  PyJson.scanstring (Encode.escape_char true false c ++ t)
    = PyJson.cons_char c (PyJson.scanstring t).
Proof.
  destruct c as [[] [] [] [] [] [] [] []]; reflexivity.
Qed.

Lemma scanstring_escape (s rest : string) :
  PyJson.scanstring (Encode.escape true false s ++ String Str.dq rest)
    = Ok (s, rest).
Proof.
  induction s as [|c s IH]; [reflexivity|].
  cbn [Encode.escape]. rewrite append_assoc, scanstring_escape_char, IH.
  reflexivity.
Qed.

Lemma json_ind' (P : json -> Prop) :
  P JNull ->
  (forall b, P (JBool b)) ->
  (forall z, P (JInt z)) ->
  (forall s, P (JStr s)) ->
  (forall items, Forall P items -> P (JArr items)) ->
  (forall members, Forall (fun kv => P (snd kv)) members -> P (JObj members)) ->
  forall v, P v.
Proof.
  intros Hn Hb Hi Hs Ha Ho.
  fix IH 1. intros [| b | z | s | items | members].
  - exact Hn.
  - apply Hb.
  - apply Hi.
  - apply Hs.
  - apply Ha. induction items as [|x xs IHxs]; constructor.
    + apply IH.
    + exact IHxs.
  - apply Ho. induction members as [|[k x] ms IHms]; constructor.
    + apply IH.
    + exact IHms.
Qed.

Lemma skip_ws_spaces (n : nat) (s : string) :
  PyJson.skip_ws (Encode.spaces n ++ s) = PyJson.skip_ws s.
Proof. induction n as [|n IH]; [reflexivity|exact IH]. Qed.

Lemma skip_ws_margin (ind lvl : nat) (s : string) :
  PyJson.skip_ws (Encode.newline ind ++ Encode.margin ind lvl ++ s)
    = PyJson.skip_ws s.
Proof.
  unfold Encode.margin.
  destruct ind; cbn [Encode.newline append]; [apply skip_ws_spaces|].
  cbn [Str.LF append PyJson.skip_ws]. 
  change (PyJson.is_ws Str.lf) with true. cbn iota.
  apply skip_ws_spaces.
Qed.

Lemma skip_ws_newline (ind : nat) (s : string) :
  PyJson.skip_ws (Encode.newline ind ++ s) = PyJson.skip_ws s.
Proof. destruct ind; reflexivity. Qed.

Lemma skip_ws_stay (c : ascii) (s : string) :
  PyJson.is_ws c = false -> PyJson.skip_ws (String c s) = String c s.
Proof. intros H. simpl. rewrite H. reflexivity. Qed.

Lemma number_ends_margin (ind lvl : nat) (c : ascii) (s : string) :
  number_ends (String c s) = true ->
  number_ends (Encode.newline ind ++ Encode.margin ind lvl ++ String c s)
    = true.
Proof.
  intros H. unfold Encode.margin.
  destruct ind; cbn [Encode.newline append]; [|reflexivity].
  destruct (0 * lvl) eqn:E; [exact H|]. reflexivity.
Qed.

Lemma of_Z_head (z : Z) :
  exists c r, Str.of_Z z = String c r
              /\ (PyJson.is_digit c = true \/ c = "-"%char).
Proof.
  unfold Str.of_Z. destruct z as [|p|p]; cbn [Z.to_int NilZero.string_of_int].
  - eexists; eexists; split; [reflexivity|left; reflexivity].
  - pose proof (DecimalPos.Unsigned.to_uint_nonnil p) as Hn.
    destruct (Pos.to_uint p); [congruence| | | | | | | | | |];
      eexists; eexists; (split; [reflexivity|left; reflexivity]).
  - eexists; eexists; split; [reflexivity|right; reflexivity].
Qed.

Lemma ujson_head (ind lvl : nat) (v : json) :
  exists c r, Encode.ujson ind lvl v = String c r /\ starts_value c = true.
Proof.
  destruct v as [| [|] | z | s | items | members];
    try (eexists; eexists; split; [reflexivity|reflexivity]).
  destruct (of_Z_head z) as [c [r [H Hc]]]. exists c, r.
  split; [exact H|].
  destruct Hc as [Hd| ->]; [|reflexivity].
  destruct c as [[] [] [] [] [] [] [] []]; try discriminate Hd; reflexivity.
Qed.

Ltac norm_app := rewrite ?append_assoc; cbn [append].

Lemma array_body (ind lvl : nat) (x : json) (xs : list json) (rest : string) :
  String.concat ("," ++ Encode.newline ind)
    (map (fun y => Encode.margin ind (S lvl) ++ Encode.ujson ind (S lvl) y)
         (x :: xs))
    ++ Encode.newline ind ++ Encode.margin ind lvl ++ "]" ++ rest
  = Encode.margin ind (S lvl) ++ array_tail ind lvl (x :: xs) rest.
Proof.
  revert x. induction xs as [|y ys IH]; intros x.
  - cbn [map String.concat array_tail]. norm_app. reflexivity.
  - change (map ?f (x :: y :: ys)) with (f x :: map f (y :: ys)).
    cbn [String.concat array_tail].
    change (map ?f (y :: ys)) with (f y :: map f ys) at 1.
    cbv beta iota. rewrite !append_assoc.
    change (?f y :: map ?g ys) with (map g (y :: ys)).
    rewrite IH. cbn [append]. reflexivity.
Qed.

Lemma array_text (ind lvl : nat) (x : json) (xs : list json) (rest : string) :
  Encode.ujson ind lvl (JArr (x :: xs)) ++ rest
    = "[" ++ Encode.newline ind ++ Encode.margin ind (S lvl)
          ++ array_tail ind lvl (x :: xs) rest.
Proof.
  cbn [Encode.ujson]. rewrite !append_assoc.
  rewrite (array_body ind lvl x xs rest). reflexivity.
Qed.

Lemma object_body (ind lvl : nat) (m : string * json)
    (ms : list (string * json)) (rest : string) :
  String.concat ("," ++ Encode.newline ind)
    (map (fun kv : string * json =>
            let (k, x) := kv in
            Encode.margin ind (S lvl) ++ Encode.quote true false k ++ ":"
              ++ Encode.ujson ind (S lvl) x) (m :: ms))
    ++ Encode.newline ind ++ Encode.margin ind lvl ++ "}" ++ rest
  = Encode.margin ind (S lvl) ++ Str.DQ
      ++ object_tail ind lvl (m :: ms) rest.
Proof.
  revert m. induction ms as [|m' ys IH]; intros [k x].
  - cbn [map String.concat object_tail]. unfold Encode.quote.
    rewrite !append_assoc. reflexivity.
  - change (map ?f ((k, x) :: m' :: ys)) with (f (k, x) :: map f (m' :: ys)).
    cbn [String.concat object_tail].
    change (map ?f (m' :: ys)) with (f m' :: map f ys) at 1.
    cbv beta iota. rewrite !append_assoc.
    change (?f m' :: map ?g ys) with (map g (m' :: ys)).
    rewrite IH. unfold Encode.quote. rewrite !append_assoc.
    cbn [append]. reflexivity.
Qed.

Lemma object_text (ind lvl : nat) (m : string * json)
    (ms : list (string * json)) (rest : string) :
  Encode.ujson ind lvl (JObj (m :: ms)) ++ rest
    = "{" ++ Encode.newline ind ++ Encode.margin ind (S lvl) ++ Str.DQ
          ++ object_tail ind lvl (m :: ms) rest.
Proof.
  cbn [Encode.ujson]. rewrite !append_assoc.
  rewrite (object_body ind lvl m ms rest). reflexivity.
Qed.

Lemma array_items_eq (f : nat) (s : string) :
  PyJson.array_items (S f) s
  = let? (v, r) := PyJson.scan_once f s in
    match PyJson.skip_ws r with
    | String c r1 =>
        if Ascii.eqb c "]" then Ok ([v], r1)
        else if Ascii.eqb c "," then
          let? (vs, rest) := PyJson.array_items f (PyJson.skip_ws r1) in
          Ok (v :: vs, rest)
        else Raise (JSONDecodeError "Expecting ',' delimiter")
    | EmptyString => Raise (JSONDecodeError "Expecting ',' delimiter")
    end.
Proof. reflexivity. Qed.

Lemma skip_ws_value (ind lvl : nat) (v : json) (s : string) :
  PyJson.skip_ws (Encode.ujson ind lvl v ++ s) = Encode.ujson ind lvl v ++ s.
Proof.
  destruct (ujson_head ind lvl v) as [c [r [H Hc]]]. rewrite H.
  cbn [append]. apply skip_ws_stay.
  unfold starts_value in Hc. apply andb_true_iff in Hc as [Hc _].
  now apply negb_true_iff.
Qed.

Lemma array_tail_head (ind lvl : nat) (x : json) (xs : list json)
    (rest : string) :
  exists c r, array_tail ind lvl (x :: xs) rest = String c r
              /\ starts_value c = true.
Proof.
  destruct (ujson_head ind (S lvl) x) as [c [r [H Hc]]].
  cbn [array_tail]. rewrite H. cbn [append]. eauto.
Qed.

Lemma array_items_tail (items : list json) :
  Forall reads_back items ->
  items <> [] ->
  forall ind lvl rest f,
    fold_right (fun x acc => S (need x + acc)) 0 items <= f ->
    PyJson.array_items f (array_tail ind lvl items rest) = Ok (items, rest).
Proof.
  induction 1 as [|x xs Hx Hxs IH]; [congruence|].
  intros _ ind lvl rest f Hf. cbn [fold_right] in Hf.
  destruct f as [|f]; [lia|]. rewrite array_items_eq.
  cbn [array_tail]. destruct xs as [|y ys].
  - rewrite (Hx ind (S lvl) _ f); [|cbn [fold_right] in Hf; lia
                                    |apply number_ends_margin; reflexivity].
    cbn [rbind]. rewrite skip_ws_margin. reflexivity.
  - rewrite (Hx ind (S lvl) _ f); [|lia|reflexivity].
    cbn [rbind append PyJson.skip_ws]. 
    change (PyJson.is_ws ",") with false. cbv iota.
    change (Ascii.eqb "," "]") with false.
    change (Ascii.eqb "," ",") with true. cbv iota.
    rewrite skip_ws_margin.
    destruct (array_tail_head ind lvl y ys rest) as [c [r [Ht Hc]]].
    rewrite Ht. rewrite skip_ws_stay;
      [|unfold starts_value in Hc; apply andb_true_iff in Hc as [Hc _];
        now apply negb_true_iff].
    rewrite <- Ht. rewrite (IH ltac:(discriminate) ind lvl rest f); [|lia].
    reflexivity.
Qed.

Lemma object_items_eq (f : nat) (s : string) :
  PyJson.object_items (S f) s
  = let? (key, r) := PyJson.scanstring s in
    match PyJson.skip_ws r with
    | String c r1 =>
        if Ascii.eqb c ":" then
          let? (v, r2) := PyJson.scan_once f (PyJson.skip_ws r1) in
          match PyJson.skip_ws r2 with
          | String c2 r3 =>
              if Ascii.eqb c2 "}" then Ok ([(key, v)], r3)
              else if Ascii.eqb c2 "," then
                match PyJson.skip_ws r3 with
                | String c3 r4 =>
                    if Ascii.eqb c3 Str.dq then
                      let? (kvs, rest) := PyJson.object_items f r4 in
                      Ok ((key, v) :: kvs, rest)
                    else Raise (JSONDecodeError
                      "Expecting property name enclosed in double quotes")
                | EmptyString => Raise (JSONDecodeError
                      "Expecting property name enclosed in double quotes")
                end
              else Raise (JSONDecodeError "Expecting ',' delimiter")
          | EmptyString =>
              Raise (JSONDecodeError "Expecting ',' delimiter")
          end
        else Raise (JSONDecodeError "Expecting ':' delimiter")
    | EmptyString => Raise (JSONDecodeError "Expecting ':' delimiter")
    end.
Proof. reflexivity. Qed.

Lemma object_items_tail (members : list (string * json)) :
  Forall (fun kv => reads_back (snd kv)) members ->
  members <> [] ->
  forall ind lvl rest f,
    fold_right (fun kv acc => S (need (snd kv) + acc)) 0 members <= f ->
    PyJson.object_items f (object_tail ind lvl members rest)
      = Ok (members, rest).
Proof.
  induction 1 as [|[k x] ms Hx Hms IH]; [congruence|].
  intros _ ind lvl rest f Hf. cbn [fold_right snd] in Hf.
  destruct f as [|f]; [lia|]. rewrite object_items_eq.
  cbn [object_tail]. unfold Str.DQ at 1. cbn [append].
  rewrite scanstring_escape. cbn [rbind PyJson.skip_ws].
  change (PyJson.is_ws ":") with false. cbv iota.
  change (Ascii.eqb ":" ":") with true. cbv iota.
  rewrite skip_ws_value. cbn [snd] in Hx. destruct ms as [|m' ys].
  - rewrite (Hx ind (S lvl) _ f); [|cbn [fold_right] in Hf; lia
                                    |apply number_ends_margin; reflexivity].
    cbn [rbind]. rewrite skip_ws_margin. reflexivity.
  - rewrite (Hx ind (S lvl) _ f); [|lia|reflexivity].
    cbn [rbind append PyJson.skip_ws].
    change (PyJson.is_ws ",") with false. cbv iota.
    change (Ascii.eqb "," "}") with false.
    change (Ascii.eqb "," ",") with true. cbv iota.
    rewrite skip_ws_margin. unfold Str.DQ at 1. cbn [append PyJson.skip_ws].
    change (PyJson.is_ws Str.dq) with false. cbv iota.
    rewrite Ascii.eqb_refl.
    rewrite (IH ltac:(discriminate) ind lvl rest f); [|lia].
    reflexivity.
Qed.

Lemma dict_set_fresh (k : string) (v : json) (d : list (string * json)) :
  ~ In k (map fst d) -> PyJson.dict_set k v d = (d ++ [(k, v)])%list.
Proof.
  induction d as [|[k' v'] d IH]; intros Hn; [reflexivity|].
  cbn [PyJson.dict_set]. cbn [map fst In] in Hn.
  destruct (String.eqb_spec k' k) as [->|Hne]; [tauto|].
  cbn [List.app]. rewrite IH; [reflexivity|tauto].
Qed.

Lemma dict_of_acc (l acc : list (string * json)) :
  NoDup (map fst (acc ++ l)%list) ->
  fold_left (fun d kv => PyJson.dict_set (fst kv) (snd kv) d) l acc
    = (acc ++ l)%list.
Proof.
  revert acc. induction l as [|[k v] l IH]; intros acc Hn.
  - cbn. now rewrite List.app_nil_r.
  - cbn [fold_left fst snd].
    assert (E : (acc ++ (k, v) :: l = (acc ++ [(k, v)]) ++ l)%list)
      by (rewrite <- List.app_assoc; reflexivity).
    rewrite E in Hn |- *.
    rewrite dict_set_fresh.
    + apply IH. exact Hn.
    + rewrite !map_app in Hn. apply NoDup_app_remove_r in Hn.
      cbn [map fst] in Hn.
      apply NoDup_remove_2 in Hn. now rewrite List.app_nil_r in Hn.
Qed.

Lemma dict_of_distinct (l : list (string * json)) :
  NoDup (map fst l) -> PyJson.dict_of l = l.
Proof. intros H. unfold PyJson.dict_of. now rewrite dict_of_acc. Qed.

Lemma distinct_keys_items (items : list json) :
  fold_right (fun x acc => distinct_keys x /\ acc) True items ->
  Forall distinct_keys items.
Proof.
  induction items as [|x xs IH]; cbn; [constructor|].
  intros [H1 H2]. constructor; auto.
Qed.

Lemma distinct_keys_members (members : list (string * json)) :
  fold_right (fun kv acc => distinct_keys (snd kv) /\ acc) True members ->
  Forall (fun kv => distinct_keys (snd kv)) members.
Proof.
  induction members as [|x xs IH]; cbn; [constructor|].
  intros [H1 H2]. constructor; auto.
Qed.

Lemma Forall_mp {A} (P Q : A -> Prop) (l : list A) :
  Forall (fun x => P x -> Q x) l -> Forall P l -> Forall Q l.
Proof.
  induction 1; intros H'; inversion H'; subst; constructor; auto.
Qed.

(** The decoder reads back what the pandas encoder prints, at any
    indentation and nesting level. *)
Lemma scan_once_ujson (v : json) : distinct_keys v -> reads_back v.
Proof.
  induction v as [| b | z | s | items IH | members IH] using json_ind';
    intros Hd ind lvl rest f Hf He; cbn [need] in Hf;
    (destruct f as [|f]; [lia|]).
  - reflexivity.
  - destruct b; reflexivity.
  - cbn [Encode.ujson]. apply scan_once_of_Z, He.
  - cbn [Encode.ujson]. unfold Encode.quote, Str.DQ.
    rewrite !append_assoc. cbn [append].
    cbn [PyJson.scan_once]. rewrite Ascii.eqb_refl.
    rewrite scanstring_escape. reflexivity.
  - cbn [distinct_keys] in Hd. apply distinct_keys_items in Hd.
    pose proof (Forall_mp _ _ _ IH Hd) as Hall.
    destruct items as [|x xs].
    + cbn [Encode.ujson map String.concat]. rewrite !append_assoc.
      cbn [append PyJson.scan_once].
      change (Ascii.eqb "[" Str.dq) with false.
      change (Ascii.eqb "[" "{") with false.
      change (Ascii.eqb "[" "[") with true. cbv iota.
      rewrite skip_ws_newline, skip_ws_margin. reflexivity.
    + rewrite array_text. cbn [append PyJson.scan_once].
      change (Ascii.eqb "[" Str.dq) with false.
      change (Ascii.eqb "[" "{") with false.
      change (Ascii.eqb "[" "[") with true. cbv iota.
      rewrite skip_ws_margin.
      destruct (array_tail_head ind lvl x xs rest) as [c [r [Ht Hc]]].
      rewrite Ht. rewrite skip_ws_stay;
        [|unfold starts_value in Hc; apply andb_true_iff in Hc as [Hc _];
          now apply negb_true_iff].
      unfold starts_value in Hc. apply andb_true_iff in Hc as [_ Hc].
      apply negb_true_iff in Hc. rewrite Hc. rewrite <- Ht.
      rewrite (array_items_tail (x :: xs) Hall ltac:(discriminate)
                 ind lvl rest f); [reflexivity|lia].
  - cbn [distinct_keys] in Hd. destruct Hd as [Hk Hd].
    apply distinct_keys_members in Hd.
    pose proof (Forall_mp _ _ _ IH Hd) as Hall.
    destruct members as [|m ms].
    + cbn [Encode.ujson map String.concat]. rewrite !append_assoc.
      cbn [append PyJson.scan_once].
      change (Ascii.eqb "{" Str.dq) with false.
      change (Ascii.eqb "{" "{") with true. cbv iota.
      rewrite skip_ws_newline, skip_ws_margin. reflexivity.
    + rewrite object_text. cbn [append PyJson.scan_once].
      change (Ascii.eqb "{" Str.dq) with false.
      change (Ascii.eqb "{" "{") with true. cbv iota.
      rewrite skip_ws_margin. unfold Str.DQ at 1.
      cbn [append PyJson.skip_ws].
      change (PyJson.is_ws Str.dq) with false. cbv iota.
      change (Ascii.eqb Str.dq "}") with false. cbv iota.
      rewrite Ascii.eqb_refl.
      rewrite (object_items_tail (m :: ms) Hall ltac:(discriminate)
                 ind lvl rest f); [|lia].
      cbn [rbind]. rewrite (dict_of_distinct _ Hk). reflexivity.
Qed.

Lemma need_items_le {A} (w : A -> nat) (f : A -> string) (sep : string)
    (items : list A) :
  1 <= String.length sep ->
  Forall (fun x => w x <= String.length (f x)) items ->
  fold_right (fun x acc => S (w x + acc)) 0 items
    <= S (String.length (String.concat sep (map f items))).
Proof.
  intros Hsep. induction 1 as [|x xs Hx Hxs IH]; cbn [fold_right]; [lia|].
  destruct xs as [|y ys].
  - cbn [map String.concat fold_right]. lia.
  - change (String.concat sep (map f (x :: y :: ys)))
      with (f x ++ sep ++ String.concat sep (map f (y :: ys))).
    rewrite !length_append. lia.
Qed.

Lemma need_le_length (v : json) :
  forall ind lvl, need v <= String.length (Encode.ujson ind lvl v).
Proof.
  induction v as [| b | z | s | items IH | members IH] using json_ind';
    intros ind lvl.
  - cbn. lia.
  - destruct b; cbn; lia.
  - cbn [need Encode.ujson].
    destruct (of_Z_head z) as [c [r [H _]]]. rewrite H. cbn. lia.
  - cbn [need Encode.ujson]. unfold Encode.quote.
    rewrite length_append. cbn. lia.
  - cbn [need Encode.ujson]. rewrite !length_append.
    cbn [String.length].
    pose proof (need_items_le need
                  (fun x => Encode.margin ind (S lvl)
                              ++ Encode.ujson ind (S lvl) x)
                  ("," ++ Encode.newline ind) items) as Hl.
    cbn [append String.length] in Hl.
    lapply Hl; [clear Hl; intros Hl|lia].
    lapply Hl; [clear Hl; intros Hl; cbn [append] in *; lia|].
    eapply Forall_impl; [|exact IH]. cbv beta. intros x Hx.
    rewrite length_append. specialize (Hx ind (S lvl)). lia.
  - cbn [need Encode.ujson]. rewrite !length_append.
    cbn [String.length].
    pose proof (need_items_le (fun kv : string * json => need (snd kv))
                  (fun kv : string * json =>
                     let (k, x) := kv in
                     Encode.margin ind (S lvl) ++ Encode.quote true false k
                       ++ ":" ++ Encode.ujson ind (S lvl) x)
                  ("," ++ Encode.newline ind) members) as Hl.
    cbn [append String.length] in Hl.
    lapply Hl; [clear Hl; intros Hl|lia].
    lapply Hl; [clear Hl; intros Hl; cbn [append] in *; lia|].
    eapply Forall_impl; [|exact IH]. cbv beta. intros [k x] Hx.
    cbn [snd append] in *. rewrite !length_append. cbn [String.length].
    specialize (Hx ind (S lvl)). lia.
Qed.

(** Reading back a text the pandas encoder wrote gives the value it was
    written from. *)
Lemma loads_ujson (ind : nat) (v : json) :
  distinct_keys v -> PyJson.loads (Encode.ujson ind 0 v) = Ok v.
Proof.
  intros Hd. unfold PyJson.loads.
  pose proof (skip_ws_value ind 0 v "") as Hs.
  rewrite append_nil_r in Hs. rewrite Hs.
  pose proof (scan_once_ujson v Hd ind 0 ""
                (S (2 * String.length (Encode.ujson ind 0 v)))) as Hr.
  rewrite append_nil_r in Hr. rewrite Hr; [reflexivity| |reflexivity].
  pose proof (need_le_length v ind 0). lia.
Qed.

Lemma dict_set_keys (k : string) (v : json) (d : list (string * json)) :
  map fst (PyJson.dict_set k v d)
  = if PandasRef.mem_string k (map fst d) then map fst d
    else (map fst d ++ [k])%list.
Proof.
  induction d as [|[k' v'] d IH]; [reflexivity|].
  cbn [PyJson.dict_set map fst PandasRef.mem_string].
  destruct (String.eqb k' k); [reflexivity|].
  cbn [orb map fst]. rewrite IH.
  destruct (PandasRef.mem_string k (map fst d)); reflexivity.
Qed.

Lemma mem_string_In (k : string) (l : list string) :
  PandasRef.mem_string k l = true <-> In k l.
Proof.
  induction l as [|x l IH]; cbn; [split; [discriminate|tauto]|].
  rewrite orb_true_iff, IH, String.eqb_eq. tauto.
Qed.

Lemma dict_set_nodup (k : string) (v : json) (d : list (string * json)) :
  NoDup (map fst d) -> NoDup (map fst (PyJson.dict_set k v d)).
Proof.
  intros H. rewrite dict_set_keys.
  destruct (PandasRef.mem_string k (map fst d)) eqn:E; [exact H|].
  apply NoDup_app; [exact H|repeat constructor; intros []|].
  intros x Hx [<-|[]].
  apply mem_string_In in Hx. congruence.
Qed.

Lemma dict_set_forall (P : json -> Prop) (k : string) (v : json)
    (d : list (string * json)) :
  Forall (fun kv => P (snd kv)) d -> P v ->
  Forall (fun kv => P (snd kv)) (PyJson.dict_set k v d).
Proof.
  intros Hd Hv. induction Hd as [|[k' v'] d H Hd IH];
    cbn [PyJson.dict_set]; [repeat constructor; exact Hv|].
  destruct (String.eqb k' k); constructor; auto.
Qed.

Lemma dict_of_wf (P : json -> Prop) (l : list (string * json)) :
  Forall (fun kv => P (snd kv)) l ->
  NoDup (map fst (PyJson.dict_of l))
  /\ Forall (fun kv => P (snd kv)) (PyJson.dict_of l).
Proof.
  unfold PyJson.dict_of.
  assert (G : forall acc,
             NoDup (map fst acc) -> Forall (fun kv => P (snd kv)) acc ->
             Forall (fun kv => P (snd kv)) l ->
             let d := fold_left
                        (fun d kv => PyJson.dict_set (fst kv) (snd kv) d)
                        l acc in
             NoDup (map fst d) /\ Forall (fun kv => P (snd kv)) d).
  { induction l as [|[k v] l IH]; intros acc Hn Ha Hl; [split; assumption|].
    inversion Hl; subst. cbn [fold_left fst snd]. apply IH.
    - now apply dict_set_nodup.
    - now apply dict_set_forall.
    - assumption. }
  intros Hl. apply G; [constructor|constructor|exact Hl].
Qed.

Lemma distinct_keys_of_items (items : list json) :
  Forall distinct_keys items ->
  fold_right (fun x acc => distinct_keys x /\ acc) True items.
Proof. induction 1; cbn; auto. Qed.

Lemma distinct_keys_of_members (members : list (string * json)) :
  Forall (fun kv => distinct_keys (snd kv)) members ->
  fold_right (fun kv acc => distinct_keys (snd kv) /\ acc) True members.
Proof. induction 1; cbn; auto. Qed.

Ltac break_in H :=
  repeat match type of H with
         | context [match ?x with _ => _ end] => destruct x eqn:?
         end.

Lemma match_number_int (s : string) (v : json) (r : string) :
  PyJson.match_number s = Some (Ok (v, r)) -> exists z, v = JInt z.
Proof.
  unfold PyJson.match_number. intros H. break_in H; try discriminate;
    inversion H; subst; eauto.
Qed.

(** Whatever the decoder returns has no duplicate key. *)
Lemma scan_distinct (f : nat) :
  (forall s v r, PyJson.scan_once f s = Ok (v, r) -> distinct_keys v)
  /\ (forall s vs r, PyJson.array_items f s = Ok (vs, r) ->
        Forall distinct_keys vs)
  /\ (forall s kvs r, PyJson.object_items f s = Ok (kvs, r) ->
        Forall (fun kv => distinct_keys (snd kv)) kvs).
Proof.
  induction f as [|f [IH1 [IH2 IH3]]];
    [repeat split; intros; discriminate|].
  split; [|split].
  - intros s v r H. cbn [PyJson.scan_once] in H. unfold rbind in H.
    destruct s as [|c s]; [discriminate|].
    destruct (Ascii.eqb c Str.dq).
    { break_in H; try discriminate. inversion H; subst. exact I. }
    destruct (Ascii.eqb c "{").
    { destruct (PyJson.skip_ws s) as [|c1 r1]; [discriminate|].
      destruct (Ascii.eqb c1 "}").
      { inversion H; subst. cbn. split; [constructor|exact I]. }
      destruct (Ascii.eqb c1 Str.dq); [|discriminate].
      destruct (PyJson.object_items f r1) as [[pairs rest]|] eqn:E;
        [|discriminate].
      inversion H; subst. apply IH3 in E.
      destruct (dict_of_wf distinct_keys pairs E) as [Hn Hf].
      cbn [distinct_keys]. split; [exact Hn|].
      now apply distinct_keys_of_members. }
    destruct (Ascii.eqb c "[").
    { destruct (PyJson.skip_ws s) as [|c1 r1]; [discriminate|].
      destruct (Ascii.eqb c1 "]").
      { inversion H; subst. exact I. }
      destruct (PyJson.array_items f (String c1 r1)) as [[items rest]|] eqn:E;
        [|discriminate].
      inversion H; subst. apply IH2 in E. cbn [distinct_keys].
      now apply distinct_keys_of_items. }
    destruct (PyJson.strip_prefix "null" (String c s));
      [inversion H; subst; exact I|].
    destruct (PyJson.strip_prefix "true" (String c s));
      [inversion H; subst; exact I|].
    destruct (PyJson.strip_prefix "false" (String c s));
      [inversion H; subst; exact I|].
    destruct (PyJson.match_number (String c s)) as [res|] eqn:E.
    + subst res. destruct (match_number_int _ _ _ E) as [z ->]. exact I.
    + break_in H; discriminate.
  - intros s vs r H. cbn [PyJson.array_items] in H. unfold rbind in H.
    destruct (PyJson.scan_once f s) as [[v r0]|] eqn:E; [|discriminate].
    apply IH1 in E.
    destruct (PyJson.skip_ws r0) as [|c r1]; [discriminate|].
    destruct (Ascii.eqb c "]"); [inversion H; subst; repeat constructor; exact E|].
    destruct (Ascii.eqb c ","); [|discriminate].
    destruct (PyJson.array_items f (PyJson.skip_ws r1)) as [[ws rest]|] eqn:E2;
      [|discriminate].
    inversion H; subst. constructor; [exact E|]. eapply IH2, E2.
  - intros s kvs r H. cbn [PyJson.object_items] in H. unfold rbind in H.
    destruct (PyJson.scanstring s) as [[key r0]|]; [|discriminate].
    destruct (PyJson.skip_ws r0) as [|c r1]; [discriminate|].
    destruct (Ascii.eqb c ":"); [|discriminate].
    destruct (PyJson.scan_once f (PyJson.skip_ws r1)) as [[v r2]|] eqn:E;
      [|discriminate].
    apply IH1 in E.
    destruct (PyJson.skip_ws r2) as [|c2 r3]; [discriminate|].
    destruct (Ascii.eqb c2 "}");
      [inversion H; subst; repeat constructor; exact E|].
    destruct (Ascii.eqb c2 ","); [|discriminate].
    destruct (PyJson.skip_ws r3) as [|c3 r4]; [discriminate|].
    destruct (Ascii.eqb c3 Str.dq); [|discriminate].
    destruct (PyJson.object_items f r4) as [[ws rest]|] eqn:E2;
      [|discriminate].
    inversion H; subst. constructor; [exact E|]. eapply IH3, E2.
Qed.

Lemma loads_distinct (s : string) (v : json) :
  PyJson.loads s = Ok v -> distinct_keys v.
Proof.
  unfold PyJson.loads, rbind. intros H.
  destruct (PyJson.scan_once _ _) as [[w rest]|] eqn:E; [|discriminate].
  destruct (PyJson.skip_ws rest); [|discriminate].
  inversion H; subst. eapply scan_distinct, E.
Qed.

Lemma add_keys_known (cols : list string) (rec : list (string * json)) :
  (forall k, In k (map fst rec) -> In k cols) ->
  PandasRef.add_keys cols rec = cols.
Proof.
  unfold PandasRef.add_keys. induction rec as [|[k v] rec IH]; intros H;
    [reflexivity|].
  cbn [fold_left fst].
  assert (Hk : PandasRef.mem_string k cols = true)
    by (apply mem_string_In, H; left; reflexivity).
  rewrite Hk. apply IH. intros k' Hk'. apply H. right. exact Hk'.
Qed.

Lemma add_keys_fresh (cols : list string) (rec : list (string * json)) :
  NoDup (cols ++ map fst rec)%list ->
  PandasRef.add_keys cols rec = (cols ++ map fst rec)%list.
Proof.
  unfold PandasRef.add_keys. revert cols.
  induction rec as [|[k v] rec IH]; intros cols H.
  - cbn. now rewrite List.app_nil_r.
  - cbn [fold_left fst map] in *.
    assert (Hk : PandasRef.mem_string k cols = false).
    { destruct (PandasRef.mem_string k cols) eqn:E; [|reflexivity].
      apply mem_string_In in E. apply NoDup_remove_2 in H.
      exfalso. apply H. apply in_or_app. now left. }
    rewrite Hk.
    assert (E : (cols ++ k :: map fst rec = (cols ++ [k]) ++ map fst rec)%list)
      by (rewrite <- List.app_assoc; reflexivity).
    rewrite E in H |- *. apply IH, H.
Qed.

Lemma columns_uniform (keys : list string) (recs : list (list (string * json))) :
  recs <> [] ->
  NoDup keys ->
  (forall rec, In rec recs -> map fst rec = keys) ->
  fold_left PandasRef.add_keys recs [] = keys.
Proof.
  destruct recs as [|r rs]; [congruence|]. intros _ Hn Hk.
  cbn [fold_left].
  rewrite add_keys_fresh; cbn [List.app];
    [|rewrite (Hk r (or_introl eq_refl)); exact Hn].
  rewrite (Hk r (or_introl eq_refl)).
  assert (G : forall rs', (forall rec, In rec rs' -> map fst rec = keys) ->
                          fold_left PandasRef.add_keys rs' keys = keys).
  { induction rs' as [|r' rs' IH]; intros H; [reflexivity|].
    cbn [fold_left]. rewrite add_keys_known.
    - apply IH. intros rec Hr. apply H. now right.
    - intros k Hin. rewrite (H r' (or_introl eq_refl)) in Hin. exact Hin. }
  apply G. intros rec Hr. apply Hk. now right.
Qed.

Lemma row_of_record (rec : list (string * json)) :
  NoDup (map fst rec) ->
  map (fun c => dict_get c rec) (map fst rec)
    = map (fun kv => Some (snd kv)) rec.
Proof.
  induction rec as [|[k v] rec IH]; intros Hn; [reflexivity|].
  cbn [map fst snd dict_get]. rewrite String.eqb_refl. f_equal.
  inversion Hn as [|? ? Hnotin Hn']; subst.
  rewrite <- (IH Hn'). apply map_ext_in. intros c Hc.
  cbn [dict_get].
  destruct (String.eqb_spec k c) as [->|_]; [contradiction|reflexivity].
Qed.

Lemma record_of_row (rec : list (string * json)) :
  combine (map fst rec)
          (map PandasRef.cell_json (map (fun kv => Some (snd kv)) rec))
    = rec.
Proof.
  induction rec as [|[k v] rec IH]; [reflexivity|].
  cbn [map combine fst snd PandasRef.cell_json]. now rewrite IH.
Qed.

(** A table built from records that all list the same keys gives those
    records back. *)
Lemma records_of_uniform (keys : list string)
    (recs : list (list (string * json))) :
  NoDup keys ->
  (forall rec, In rec recs -> map fst rec = keys) ->
  PandasRef.records (PandasRef.frame_of recs) = recs.
Proof.
  intros Hn Hk. destruct recs as [|r rs]; [reflexivity|].
  unfold PandasRef.records, PandasRef.frame_of.
  cbn [PandasRef.columns PandasRef.rows].
  rewrite (columns_uniform keys (r :: rs) ltac:(discriminate) Hn Hk).
  rewrite map_map.
  rewrite <- (map_id (r :: rs)) at 2. apply map_ext_in. intros rec Hr.
  rewrite <- (Hk rec Hr). rewrite row_of_record;
    [|rewrite (Hk rec Hr); exact Hn].
  apply record_of_row.
Qed.

Lemma as_records_map (recs : list (list (string * json))) :
  PandasRef.as_records (map JObj recs) = Some recs.
Proof.
  induction recs as [|r rs IH]; [reflexivity|].
  cbn [map PandasRef.as_records]. now rewrite IH.
Qed.

Lemma keys_of_uniform (keys : list string)
    (recs : list (list (string * json))) :
  distinct_keys (JArr (map JObj recs)) ->
  (forall rec, In rec recs -> map fst rec = keys) ->
  recs <> [] -> NoDup keys.
Proof.
  destruct recs as [|r rs]; [congruence|]. intros Hd Hk _.
  cbn in Hd. destruct Hd as [[Hn _] _].
  now rewrite (Hk r (or_introl eq_refl)) in Hn.
Qed.

(** ** The decoder consumes its input, and has fuel enough *)

Lemma skip_ws_length (s : string) :
  String.length (PyJson.skip_ws s) <= String.length s.
Proof.
  induction s as [|c s IH]; cbn [PyJson.skip_ws]; [lia|].
  destruct (PyJson.is_ws c); cbn [String.length]; lia.
Qed.

Lemma strip_prefix_length (p s r : string) :
  PyJson.strip_prefix p s = Some r ->
  String.length s = String.length p + String.length r.
Proof.
  revert s. induction p as [|a p IH]; intros s H.
  - cbn in H. inversion H. reflexivity.
  - destruct s as [|b s]; [discriminate|]. cbn in H.
    destruct (Ascii.eqb a b); [|discriminate].
    cbn [String.length]. rewrite (IH s H). lia.
Qed.

Lemma read_uint_length (s : string) :
  String.length (snd (PyJson.read_uint s)) <= String.length s.
Proof.
  induction s as [|c s IH]; cbn [PyJson.read_uint]; [cbn; lia|].
  destruct (PyJson.digit_of c); [|cbn; lia].
  destruct (PyJson.read_uint s). cbn [snd String.length] in *. lia.
Qed.

Lemma int_part_length (s : string) (u : uint) (r : string) :
  PyJson.int_part s = Some (u, r) -> String.length r < String.length s.
Proof.
  unfold PyJson.int_part. destruct s as [|c s]; [discriminate|].
  destruct (Ascii.eqb c "0"); [intros H; inversion H; subst; cbn; lia|].
  destruct (PyJson.is_digit c) eqn:E; [|discriminate].
  cbn [PyJson.read_uint]. unfold PyJson.is_digit in E.
  destruct (PyJson.digit_of c); [|discriminate].
  pose proof (read_uint_length s) as Hl.
  destruct (PyJson.read_uint s). intros H. inversion H; subst.
  cbn [snd String.length] in *. lia.
Qed.

Lemma match_number_length (s : string) (v : json) (r : string) :
  PyJson.match_number s = Some (Ok (v, r)) ->
  String.length r < String.length s.
Proof.
  unfold PyJson.match_number. intros H.
  destruct s as [|c s]; [discriminate|].
  destruct (Ascii.eqb c "-").
  - destruct (PyJson.int_part s) as [[u rest]|] eqn:E; [|discriminate].
    apply int_part_length in E.
    destruct (PyJson.float_tail rest); [discriminate|].
    inversion H; subst. cbn [String.length]. lia.
  - destruct (PyJson.int_part (String c s)) as [[u rest]|] eqn:E;
      [|discriminate].
    apply int_part_length in E.
    destruct (PyJson.float_tail rest); [discriminate|].
    inversion H; subst. exact E.
Qed.

Lemma cons_char_ok (c : ascii) (x : result (string * string))
    (k r : string) :
  PyJson.cons_char c x = Ok (k, r) -> exists k', x = Ok (k', r).
Proof.
  unfold PyJson.cons_char, rbind. destruct x as [[k' r']|]; [|discriminate].
  intros H. inversion H; subst. eauto.
Qed.

Lemma scanstring_length (n : nat) :
  forall s k r, String.length s <= n ->
    PyJson.scanstring s = Ok (k, r) -> String.length r < String.length s.
Proof.
  induction n as [|n IH]; intros s k r Hn H.
  - destruct s; [discriminate|cbn in Hn; lia].
  - destruct s as [|c s]; [discriminate|].
    cbn [PyJson.scanstring String.length] in *.
    destruct (Ascii.eqb c Str.dq); [inversion H; subst; lia|].
    destruct (Ascii.eqb c "\").
    + destruct s as [|e r1]; [discriminate|].
      cbn [String.length] in *.
      destruct (Ascii.eqb e "u").
      * destruct r1 as [|h1 [|h2 [|h3 [|h4 r2]]]]; try discriminate.
        cbn [String.length] in *.
        destruct (PyJson.hex4 h1 h2 h3 h4); [|discriminate].
        destruct (_ <? _)%N; [|discriminate].
        apply cons_char_ok in H as [k' H].
        apply IH in H; lia.
      * destruct (PyJson.unescape e); [|discriminate].
        apply cons_char_ok in H as [k' H].
        apply IH in H; lia.
    + destruct (_ <? _)%N; [discriminate|].
      apply cons_char_ok in H as [k' H].
      apply IH in H; lia.
Qed.

Lemma scanstring_consumes (s k r : string) :
  PyJson.scanstring s = Ok (k, r) -> String.length r < String.length s.
Proof. apply (scanstring_length (String.length s)). lia. Qed.

Ltac skip_len r :=
  let H := fresh "Hskip" in
  pose proof (skip_ws_length r) as H.

(** A successful call leaves a strictly shorter text. *)
Lemma scan_consumes (f : nat) :
  (forall s v r, PyJson.scan_once f s = Ok (v, r) ->
     String.length r < String.length s)
  /\ (forall s vs r, PyJson.array_items f s = Ok (vs, r) ->
        String.length r < String.length s)
  /\ (forall s kvs r, PyJson.object_items f s = Ok (kvs, r) ->
        String.length r < String.length s).
Proof.
  induction f as [|f [IH1 [IH2 IH3]]];
    [repeat split; intros; discriminate|].
  split; [|split].
  - intros s v r H. cbn [PyJson.scan_once] in H. unfold rbind in H.
    destruct s as [|c s]; [discriminate|]. cbn [String.length].
    destruct (Ascii.eqb c Str.dq).
    { destruct (PyJson.scanstring s) as [[k r0]|] eqn:E; [|discriminate].
      apply scanstring_consumes in E. inversion H; subst. lia. }
    destruct (Ascii.eqb c "{").
    { skip_len s. destruct (PyJson.skip_ws s) as [|c1 r1]; [discriminate|].
      cbn [String.length] in *.
      destruct (Ascii.eqb c1 "}"); [inversion H; subst; lia|].
      destruct (Ascii.eqb c1 Str.dq); [|discriminate].
      destruct (PyJson.object_items f r1) as [[pairs rest]|] eqn:E;
        [|discriminate].
      apply IH3 in E. inversion H; subst. lia. }
    destruct (Ascii.eqb c "[").
    { skip_len s. destruct (PyJson.skip_ws s) as [|c1 r1]; [discriminate|].
      cbn [String.length] in *.
      destruct (Ascii.eqb c1 "]"); [inversion H; subst; lia|].
      destruct (PyJson.array_items f (String c1 r1)) as [[items rest]|] eqn:E;
        [|discriminate].
      apply IH2 in E. cbn [String.length] in E. inversion H; subst. lia. }
    destruct (PyJson.strip_prefix "null" (String c s)) eqn:E1.
    { apply strip_prefix_length in E1. cbn [String.length] in E1.
      inversion H; subst. lia. }
    destruct (PyJson.strip_prefix "true" (String c s)) eqn:E2.
    { apply strip_prefix_length in E2. cbn [String.length] in E2.
      inversion H; subst. lia. }
    destruct (PyJson.strip_prefix "false" (String c s)) eqn:E3.
    { apply strip_prefix_length in E3. cbn [String.length] in E3.
      inversion H; subst. lia. }
    destruct (PyJson.match_number (String c s)) as [res|] eqn:E.
    + subst res. apply match_number_length in E.
      cbn [String.length] in E. exact E.
    + break_in H; discriminate.
  - intros s vs r H. cbn [PyJson.array_items] in H. unfold rbind in H.
    destruct (PyJson.scan_once f s) as [[v r0]|] eqn:E; [|discriminate].
    apply IH1 in E. skip_len r0.
    destruct (PyJson.skip_ws r0) as [|c r1]; [discriminate|].
    cbn [String.length] in *.
    destruct (Ascii.eqb c "]"); [inversion H; subst; lia|].
    destruct (Ascii.eqb c ","); [|discriminate].
    destruct (PyJson.array_items f (PyJson.skip_ws r1)) as [[ws rest]|] eqn:E2;
      [|discriminate].
    apply IH2 in E2. skip_len r1. inversion H; subst. lia.
  - intros s kvs r H. cbn [PyJson.object_items] in H. unfold rbind in H.
    destruct (PyJson.scanstring s) as [[key r0]|] eqn:Ek; [|discriminate].
    apply scanstring_consumes in Ek. skip_len r0.
    destruct (PyJson.skip_ws r0) as [|c r1]; [discriminate|].
    cbn [String.length] in *.
    destruct (Ascii.eqb c ":"); [|discriminate].
    destruct (PyJson.scan_once f (PyJson.skip_ws r1)) as [[v r2]|] eqn:E;
      [|discriminate].
    apply IH1 in E. skip_len r1. skip_len r2.
    destruct (PyJson.skip_ws r2) as [|c2 r3]; [discriminate|].
    cbn [String.length] in *.
    destruct (Ascii.eqb c2 "}"); [inversion H; subst; lia|].
    destruct (Ascii.eqb c2 ","); [|discriminate].
    skip_len r3.
    destruct (PyJson.skip_ws r3) as [|c3 r4]; [discriminate|].
    cbn [String.length] in *.
    destruct (Ascii.eqb c3 Str.dq); [|discriminate].
    destruct (PyJson.object_items f r4) as [[ws rest]|] eqn:E2;
      [|discriminate].
    apply IH3 in E2. inversion H; subst. lia.
Qed.

(** Past twice the length of the text, more fuel changes nothing: the
    decoder never stops for want of fuel. *)
Lemma fuel_enough (f : nat) :
  (forall s f', 2 * String.length s + 1 <= f -> f <= f' ->
     PyJson.scan_once f' s = PyJson.scan_once f s)
  /\ (forall s f', 2 * String.length s + 2 <= f -> f <= f' ->
        PyJson.array_items f' s = PyJson.array_items f s)
  /\ (forall s f', 2 * String.length s + 2 <= f -> f <= f' ->
        PyJson.object_items f' s = PyJson.object_items f s).
Proof.
  induction f as [|f [IH1 [IH2 IH3]]]; [repeat split; intros; lia|].
  split; [|split]; intros s [|f'] Hs Hf; try lia.
  - cbn [PyJson.scan_once]. destruct s as [|c s]; [reflexivity|].
    cbn [String.length] in Hs.
    destruct (Ascii.eqb c Str.dq); [reflexivity|].
    destruct (Ascii.eqb c "{").
    { skip_len s. destruct (PyJson.skip_ws s) as [|c1 r1]; [reflexivity|].
      cbn [String.length] in *.
      destruct (Ascii.eqb c1 "}"); [reflexivity|].
      destruct (Ascii.eqb c1 Str.dq); [|reflexivity].
      rewrite (IH3 r1 f'); [reflexivity|lia|lia]. }
    destruct (Ascii.eqb c "["); [|reflexivity].
    skip_len s. destruct (PyJson.skip_ws s) as [|c1 r1]; [reflexivity|].
    cbn [String.length] in *.
    destruct (Ascii.eqb c1 "]"); [reflexivity|].
    rewrite (IH2 (String c1 r1) f'); [reflexivity|cbn [String.length]; lia|lia].
  - cbn [PyJson.array_items]. rewrite (IH1 s f'); [|lia|lia].
    unfold rbind.
    destruct (PyJson.scan_once f s) as [[v r0]|] eqn:E; [|reflexivity].
    apply (proj1 (scan_consumes f)) in E. skip_len r0.
    destruct (PyJson.skip_ws r0) as [|c r1]; [reflexivity|].
    cbn [String.length] in *.
    destruct (Ascii.eqb c "]"); [reflexivity|].
    destruct (Ascii.eqb c ","); [|reflexivity].
    skip_len r1. rewrite (IH2 (PyJson.skip_ws r1) f'); [reflexivity|lia|lia].
  - cbn [PyJson.object_items]. unfold rbind.
    destruct (PyJson.scanstring s) as [[key r0]|] eqn:Ek; [|reflexivity].
    apply scanstring_consumes in Ek. skip_len r0.
    destruct (PyJson.skip_ws r0) as [|c r1]; [reflexivity|].
    cbn [String.length] in *.
    destruct (Ascii.eqb c ":"); [|reflexivity].
    skip_len r1. rewrite (IH1 (PyJson.skip_ws r1) f'); [|lia|lia].
    destruct (PyJson.scan_once f (PyJson.skip_ws r1)) as [[v r2]|] eqn:E;
      [|reflexivity].
    apply (proj1 (scan_consumes f)) in E. skip_len r2.
    destruct (PyJson.skip_ws r2) as [|c2 r3]; [reflexivity|].
    cbn [String.length] in *.
    destruct (Ascii.eqb c2 "}"); [reflexivity|].
    destruct (Ascii.eqb c2 ","); [|reflexivity].
    skip_len r3.
    destruct (PyJson.skip_ws r3) as [|c3 r4]; [reflexivity|].
    cbn [String.length] in *.
    destruct (Ascii.eqb c3 Str.dq); [|reflexivity].
    rewrite (IH3 r4 f'); [reflexivity|lia|lia].
Qed.

(** [loads] does not depend on the fuel it gives the decoder. *)
Lemma loads_fuel (s : string) (f : nat) :
  S (2 * String.length s) <= f ->
  PyJson.scan_once f (PyJson.skip_ws s)
    = PyJson.scan_once (S (2 * String.length s)) (PyJson.skip_ws s).
Proof.
  intros Hf. apply (proj1 (fuel_enough _)); [|exact Hf].
  pose proof (skip_ws_length s). lia.
Qed.

(** ** The table of the writer *)

Lemma add_keys_nodup (cols : list string) (rec : list (string * json)) :
  NoDup cols -> NoDup (PandasRef.add_keys cols rec).
Proof.
  unfold PandasRef.add_keys. revert cols.
  induction rec as [|[k v] rec IH]; intros cols Hn; [exact Hn|].
  cbn [fold_left fst]. apply IH.
  destruct (PandasRef.mem_string k cols) eqn:E; [exact Hn|].
  apply NoDup_app; [exact Hn|repeat constructor; intros []|].
  intros x Hx [<-|[]]. apply mem_string_In in Hx. congruence.
Qed.

Lemma columns_nodup (recs : list (list (string * json))) (cols : list string) :
  NoDup cols -> NoDup (fold_left PandasRef.add_keys recs cols).
Proof.
  revert cols. induction recs as [|r rs IH]; intros cols Hn; [exact Hn|].
  cbn [fold_left]. apply IH, add_keys_nodup, Hn.
Qed.

Lemma dict_get_in {V} (k : string) (d : list (string * V)) (v : V) :
  dict_get k d = Some v -> In (k, v) d.
Proof.
  induction d as [|[k' v'] d IH]; [discriminate|]. cbn [dict_get].
  destruct (String.eqb_spec k' k) as [->|_].
  - intros H. inversion H; subst. now left.
  - intros H. right. auto.
Qed.

Lemma dict_get_none {V} (k : string) (d : list (string * V)) :
  dict_get k d = None <-> ~ In k (map fst d).
Proof.
  induction d as [|[k' v'] d IH]; cbn [dict_get map fst In]; [tauto|].
  destruct (String.eqb_spec k' k) as [->|Hne].
  - split; [discriminate|tauto].
  - rewrite IH. tauto.
Qed.

Lemma combine_keys {V} (cols : list string) (g : string -> V) :
  map fst (combine cols (map g cols)) = cols.
Proof.
  induction cols as [|c cols IH]; [reflexivity|].
  cbn [map combine fst]. now rewrite IH.
Qed.

Lemma dict_get_combine {V} (cols : list string) (g : string -> V)
    (k : string) :
  dict_get k (combine cols (map g cols))
    = if PandasRef.mem_string k cols then Some (g k) else None.
Proof.
  induction cols as [|c cols IH]; [reflexivity|].
  cbn [map combine dict_get PandasRef.mem_string].
  destruct (String.eqb_spec c k) as [->|_]; [reflexivity|].
  cbn [orb]. exact IH.
Qed.

(** The record the writer prints for a row: one member per column, null
    where the row has no value. *)
Lemma printed_record (cols : list string) (rec : list (string * json)) :
  combine cols
    (map PandasRef.cell_json (map (fun c => dict_get c rec) cols))
  = combine cols
      (map (fun c => PandasRef.cell_json (dict_get c rec)) cols).
Proof. now rewrite map_map. Qed.

Lemma records_frame (recs : list (list (string * json))) :
  PandasRef.records (PandasRef.frame_of recs)
  = map (fun rec =>
           combine (fold_left PandasRef.add_keys recs [])
             (map (fun c => PandasRef.cell_json (dict_get c rec))
                  (fold_left PandasRef.add_keys recs [])))
        recs.
Proof.
  unfold PandasRef.records, PandasRef.frame_of.
  cbn [PandasRef.columns PandasRef.rows]. rewrite map_map.
  apply map_ext. intros rec. apply printed_record.
Qed.

Lemma distinct_keys_record (members : list (string * json)) :
  distinct_keys (JObj members)
  <-> NoDup (map fst members)
      /\ Forall (fun kv => distinct_keys (snd kv)) members.
Proof.
  cbn [distinct_keys]. split; intros [Hn Hv]; (split; [exact Hn|]).
  - now apply distinct_keys_members.
  - now apply distinct_keys_of_members.
Qed.

Lemma distinct_keys_array (items : list json) :
  distinct_keys (JArr items) <-> Forall distinct_keys items.
Proof.
  cbn [distinct_keys]. split.
  - apply distinct_keys_items.
  - apply distinct_keys_of_items.
Qed.

(** The records of a table have no duplicate key, when the records it was
    built from have none. *)
Lemma table_distinct (recs : list (list (string * json))) :
  distinct_keys (JArr (map JObj recs)) ->
  distinct_keys
    (JArr (map JObj (PandasRef.records (PandasRef.frame_of recs)))).
Proof.
  rewrite !distinct_keys_array, records_frame, !Forall_map.
  intros H. pose proof (columns_nodup recs [] (NoDup_nil _)) as Hc.
  revert H. apply Forall_impl. intros rec Hr.
  apply distinct_keys_record in Hr as [_ Hv].
  apply distinct_keys_record. split; [now rewrite combine_keys|].
  apply Forall_forall. intros [k v] Hin. cbn [snd].
  assert (Hg : dict_get k
                 (combine (fold_left PandasRef.add_keys recs [])
                    (map (fun c => PandasRef.cell_json (dict_get c rec))
                       (fold_left PandasRef.add_keys recs [])))
               = Some v).
  { clear Hv. revert Hin.
    generalize (fun c => PandasRef.cell_json (dict_get c rec)).
    intros g. induction Hc as [|c cols Hnotin Hc IH]; [intros []|].
    cbn [map combine dict_get In]. intros [Heq|Hin].
    - inversion Heq; subst. now rewrite String.eqb_refl.
    - destruct (String.eqb_spec c k) as [->|_]; [|auto].
      exfalso. apply Hnotin.
      apply (in_map fst) in Hin. now rewrite combine_keys in Hin. }
  rewrite dict_get_combine in Hg.
  destruct (PandasRef.mem_string k _); [|discriminate].
  inversion Hg; subst.
  destruct (dict_get k rec) as [w|] eqn:E; [|exact I].
  apply dict_get_in in E. rewrite Forall_forall in Hv.
  apply (Hv (k, w) E).
Qed.

Lemma columns_of_first (r : list (string * json))
    (rs : list (list (string * json))) :
  NoDup (map fst r) ->
  (forall rec k, In rec rs -> In k (map fst rec) -> In k (map fst r)) ->
  fold_left PandasRef.add_keys (r :: rs) [] = map fst r.
Proof.
  intros Hn Hk. cbn [fold_left].
  rewrite add_keys_fresh; cbn [List.app]; [|exact Hn].
  induction rs as [|r' rs IH]; [reflexivity|].
  cbn [fold_left]. rewrite add_keys_known.
  - apply IH. intros rec k Hr. apply Hk. now right.
  - intros k. apply Hk. now left.
Qed.

(** With the same set of keys in every record, the table gives back, row
    by row, a record that maps every key to the same value. *)
Lemma records_same_keys (keys : list string)
    (recs : list (list (string * json))) :
  distinct_keys (JArr (map JObj recs)) ->
  (forall rec k, In rec recs -> (In k (map fst rec) <-> In k keys)) ->
  Forall2 same_record recs (PandasRef.records (PandasRef.frame_of recs)).
Proof.
  intros Hd Hk. rewrite records_frame.
  destruct recs as [|r rs] eqn:E; [constructor|]. rewrite <- E in *.
  assert (Hr0 : In r recs) by (rewrite E; now left).
  assert (Hrs : forall rec, In rec rs -> In rec recs)
    by (intros rec Hr; rewrite E; now right).
  apply distinct_keys_array in Hd. rewrite Forall_map in Hd.
  assert (Hcols : fold_left PandasRef.add_keys recs [] = map fst r).
  { rewrite E. apply columns_of_first.
    - rewrite Forall_forall in Hd.
      apply (proj1 (proj1 (distinct_keys_record r) (Hd r Hr0))).
    - intros rec k Hr Hin.
      apply (Hk r k Hr0). apply (Hk rec k (Hrs rec Hr)). exact Hin. }
  rewrite Hcols.
  assert (G : forall l, (forall rec, In rec l -> In rec recs) ->
              Forall2 same_record l
                (map (fun rec =>
                        combine (map fst r)
                          (map (fun c => PandasRef.cell_json (dict_get c rec))
                               (map fst r))) l)).
  { induction l as [|rec l IH]; intros Hl; [constructor|].
    cbn [map]. constructor; [|apply IH; intros; apply Hl; now right].
    intros k. rewrite dict_get_combine.
    destruct (PandasRef.mem_string k (map fst r)) eqn:Em.
    - apply mem_string_In in Em.
      assert (Hin : In k (map fst rec)).
      { apply (Hk rec k (Hl rec (or_introl eq_refl))).
        apply (Hk r k Hr0). exact Em. }
      destruct (dict_get k rec) as [w|] eqn:Eg; [reflexivity|].
      apply dict_get_none in Eg. contradiction.
    - symmetry. apply dict_get_none. intros Hin.
      assert (Hr : In k (map fst r)).
      { apply (Hk r k Hr0).
        apply (Hk rec k (Hl rec (or_introl eq_refl))). exact Hin. }
      apply mem_string_In in Hr. congruence. }
  apply G. auto.
Qed.

(** ** The round trip of the writer *)

(** The reference reading is the one that converts nothing: it gives the
    table of the records of the text. *)
Lemma read_json_records (text_ : string) (recs : list (list (string * json))) :
  PyJson.loads text_ = Ok (JArr (map JObj recs)) ->
  PandasRef.read_json text_ = Ok (PandasRef.frame_of recs).
Proof.
  intros H. unfold PandasRef.read_json. rewrite H, as_records_map.
  reflexivity.
Qed.

(** Whatever array of records the writer is handed with a path that ends
    in [.json], when pandas reads it into the table of those records, the
    writer writes one file, and the file reads back as the records of the
    table. *)
Lemma writer_reads_back_table (read : string -> result PandasRef.frame)
    (text_ name : string) (recs : list (list (string * json))) :
  distinct_keys (JArr (map JObj recs)) ->
  read text_ = Ok (PandasRef.frame_of recs) ->
  exists content,
    Writer_save (pandas := TablePandas read) (name ++ ".json") text_
      = ([FileWrite (name ++ ".json") content], Ok tt)
    /\ PyJson.loads content
       = Ok (JArr (map JObj (PandasRef.records (PandasRef.frame_of recs)))).
Proof.
  intros Hd Hr.
  exists (PandasRef.to_json_text (PandasRef.frame_of recs)). split.
  - apply (Writer_save_json (pandas := TablePandas read) text_
             (PandasRef.frame_of recs) name); [exact Hr|reflexivity].
  - apply loads_ujson, table_distinct, Hd.
Qed.

(** C8, as amended.  For every JSON array of records that all have the
    same set of keys, and that pandas reads into the table of those
    records, labels and values as the text has them, handed to the writer
    with a path that ends in [.json]: the writer writes one file, and
    parsing its content gives as many records, in the same order, each
    mapping every key to the same value as the record it comes from.
    When the records also list their keys in the same order, parsing the
    file gives exactly the array that parsing the text gives.  The
    reading of pandas is [read]: the statement is about every pandas
    that reads this text this way, and says nothing of a text whose
    values or labels pandas converts. *)
Theorem uniform_records_round_trip
    (read : string -> result PandasRef.frame) (text_ name : string)
    (recs : list (list (string * json))) (keys : list string) :
  PyJson.loads text_ = Ok (JArr (map JObj recs)) ->
  read text_ = Ok (PandasRef.frame_of recs) ->
  (forall rec k, In rec recs -> (In k (map fst rec) <-> In k keys)) ->
  exists content recs',
    Writer_save (pandas := TablePandas read) (name ++ ".json") text_
      = ([FileWrite (name ++ ".json") content], Ok tt)
    /\ PyJson.loads content = Ok (JArr (map JObj recs'))
    /\ Forall2 same_record recs recs'
    /\ ((forall rec, In rec recs -> map fst rec = keys) -> recs' = recs).
Proof.
  intros Hl Hread Hk.
  pose proof (loads_distinct _ _ Hl) as Hd.
  destruct (writer_reads_back_table read text_ name recs Hd Hread)
    as [content [Hw Hr]].
  exists content, (PandasRef.records (PandasRef.frame_of recs)).
  split; [exact Hw|]. split; [exact Hr|]. split.
  - apply (records_same_keys keys); assumption.
  - intros Ho. destruct recs as [|r rs] eqn:E; [reflexivity|].
    rewrite <- E in *. apply (records_of_uniform keys); [|exact Ho].
    apply (keys_of_uniform keys recs Hd Ho). rewrite E. discriminate.
Qed.

Lemma uniform_records_round_trip_witness :
  PyJson.loads uniform_text = Ok (JArr (map JObj uniform_records))
  /\ PandasRef.read_json uniform_text
     = Ok (PandasRef.frame_of uniform_records)
  /\ exists content recs',
       Writer_save (pandas := TablePandas PandasRef.read_json)
         ("out" ++ ".json") uniform_text
         = ([FileWrite ("out" ++ ".json") content], Ok tt)
       /\ PyJson.loads content = Ok (JArr (map JObj recs'))
       /\ Forall2 same_record uniform_records recs'
       /\ ((forall rec, In rec uniform_records ->
              map fst rec = ["id"; "name"]) -> recs' = uniform_records).
Proof.
  split; [reflexivity|]. split; [reflexivity|].
  apply (uniform_records_round_trip PandasRef.read_json uniform_text "out"
           uniform_records ["id"; "name"]); [reflexivity|reflexivity|].
  intros rec k [<-|[<-|[]]]; reflexivity.
Defined.

(** ** The decoder on a text with more text after it *)

Lemma skip_ws_app_stop (r x : string) (c : ascii) (r1 : string) :
  PyJson.skip_ws r = String c r1 ->
  PyJson.skip_ws (r ++ x) = String c (r1 ++ x).
Proof.
  induction r as [|a r IH]; cbn [PyJson.skip_ws append]; [discriminate|].
  destruct (PyJson.is_ws a); [exact IH|].
  intros H. inversion H; subst. reflexivity.
Qed.

Lemma skip_ws_app_blank (r x : string) :
  PyJson.skip_ws r = EmptyString ->
  PyJson.skip_ws (r ++ x) = PyJson.skip_ws x.
Proof.
  induction r as [|a r IH]; cbn [PyJson.skip_ws append]; [reflexivity|].
  destruct (PyJson.is_ws a); [exact IH|discriminate].
Qed.

Lemma strip_prefix_more (p s r x : string) :
  PyJson.strip_prefix p s = Some r ->
  PyJson.strip_prefix p (s ++ x) = Some (r ++ x).
Proof.
  revert s. induction p as [|a p IH]; intros s H.
  - cbn in *. inversion H; subst. reflexivity.
  - destruct s as [|b s]; [discriminate|]. cbn in *.
    destruct (Ascii.eqb a b); [auto|discriminate].
Qed.

Lemma cons_char_more (c : ascii) (y : result (string * string))
    (k r x : string) (y' : result (string * string)) :
  (forall k', y = Ok (k', r) -> y' = Ok (k', r ++ x)) ->
  PyJson.cons_char c y = Ok (k, r) ->
  PyJson.cons_char c y' = Ok (k, r ++ x).
Proof.
  intros Hy H. unfold PyJson.cons_char, rbind in *.
  destruct y as [[k' r']|]; [|discriminate].
  inversion H; subst. rewrite (Hy k' eq_refl). reflexivity.
Qed.

Lemma scanstring_more_bounded (n : nat) :
  forall s k r x, String.length s <= n ->
    PyJson.scanstring s = Ok (k, r) ->
    PyJson.scanstring (s ++ x) = Ok (k, r ++ x).
Proof.
  induction n as [|n IH]; intros s k r x Hn H.
  - destruct s; [discriminate|cbn in Hn; lia].
  - destruct s as [|c s]; [discriminate|].
    cbn [PyJson.scanstring String.length append] in *.
    destruct (Ascii.eqb c Str.dq); [inversion H; subst; reflexivity|].
    destruct (Ascii.eqb c "\").
    + destruct s as [|e r1]; [discriminate|].
      cbn [String.length append] in *.
      destruct (Ascii.eqb e "u").
      * destruct r1 as [|h1 [|h2 [|h3 [|h4 r2]]]]; try discriminate.
        cbn [String.length append] in *.
        destruct (PyJson.hex4 h1 h2 h3 h4); [|discriminate].
        destruct (_ <? _)%N; [|discriminate].
        revert H. apply cons_char_more. intros k' Hk.
        apply IH; [lia|exact Hk].
      * destruct (PyJson.unescape e); [|discriminate].
        revert H. apply cons_char_more. intros k' Hk.
        apply IH; [lia|exact Hk].
    + destruct (_ <? _)%N; [discriminate|].
      revert H. apply cons_char_more. intros k' Hk.
      apply IH; [lia|exact Hk].
Qed.

Lemma scanstring_more (s k r x : string) :
  PyJson.scanstring s = Ok (k, r) ->
  PyJson.scanstring (s ++ x) = Ok (k, r ++ x).
Proof. apply (scanstring_more_bounded (String.length s)). lia. Qed.

Lemma read_uint_more (s : string) (u : uint) (r x : string) :
  PyJson.read_uint s = (u, r) -> r <> EmptyString ->
  PyJson.read_uint (s ++ x) = (u, r ++ x).
Proof.
  revert u. induction s as [|c s IH]; intros u H Hr.
  - cbn in H. inversion H; subst. congruence.
  - cbn [PyJson.read_uint append] in *.
    destruct (PyJson.digit_of c) as [d|].
    + destruct (PyJson.read_uint s) as [u' r'] eqn:E.
      inversion H; subst. rewrite (IH u' eq_refl Hr). reflexivity.
    + inversion H; subst. reflexivity.
Qed.

Lemma int_part_more (s : string) (u : uint) (r x : string) :
  PyJson.int_part s = Some (u, r) -> r <> EmptyString ->
  PyJson.int_part (s ++ x) = Some (u, r ++ x).
Proof.
  unfold PyJson.int_part. destruct s as [|c s]; [discriminate|].
  cbn [append]. destruct (Ascii.eqb c "0").
  - intros H _. inversion H; subst. reflexivity.
  - destruct (PyJson.is_digit c); [|discriminate].
    intros H Hr.
    assert (H1 : PyJson.read_uint (String c s) = (u, r)) by congruence.
    change (String c (s ++ x)) with (String c s ++ x).
    rewrite (read_uint_more _ _ _ x H1 Hr). reflexivity.
Qed.

Lemma number_ends_more (r x : string) :
  r <> EmptyString -> number_ends (r ++ x) = number_ends r.
Proof. destruct r; [congruence|reflexivity]. Qed.

Lemma match_number_more (s : string) (v : json) (r x : string) :
  PyJson.match_number s = Some (Ok (v, r)) ->
  r <> EmptyString -> number_ends r = true ->
  PyJson.match_number (s ++ x) = Some (Ok (v, r ++ x)).
Proof.
  unfold PyJson.match_number. intros H Hr He.
  assert (Hf : forall rest, rest = r ->
                 PyJson.float_tail (rest ++ x) = false).
  { intros rest ->. apply float_tail_stop.
    now rewrite number_ends_more. }
  destruct s as [|c s]; [discriminate|]. cbn [append].
  destruct (Ascii.eqb c "-").
  - destruct (PyJson.int_part s) as [[u rest]|] eqn:E; [|discriminate].
    destruct (PyJson.float_tail rest); [discriminate|].
    inversion H; subst.
    rewrite (int_part_more _ _ _ x E Hr), (Hf r eq_refl). reflexivity.
  - destruct (PyJson.int_part (String c s)) as [[u rest]|] eqn:E;
      [|discriminate].
    destruct (PyJson.float_tail rest); [discriminate|].
    inversion H; subst.
    change (String c (s ++ x)) with (String c s ++ x).
    rewrite (int_part_more _ _ _ x E Hr), (Hf r eq_refl). reflexivity.
Qed.

Lemma match_number_head (s : string) (res : result (json * string)) :
  PyJson.match_number s = Some res ->
  exists c s', s = String c s'
               /\ (PyJson.is_digit c = true \/ c = "-"%char).
Proof.
  unfold PyJson.match_number. destruct s as [|c s]; [discriminate|].
  intros H. exists c, s. split; [reflexivity|].
  destruct (Ascii.eqb_spec c "-") as [->|_]; [now right|].
  left. unfold PyJson.int_part in H.
  destruct (Ascii.eqb_spec c "0") as [->|_]; [reflexivity|].
  destruct (PyJson.is_digit c); [reflexivity|discriminate].
Qed.

Lemma strip_prefix_head (a c : ascii) (p s r : string) :
  PyJson.strip_prefix (String a p) (String c s) = Some r ->
  c = a /\ PyJson.strip_prefix p s = Some r.
Proof.
  cbn [PyJson.strip_prefix].
  destruct (Ascii.eqb_spec a c) as [->|_]; [auto|discriminate].
Qed.

Lemma strip_prefix_miss (a c : ascii) (p s : string) :
  a <> c -> PyJson.strip_prefix (String a p) (String c s) = None.
Proof.
  intros H. cbn [PyJson.strip_prefix].
  destruct (Ascii.eqb_spec a c); [contradiction|reflexivity].
Qed.

Lemma strip_prefix_hit (c : ascii) (p s : string) :
  PyJson.strip_prefix (String c p) (String c s) = PyJson.strip_prefix p s.
Proof. cbn [PyJson.strip_prefix]. now rewrite Ascii.eqb_refl. Qed.

Lemma ws_ends_number (a : ascii) (s : string) :
  PyJson.is_ws a = true -> number_ends (String a s) = true.
Proof.
  unfold PyJson.is_ws. intros H.
  repeat (apply orb_true_iff in H as [H|H]);
    apply Ascii.eqb_eq in H; subst a; reflexivity.
Qed.

(** What is followed, after blanks, by a delimiter is followed by
    something that ends a number. *)
Lemma delimiter_settles (v : json) (r0 : string) (c : ascii) (r1 : string) :
  PyJson.skip_ws r0 = String c r1 ->
  number_ends (String c r1) = true ->
  settled v r0.
Proof.
  intros Hs Hc.
  assert (H : r0 <> EmptyString /\ number_ends r0 = true).
  { destruct r0 as [|a r0]; [discriminate|]. split; [discriminate|].
    cbn [PyJson.skip_ws] in Hs. destruct (PyJson.is_ws a) eqn:E.
    - now apply ws_ends_number.
    - now rewrite Hs. }
  destruct v; cbn; auto.
Qed.

Lemma scan_once_empty (f : nat) (v : json) (r : string) :
  PyJson.scan_once f EmptyString <> Ok (v, r).
Proof. destruct f; discriminate. Qed.

(** A value the decoder has read is read the same way when more text
    follows, provided a number was not cut short by the end of the text. *)
Lemma scan_more (f : nat) :
  (forall s v r x, PyJson.scan_once f s = Ok (v, r) -> settled v r ->
     PyJson.scan_once f (s ++ x) = Ok (v, r ++ x))
  /\ (forall s vs r x, PyJson.array_items f s = Ok (vs, r) ->
        PyJson.array_items f (s ++ x) = Ok (vs, r ++ x))
  /\ (forall s kvs r x, PyJson.object_items f s = Ok (kvs, r) ->
        PyJson.object_items f (s ++ x) = Ok (kvs, r ++ x)).
Proof.
  induction f as [|f [IH1 [IH2 IH3]]];
    [repeat split; intros; discriminate|].
  split; [|split].
  - intros s v r x H Hs. destruct s as [|c s]; [discriminate|].
    cbn [PyJson.scan_once append] in H |- *. unfold rbind in H |- *.
    destruct (Ascii.eqb c Str.dq).
    { destruct (PyJson.scanstring s) as [[k r0]|] eqn:E; [|discriminate].
      inversion H; subst. rewrite (scanstring_more _ _ _ x E). reflexivity. }
    destruct (Ascii.eqb c "{").
    { destruct (PyJson.skip_ws s) as [|c1 r1] eqn:E; [discriminate|].
      rewrite (skip_ws_app_stop _ x _ _ E).
      destruct (Ascii.eqb c1 "}"); [inversion H; subst; reflexivity|].
      destruct (Ascii.eqb c1 Str.dq); [|discriminate].
      destruct (PyJson.object_items f r1) as [[pairs rest]|] eqn:E2;
        [|discriminate].
      inversion H; subst. rewrite (IH3 _ _ _ x E2). reflexivity. }
    destruct (Ascii.eqb c "[").
    { destruct (PyJson.skip_ws s) as [|c1 r1] eqn:E; [discriminate|].
      rewrite (skip_ws_app_stop _ x _ _ E).
      destruct (Ascii.eqb c1 "]"); [inversion H; subst; reflexivity|].
      destruct (PyJson.array_items f (String c1 r1)) as [[items rest]|] eqn:E2;
        [|discriminate].
      inversion H; subst.
      change (String c1 (r1 ++ x)) with (String c1 r1 ++ x).
      rewrite (IH2 _ _ _ x E2). reflexivity. }
    destruct (PyJson.strip_prefix "null" (String c s)) as [r0|] eqn:E1.
    { inversion H; subst.
      change (String c (s ++ x)) with (String c s ++ x).
      rewrite (strip_prefix_more _ _ _ x E1). reflexivity. }
    destruct (PyJson.strip_prefix "true" (String c s)) as [r0|] eqn:E2.
    { inversion H; subst. destruct (strip_prefix_head _ _ _ _ _ E2) as [-> E].
      rewrite (strip_prefix_miss "n" "t") by discriminate.
      rewrite strip_prefix_hit, (strip_prefix_more _ _ _ x E). reflexivity. }
    destruct (PyJson.strip_prefix "false" (String c s)) as [r0|] eqn:E3.
    { inversion H; subst. destruct (strip_prefix_head _ _ _ _ _ E3) as [-> E].
      rewrite (strip_prefix_miss "n" "f") by discriminate.
      rewrite (strip_prefix_miss "t" "f") by discriminate.
      rewrite strip_prefix_hit, (strip_prefix_more _ _ _ x E). reflexivity. }
    destruct (PyJson.match_number (String c s)) as [res|] eqn:E.
    + subst res. destruct (match_number_int _ _ _ E) as [z ->].
      destruct Hs as [Hr He].
      destruct (match_number_head _ _ E) as [c' [s' [Hcs Hc]]].
      inversion Hcs; subst c' s'.
      pose proof (match_number_more _ _ _ x E Hr He) as Em.
      cbn [append] in Em.
      pose proof (scan_once_number f c (s ++ x) _ Hc Em) as Hn.
      cbn [PyJson.scan_once] in Hn. unfold rbind in Hn.
      destruct Hc as [Hd| ->].
      * destruct c as [[] [] [] [] [] [] [] []]; try discriminate Hd;
          exact Hn.
      * exact Hn.
    + break_in H; discriminate.
  - intros s vs r x H. cbn [PyJson.array_items] in H |- *.
    unfold rbind in H |- *.
    destruct (PyJson.scan_once f s) as [[v r0]|] eqn:E; [|discriminate].
    destruct (PyJson.skip_ws r0) as [|c r1] eqn:Er; [discriminate|].
    destruct (Ascii.eqb_spec c "]") as [->|_].
    { inversion H; subst.
      rewrite (IH1 _ _ _ x E (delimiter_settles _ _ _ _ Er eq_refl)).
      rewrite (skip_ws_app_stop _ x _ _ Er). reflexivity. }
    destruct (Ascii.eqb_spec c ",") as [->|_]; [|discriminate].
    rewrite (IH1 _ _ _ x E (delimiter_settles _ _ _ _ Er eq_refl)).
    rewrite (skip_ws_app_stop _ x _ _ Er). cbn.
    destruct (PyJson.array_items f (PyJson.skip_ws r1)) as [[ws rest]|] eqn:E2;
      [|discriminate].
    inversion H; subst.
    destruct (PyJson.skip_ws r1) as [|c' r'] eqn:Er1.
    { exfalso. destruct f as [|f']; [discriminate|].
      cbn [PyJson.array_items] in E2. unfold rbind in E2.
      destruct (PyJson.scan_once f' "") as [[? ?]|] eqn:E3; [|discriminate].
      now apply scan_once_empty in E3. }
    rewrite (skip_ws_app_stop _ x _ _ Er1).
    change (String c' (r' ++ x)) with (String c' r' ++ x).
    rewrite (IH2 _ _ _ x E2). reflexivity.
  - intros s kvs r x H. cbn [PyJson.object_items] in H |- *.
    unfold rbind in H |- *.
    destruct (PyJson.scanstring s) as [[key r0]|] eqn:Ek; [|discriminate].
    rewrite (scanstring_more _ _ _ x Ek).
    destruct (PyJson.skip_ws r0) as [|c r1] eqn:Er; [discriminate|].
    rewrite (skip_ws_app_stop _ x _ _ Er).
    destruct (Ascii.eqb c ":"); [|discriminate].
    destruct (PyJson.scan_once f (PyJson.skip_ws r1)) as [[v r2]|] eqn:E;
      [|discriminate].
    destruct (PyJson.skip_ws r1) as [|c' r'] eqn:Er1;
      [now apply scan_once_empty in E|].
    rewrite (skip_ws_app_stop _ x _ _ Er1).
    change (String c' (r' ++ x)) with (String c' r' ++ x).
    destruct (PyJson.skip_ws r2) as [|c2 r3] eqn:Er2; [discriminate|].
    destruct (Ascii.eqb_spec c2 "}") as [->|_].
    { inversion H; subst.
      rewrite (IH1 _ _ _ x E (delimiter_settles _ _ _ _ Er2 eq_refl)).
      rewrite (skip_ws_app_stop _ x _ _ Er2). reflexivity. }
    destruct (Ascii.eqb_spec c2 ",") as [->|_]; [|discriminate].
    rewrite (IH1 _ _ _ x E (delimiter_settles _ _ _ _ Er2 eq_refl)).
    rewrite (skip_ws_app_stop _ x _ _ Er2). cbn.
    destruct (PyJson.skip_ws r3) as [|c3 r4] eqn:Er3; [discriminate|].
    rewrite (skip_ws_app_stop _ x _ _ Er3).
    destruct (Ascii.eqb c3 Str.dq); [|discriminate].
    destruct (PyJson.object_items f r4) as [[ws rest]|] eqn:E2;
      [|discriminate].
    inversion H; subst. rewrite (IH3 _ _ _ x E2). reflexivity.
Qed.

Lemma scan_once_brace (f : nat) (s : string) (v : json) (r : string) :
  PyJson.scan_once f (String "{" s) = Ok (v, r) -> exists m, v = JObj m.
Proof.
  destruct f as [|f]; [discriminate|].
  cbn [PyJson.scan_once]. unfold rbind.
  change (Ascii.eqb "{" Str.dq) with false.
  change (Ascii.eqb "{" "{") with true. cbv iota.
  intros H. break_in H; try discriminate; inversion H; subst; eauto.
Qed.

(** A text that starts with an opening brace decodes to an object, if it
    decodes at all. *)
Lemma loads_brace (t : string) (v : json) :
  Str.startswith "{" t = true -> PyJson.loads t = Ok v ->
  exists m, v = JObj m.
Proof.
  intros Hs H. destruct t as [|c t]; [discriminate|].
  cbn in Hs. apply Ascii.eqb_eq in Hs. subst c.
  unfold PyJson.loads, rbind in H.
  change (PyJson.skip_ws (String "{" t)) with (String "{" t) in H.
  destruct (PyJson.scan_once _ _) as [[w rest]|] eqn:E; [|discriminate].
  destruct (PyJson.skip_ws rest); [|discriminate].
  inversion H; subst. eapply scan_once_brace, E.
Qed.

(** When a text starts with an opening brace and decodes, the text
    between square brackets decodes to the array whose only item is the
    value of the text. *)
Lemma loads_wrapped (t : string) (v : json) :
  Str.startswith "{" t = true ->
  PyJson.loads t = Ok v ->
  PyJson.loads ("[" ++ t ++ "]") = Ok (JArr [v]).
Proof.
  intros Hs H. destruct (loads_brace t v Hs H) as [m ->].
  destruct t as [|c t]; [discriminate|].
  cbn in Hs. apply Ascii.eqb_eq in Hs. subst c.
  unfold PyJson.loads, rbind in H.
  change (PyJson.skip_ws (String "{" t)) with (String "{" t) in H.
  destruct (PyJson.scan_once (S (2 * String.length (String "{" t)))
              (String "{" t)) as [[w rest]|] eqn:E; [|discriminate].
  destruct (PyJson.skip_ws rest) eqn:Er; [|discriminate].
  inversion H; subst w. clear H.
  set (s := String "{" t) in *.
  assert (E' : PyJson.scan_once (2 * String.length s + 3) (s ++ "]")
               = Ok (JObj m, rest ++ "]")).
  { apply (proj1 (scan_more _)); [|exact I].
    rewrite (proj1 (fuel_enough (S (2 * String.length s))) s
               (2 * String.length s + 3)); [exact E|lia|lia]. }
  unfold PyJson.loads.
  replace (S (2 * String.length ("[" ++ s ++ "]")))
    with (S (S (2 * String.length s + 3)))
    by (cbn [append String.length]; rewrite length_append; cbn; lia).
  change (PyJson.skip_ws ("[" ++ s ++ "]")) with (String "[" (s ++ "]")).
  cbn [PyJson.scan_once]. 
  change (Ascii.eqb "[" Str.dq) with false.
  change (Ascii.eqb "[" "{") with false.
  change (Ascii.eqb "[" "[") with true. cbv iota.
  change (PyJson.skip_ws (s ++ "]")) with (String "{" (t ++ "]")).
  change (Ascii.eqb "{" "]") with false. cbv iota.
  cbn [PyJson.array_items].
  change (String "{" (t ++ "]")) with (s ++ "]"). rewrite E'.
  cbn [rbind]. rewrite (skip_ws_app_blank _ _ Er). reflexivity.
Qed.

(** ** All the paths through the script *)

Section Paths.

Context {argparse : Argparse} {jsonlib : Json} {requests : Requests}
        {pandas : Pandas}.

(** The request method either raises before calling the HTTP client, or
    calls it once, on the fixed domain, and answers what it answers. *)
Lemma getattr_shape (p : payload) :
  (exists e, APITester_getattr (method p) p (request_url p) = ([], Raise e))
  \/ (exists d,
        APITester_getattr (method p) p (request_url p)
          = ([HttpRequest (mkRequest (method p) (request_url p) d)],
             send (mkRequest (method p) (request_url p) d))
        /\ (method p = get -> d = None)).
Proof.
  destruct (method p) eqn:Em.
  - right. exists None. split; [reflexivity|reflexivity].
  - cbn [APITester_getattr]. unfold APITester_post, py_json_loads.
    destruct (data p) as [s|].
    + destruct (json_loads s) as [v|e] eqn:Ej.
      * right. exists (Some v). split; [reflexivity|discriminate].
      * left. unfold try_except_else, lift, raise. cbn [select].
        destruct (is_TypeError e); eexists; reflexivity.
    + left. eexists. reflexivity.
Qed.

(** What [__init__] does when the request method raises. *)
Lemma init_on_error (save : string -> string -> M unit) (p : payload)
    (tr : list event) (e : exn) :
  APITester_getattr (method p) p (request_url p) = (tr, Raise e) ->
  APITester_init_with save p
    = if is_Exception e then ((tr ++ [Print (str_exn e)])%list, Ok tt)
      else (tr, Raise e).
Proof.
  intros H. unfold APITester_init_with. fold (request_url p). rewrite H.
  cbn. destruct (is_Exception e); reflexivity.
Qed.

(** X1.  A GET never looks at the data: whatever follows [-d], valid JSON
    or not, [__init__] behaves as it does without it. *)
Theorem get_ignores_data (save : string -> string -> M unit)
    (e : string) (d : option string) (o : option string) :
  APITester_init_with save (mkPayload get e d o)
    = APITester_init_with save (mkPayload get e None o).
Proof.
  unfold APITester_init_with, try_except_else. cbn [method endpoint].
  cbn [APITester_getattr]. unfold APITester_get.
  destruct (_ <- _ ;; _) as [tr [r|x]]; reflexivity.
Qed.

(** X2.  When the HTTP client raises an exception after it was called,
    [__init__] prints the exception and returns: no status line, no call
    of [save]; [main] ends normally on that message. *)
Theorem request_failure_is_reported (save : string -> string -> M unit)
    (p : payload) (req : request) (e : exn) :
  APITester_getattr (method p) p (request_url p)
    = ([HttpRequest req], Raise e) ->
  is_Exception e = true ->
  APITester_init_with save p
    = ([HttpRequest req; Print (str_exn e)], Ok tt)
  /\ (forall argv tr0, parse_args argv = (tr0, Ok p) ->
      main argv
        = ((tr0 ++ [HttpRequest req; Print (str_exn e)])%list, Ok tt)).
Proof.
  intros Hd He.
  assert (Hi : forall sv, APITester_init_with sv p
                 = ([HttpRequest req; Print (str_exn e)], Ok tt)).
  { intros sv. rewrite (init_on_error sv p _ _ Hd), He. reflexivity. }
  split; [apply Hi|].
  intros argv tr0 Hp. unfold main. rewrite Hp, bind_ok.
  unfold APITester_init. rewrite Hi. simpl.
  rewrite ?List.app_nil_r. reflexivity.
Qed.

(** What [__init__] does on a 2xx response when no output path is given. *)
Lemma init_without_output (save : string -> string -> M unit)
    (p : payload) (req : request) (r : response) :
  APITester_getattr (method p) p (request_url p)
    = ([HttpRequest req], Ok r) ->
  not_success r = false ->
  (output p = None \/ output p = Some EmptyString) ->
  APITester_init_with save p
    = match json_loads (text r) with
      | Ok v => ([HttpRequest req; Print (status_line r); PPrint v], Ok tt)
      | Raise e => ([HttpRequest req; Print (status_line r)], Raise e)
      end.
Proof.
  intros Hd Hn Ho.
  rewrite (init_after_response save p req r Hd).
  rewrite (success_passes_status_check r Hn).
  unfold on_response. rewrite Hn.
  assert (Hb : match output p with
               | Some out =>
                   if Str.truthy out
                   then save out (normalized_text (text r))
                   else v <- Response_json r;; emit (PPrint v)
               | None => v <- Response_json r;; emit (PPrint v)
               end = (v <- Response_json r;; emit (PPrint v)))
    by (destruct Ho as [-> | ->]; reflexivity).
  rewrite Hb. unfold Response_json, lift.
  destruct (json_loads (text r)); reflexivity.
Qed.

(** X3.  On a 2xx response without an output path (none, or an empty
    one), [__init__] pretty-prints the decoded body after the status line
    and writes no file. *)
Theorem body_is_pretty_printed (save : string -> string -> M unit)
    (p : payload) (req : request) (r : response) (v : json) :
  APITester_getattr (method p) p (request_url p)
    = ([HttpRequest req], Ok r) ->
  not_success r = false ->
  (output p = None \/ output p = Some EmptyString) ->
  json_loads (text r) = Ok v ->
  APITester_init_with save p
    = ([HttpRequest req; Print (status_line r); PPrint v], Ok tt).
Proof.
  intros Hd Hn Ho Hj.
  rewrite (init_without_output save p req r Hd Hn Ho), Hj. reflexivity.
Qed.

(** X4.  On a 2xx response without an output path whose body does not
    decode, the error is raised in the [else] suite: it is not caught by
    [__init__], which raises it after the status line; [main] catches it
    and prints it. *)
Theorem undecodable_body_escapes_init (save : string -> string -> M unit)
    (p : payload) (req : request) (r : response) (e : exn) :
  APITester_getattr (method p) p (request_url p)
    = ([HttpRequest req], Ok r) ->
  not_success r = false ->
  (output p = None \/ output p = Some EmptyString) ->
  json_loads (text r) = Raise e ->
  is_Exception e = true ->
  APITester_init_with save p
    = ([HttpRequest req; Print (status_line r)], Raise e)
  /\ (forall argv tr0, parse_args argv = (tr0, Ok p) ->
      main argv
        = ((tr0 ++ [HttpRequest req; Print (status_line r);
                    Print (str_exn e)])%list, Ok tt)).
Proof.
  intros Hd Hn Ho Hj He.
  assert (Hi : forall sv, APITester_init_with sv p
                 = ([HttpRequest req; Print (status_line r)], Raise e)).
  { intros sv. rewrite (init_without_output sv p req r Hd Hn Ho), Hj.
    reflexivity. }
  split; [apply Hi|].
  intros argv tr0 Hp. unfold main. rewrite Hp, bind_ok.
  unfold APITester_init. rewrite Hi. cbn [fst snd].
  unfold try_except_else.
  assert (Hs : is_SystemExit e = false) by (destruct e; try discriminate; reflexivity).
  cbn [select]. rewrite Hs, He. cbn. rewrite <- List.app_assoc. reflexivity.
Qed.

(** The three ways [save] can end. *)
Lemma Writer_save_cases (out_file text_ : string) :
  (exists e, Writer_save out_file text_ = ([], Raise e))
  \/ (exists content,
        Writer_save out_file text_ = ([FileWrite out_file content], Ok tt))
  \/ Writer_save out_file text_
       = ([Print "not implemented for .{ext}"], Ok tt).
Proof.
  unfold Writer_save.
  destruct (read_json text_) as [df|e]; [|left; eexists; reflexivity].
  rewrite bind_lift_ok. unfold Str.rsplit1.
  destruct (Str.rcut "." out_file) as [[name ext]|] eqn:E;
    [|left; eexists; reflexivity].
  apply rcut_sound in E as [E _]. cbn [unpack2]. rewrite bind_lift_ok.
  destruct (dict_get ext dump_params) as [params|];
    [|right; right; reflexivity].
  destruct (DataFrame_to ext) as [to_ext|]; [|left; eexists; reflexivity].
  destruct (to_ext df (("index", KBool false) :: params)) as [content|e].
  - right. left. exists content. rewrite bind_lift_ok.
    rewrite E. reflexivity.
  - left. exists e. reflexivity.
Qed.

(** X5.  Whatever the path and the text, [save] performs at most one
    effect and never calls the HTTP client; when it writes a file, the
    path is exactly the one it was given, put together again from the two
    parts of the split, and [save] returns normally. *)
Theorem save_performs_one_effect (out_file text_ : string) :
  length (trace (Writer_save out_file text_)) <= 1
  /\ requests_made (trace (Writer_save out_file text_)) = []
  /\ (forall path content,
        In (FileWrite path content) (trace (Writer_save out_file text_)) ->
        path = out_file /\ outcome (Writer_save out_file text_) = Ok tt).
Proof.
  destruct (Writer_save_cases out_file text_) as [[e H]|[[c H]|H]];
    rewrite H; cbn [trace outcome fst snd length requests_made filter
                    is_http];
    (split; [lia|]); (split; [reflexivity|]).
  - intros path content [].
  - intros path content [Hin|[]]. inversion Hin; subst. auto.
  - intros path content [Hin|[]]. discriminate.
Qed.

(** The effects of the [else] suite of [__init__]: no request; at most
    one file, and then on a 2xx response, at the output path. *)
Lemma on_response_effects (p : payload) (r : response) :
  requests_made (trace (on_response Writer_save p r)) = []
  /\ (writes (trace (on_response Writer_save p r)) = []
      \/ exists out content,
           writes (trace (on_response Writer_save p r))
             = [FileWrite out content]
           /\ output p = Some out /\ Str.truthy out = true
           /\ not_success r = false).
Proof.
  unfold on_response. destruct (not_success r) eqn:En; [split; auto|].
  assert (Hp : requests_made
                 (trace (v <- Response_json r;; emit (PPrint v))) = []
               /\ writes (trace (v <- Response_json r;; emit (PPrint v)))
                  = []).
  { unfold Response_json, lift. destruct (json_loads (text r)); split;
      reflexivity. }
  destruct (output p) as [out|]; [|destruct Hp; split; auto].
  destruct (Str.truthy out) eqn:Et; [|destruct Hp; split; auto].
  destruct (Writer_save_cases out (normalized_text (text r)))
    as [[e H]|[[c H]|H]]; rewrite H; (split; [reflexivity|]).
  - left; reflexivity.
  - right. exists out, c. auto.
  - left; reflexivity.
Qed.

(** The trace of [__init__]: at most one request, first, on the fixed
    domain; then events that are no requests, with at most one file. *)
Lemma init_trace (p : payload) :
  exists pre post,
    trace (APITester_init p) = (pre ++ post)%list
    /\ requests_made post = []
    /\ ((pre = [] /\ writes post = [])
        \/ exists d,
             pre = [HttpRequest (mkRequest (method p) (request_url p) d)]
             /\ (method p = get -> d = None)
             /\ (writes post = []
                 \/ exists out content r,
                      writes post = [FileWrite out content]
                      /\ output p = Some out /\ Str.truthy out = true
                      /\ send (mkRequest (method p) (request_url p) d) = Ok r
                      /\ not_success r = false)).
Proof.
  unfold APITester_init.
  destruct (getattr_shape p) as [[e H]|[d [H Hg]]].
  - rewrite (init_on_error _ p _ _ H). exists [].
    destruct (is_Exception e).
    + exists [Print (str_exn e)]. repeat split; auto.
    + exists []. repeat split; auto.
  - set (req := mkRequest (method p) (request_url p) d) in *.
    exists [HttpRequest req]. destruct (send req) as [r|e] eqn:Es.
    + rewrite (init_after_response _ p req r H).
      destruct (is_http_error_status (status_code r)).
      * exists [Print (status_line r); Print (http_error_message r)].
        split; [reflexivity|]. split; [reflexivity|].
        right. exists d. auto.
      * exists (Print (status_line r) :: trace (on_response Writer_save p r)).
        destruct (on_response_effects p r) as [Hr Hw].
        split; [reflexivity|]. split; [exact Hr|].
        right. exists d. split; [reflexivity|]. split; [exact Hg|].
        destruct Hw as [Hw|[out [c [Hw [Ho [Ht Hn]]]]]]; [left; exact Hw|].
        right. exists out, c, r. auto.
    + rewrite (init_on_error _ p _ _ H). destruct (is_Exception e).
      * exists [Print (str_exn e)]. split; [reflexivity|].
        split; [reflexivity|]. right. exists d. auto.
      * exists []. split; [now rewrite List.app_nil_r|].
        split; [reflexivity|]. right. exists d. auto.
Qed.

(** X6.  A run of [__init__] calls the HTTP client at most once, with the
    method of the command line, on the fixed domain followed by the
    endpoint, and without a body when the method is GET. *)
Theorem one_request_to_fixed_domain (p : payload) :
  requests_made (trace (APITester_init p)) = []
  \/ exists d,
       requests_made (trace (APITester_init p))
         = [HttpRequest
              (mkRequest (method p) (domain ++ "/" ++ endpoint p) d)]
       /\ (method p = get -> d = None).
Proof.
  destruct (init_trace p) as [pre [post [Ht [Hr Hc]]]].
  rewrite Ht. unfold requests_made in *. rewrite filter_app, Hr.
  destruct Hc as [[-> _]|[d [-> [Hg _]]]]; [left; reflexivity|].
  right. exists d. split; [reflexivity|exact Hg].
Qed.

(** X7.  A run of [__init__] writes at most one file, and writes one only
    at the output path of the command line, after a response whose status
    starts with 2. *)
Theorem file_written_only_on_success (p : payload) :
  writes (trace (APITester_init p)) = []
  \/ exists out content d r,
       writes (trace (APITester_init p)) = [FileWrite out content]
       /\ output p = Some out /\ Str.truthy out = true
       /\ send (mkRequest (method p) (request_url p) d) = Ok r
       /\ not_success r = false.
Proof.
  destruct (init_trace p) as [pre [post [Ht [_ Hc]]]].
  rewrite Ht. unfold writes in *. rewrite filter_app.
  destruct Hc as [[-> Hw]|[d [-> [_ Hw]]]]; [left; exact Hw|].
  destruct Hw as [Hw|[out [c [r [Hw H]]]]]; [left; exact Hw|].
  right. exists out, c, d, r. split; [exact Hw|exact H].
Qed.

(** X8.  No exception leaves [main]: whatever the command line and
    whatever fails, [main] returns, and the interpreter ends with status
    0.  (The other outcome is the marker of a library model asked about
    an input it does not model.) *)
Theorem main_never_raises (argv : list string) :
  (outcome (main argv) = Ok tt
   /\ exit_status (outcome (main argv)) = Some 0%Z)
  \/ outcome (main argv) = Raise Unmodelled.
Proof.
  unfold main, try_except_else.
  destruct (_ <- _ ;; _) as [tr [a|e]]; [left; split; reflexivity|].
  destruct e; cbn; auto.
Qed.

(** X9.  When pandas cannot read the body, nothing is written and no
    notice is printed, whatever the output path, supported or not:
    [save] raises before it looks at the path, and [main] prints the
    error. *)
Theorem unreadable_body_is_reported (p : payload) (req : request)
    (r : response) (out : string) (e : exn) :
  APITester_getattr (method p) p (request_url p)
    = ([HttpRequest req], Ok r) ->
  not_success r = false ->
  output p = Some out ->
  Str.truthy out = true ->
  read_json (normalized_text (text r)) = Raise e ->
  is_Exception e = true ->
  Writer_save out (normalized_text (text r)) = ([], Raise e)
  /\ (forall argv tr0, parse_args argv = (tr0, Ok p) ->
      main argv
        = ((tr0 ++ [HttpRequest req; Print (status_line r);
                    Print (str_exn e)])%list, Ok tt)).
Proof.
  intros Hd Hn Ho Ht Hr He.
  assert (Hs : Writer_save out (normalized_text (text r)) = ([], Raise e))
    by (unfold Writer_save; rewrite Hr; reflexivity).
  split; [exact Hs|].
  intros argv tr0 Hp. unfold main. rewrite Hp, bind_ok.
  unfold APITester_init.
  rewrite (init_on_success Writer_save p req r out Hd Hn Ho Ht), Hs.
  cbn [trace outcome fst snd]. unfold try_except_else.
  assert (Hx : is_SystemExit e = false)
    by (destruct e; try discriminate; reflexivity).
  cbn [select]. rewrite Hx, He. cbn. rewrite <- List.app_assoc. reflexivity.
Qed.

End Paths.

(** ** The script on the reference libraries, continued *)

Lemma request_failure_is_reported_witness :
  let e := RequestException "connection refused" in
  let p := mkPayload get "posts" None (Some "out.json") in
  is_Exception e = true
  /\ APITester_init (jsonlib := RefJson) (requests := failing e)
       (pandas := RefPandas) p
     = ([HttpRequest
           (mkRequest get "https://jsonplaceholder.typicode.com/posts" None);
         Print "connection refused"], Ok tt).
Proof.
  split; [reflexivity|].
  apply (request_failure_is_reported (argparse := RefArgparse)
           (jsonlib := RefJson)
           (requests := failing (RequestException "connection refused"))
           (pandas := RefPandas) (Writer_save (pandas := RefPandas))
           (mkPayload get "posts" None (Some "out.json"))
           (mkRequest get "https://jsonplaceholder.typicode.com/posts" None)
           (RequestException "connection refused")); reflexivity.
Defined.

Lemma body_is_pretty_printed_witness :
  let r := mkResponse 200 "OK" "" sample_body in
  let p := mkPayload get "posts/1" None None in
  not_success r = false
  /\ APITester_init (jsonlib := RefJson) (requests := RequestsRef.canned r)
       (pandas := RefPandas) p
     = ([HttpRequest
           (mkRequest get "https://jsonplaceholder.typicode.com/posts/1" None);
         Print "status_code: 200";
         PPrint (JObj [("id", JInt 1); ("name", JStr "a")])], Ok tt).
Proof.
  split; [reflexivity|].
  apply (body_is_pretty_printed (jsonlib := RefJson)
           (requests := RequestsRef.canned
                          (mkResponse 200 "OK" "" sample_body))
           (Writer_save (pandas := RefPandas))
           (mkPayload get "posts/1" None None)
           (mkRequest get "https://jsonplaceholder.typicode.com/posts/1" None)
           (mkResponse 200 "OK" "" sample_body));
    [reflexivity|reflexivity|left; reflexivity|reflexivity].
Defined.

Lemma undecodable_body_escapes_init_witness :
  let r := mkResponse 200 "OK" "" "oops" in
  let p := mkPayload get "posts/1" None None in
  PyJson.loads "oops" = Raise (JSONDecodeError "Expecting value")
  /\ APITester_init (jsonlib := RefJson) (requests := RequestsRef.canned r)
       (pandas := RefPandas) p
     = ([HttpRequest
           (mkRequest get "https://jsonplaceholder.typicode.com/posts/1" None);
         Print "status_code: 200"],
        Raise (JSONDecodeError "Expecting value")).
Proof.
  split; [reflexivity|].
  apply (undecodable_body_escapes_init (argparse := RefArgparse)
           (jsonlib := RefJson)
           (requests := RequestsRef.canned (mkResponse 200 "OK" "" "oops"))
           (pandas := RefPandas) (Writer_save (pandas := RefPandas))
           (mkPayload get "posts/1" None None)
           (mkRequest get "https://jsonplaceholder.typicode.com/posts/1" None)
           (mkResponse 200 "OK" "" "oops")
           (JSONDecodeError "Expecting value"));
    [reflexivity|reflexivity|left; reflexivity|reflexivity|reflexivity].
Defined.

Lemma unreadable_body_is_reported_witness :
  let r := mkResponse 200 "OK" "" "oops" in
  PandasRef.read_json "oops" = Raise (ValueError "Expecting value")
  /\ Writer_save (pandas := RefPandas) "out.xml" (normalized_text (text r))
     = ([], Raise (ValueError "Expecting value")).
Proof.
  split; [reflexivity|].
  apply (unreadable_body_is_reported (argparse := RefArgparse)
           (jsonlib := RefJson)
           (requests := RequestsRef.canned (mkResponse 200 "OK" "" "oops"))
           (pandas := RefPandas)
           (mkPayload get "posts/1" None (Some "out.xml"))
           (mkRequest get "https://jsonplaceholder.typicode.com/posts/1" None)
           (mkResponse 200 "OK" "" "oops") "out.xml"
           (ValueError "Expecting value")); reflexivity.
Defined.

Lemma main_swallows_system_exit_witness :
  parse_args (Argparse := RefArgparse) ["-h"]
    = ([ArgparseHelp], Raise (SystemExit 0))
  /\ main (argparse := RefArgparse) (jsonlib := RefJson)
       (requests := RequestsRef.canned (mkResponse 200 "" "" ""))
       (pandas := RefPandas) ["-h"]
     = ([ArgparseHelp; Print "ExitCode:0    (-h for more info)"], Ok tt).
Proof.
  split; [reflexivity|].
  apply (main_swallows_system_exit (argparse := RefArgparse)
           (jsonlib := RefJson)
           (requests := RequestsRef.canned (mkResponse 200 "" "" ""))
           (pandas := RefPandas) ["-h"] [ArgparseHelp] 0). reflexivity.
Defined.

Lemma post_sends_decoded_value_witness :
  let p := mkPayload post "posts" (Some title_data) None in
  let r := mkResponse 201 "Created" "" "{}" in
  PyJson.loads title_data = Ok title_value
  /\ APITester_post (jsonlib := RefJson) (requests := RequestsRef.canned r)
       p (request_url p)
     = ([HttpRequest
           (mkRequest post "https://jsonplaceholder.typicode.com/posts"
              (Some title_value))], Ok r).
Proof.
  split; [reflexivity|].
  apply (post_sends_decoded_value (jsonlib := RefJson)
           (requests := RequestsRef.canned
                          (mkResponse 201 "Created" "" "{}"))
           (mkPayload post "posts" (Some title_data) None) title_data
           title_value); reflexivity.
Defined.

Lemma leading_digit_range_witness :
  (100 <= 204 <= 999)%Z /\ Str.head (Str.of_Z 204) = Some "2"%char.
Proof.
  split; [lia|]. apply (leading_digit_range 204); lia.
Defined.

(** X10.  The wrapping does what it is for: when the response text starts
    with an opening brace, ends with a closing one and decodes, it decodes
    to an object, and the text handed to [save] decodes to the array
    whose only item is that object. *)
Theorem wrapped_object_decodes (t : string) (v : json) :
  Str.startswith "{" t = true ->
  Str.endswith "}" t = true ->
  PyJson.loads t = Ok v ->
  (exists m, v = JObj m)
  /\ PyJson.loads (normalized_text t) = Ok (JArr [v]).
Proof.
  intros Hs He H. split; [exact (loads_brace t v Hs H)|].
  unfold normalized_text. rewrite Hs, He. cbn [andb].
  exact (loads_wrapped t v Hs H).
Qed.

Lemma wrapped_object_decodes_witness :
  PyJson.loads sample_body = Ok (JObj [("id", JInt 1); ("name", JStr "a")])
  /\ PyJson.loads (normalized_text sample_body)
     = Ok (JArr [JObj [("id", JInt 1); ("name", JStr "a")]]).
Proof.
  split; [reflexivity|].
  apply (wrapped_object_decodes sample_body
           (JObj [("id", JInt 1); ("name", JStr "a")])); reflexivity.
Defined.

(** X11.  The whole run on a single object: for a 2xx response whose text
    starts with an opening brace, ends with a closing one and decodes to
    an object, and an output path that ends in [.json], when pandas reads
    the bracketed text into the one-row table of that object, labels and
    values as the text has them, the run writes that file once, and
    parsing the file gives the array whose only record is the object of
    the response. *)
Theorem object_body_round_trip {requests : Requests}
    (read : string -> result PandasRef.frame)
    (p : payload) (req : request) (r : response) (name : string)
    (m : list (string * json)) :
  APITester_getattr (jsonlib := RefJson) (method p) p (request_url p)
    = ([HttpRequest req], Ok r) ->
  not_success r = false ->
  output p = Some (name ++ ".json") ->
  Str.startswith "{" (text r) = true ->
  Str.endswith "}" (text r) = true ->
  PyJson.loads (text r) = Ok (JObj m) ->
  read ("[" ++ text r ++ "]") = Ok (PandasRef.frame_of [m]) ->
  exists content,
    APITester_init (jsonlib := RefJson) (pandas := TablePandas read) p
      = ([HttpRequest req; Print (status_line r);
          FileWrite (name ++ ".json") content], Ok tt)
    /\ PyJson.loads content = Ok (JArr [JObj m]).
Proof.
  intros Hd Hn Ho Hs He Hl Hread.
  assert (Hnt : normalized_text (text r) = "[" ++ text r ++ "]")
    by (unfold normalized_text; rewrite Hs, He; reflexivity).
  assert (Hw : PyJson.loads (normalized_text (text r))
               = Ok (JArr (map JObj [m])))
    by (rewrite Hnt; exact (loads_wrapped _ _ Hs Hl)).
  pose proof (loads_distinct _ _ Hw) as Hdk.
  rewrite <- Hnt in Hread.
  destruct (writer_reads_back_table read (normalized_text (text r)) name
              [m] Hdk Hread) as [content [Hsave Hback]].
  assert (Hrec : PandasRef.records (PandasRef.frame_of [m]) = [m]).
  { assert (Hk : forall rec, In rec [m] -> map fst rec = map fst m)
      by (intros rec [<-|[]]; reflexivity).
    apply (records_of_uniform (map fst m)); [|exact Hk].
    apply (keys_of_uniform (map fst m) [m] Hdk Hk). discriminate. }
  rewrite Hrec in Hback. exists content. split; [|exact Hback].
  assert (Ht : Str.truthy (name ++ ".json") = true)
    by (destruct name; reflexivity).
  unfold APITester_init.
  rewrite (init_on_success (jsonlib := RefJson)
             (Writer_save (pandas := TablePandas read)) p req r _
             Hd Hn Ho Ht).
  rewrite Hsave. reflexivity.
Qed.

Lemma object_body_round_trip_witness :
  let r := mkResponse 200 "OK" "" sample_body in
  let p := mkPayload get "posts/1" None (Some ("out" ++ ".json")) in
  PyJson.loads sample_body = Ok (JObj [("id", JInt 1); ("name", JStr "a")])
  /\ PandasRef.read_json ("[" ++ sample_body ++ "]")
     = Ok (PandasRef.frame_of [[("id", JInt 1); ("name", JStr "a")]])
  /\ exists content,
       APITester_init (jsonlib := RefJson)
         (requests := RequestsRef.canned r)
         (pandas := TablePandas PandasRef.read_json) p
         = ([HttpRequest
               (mkRequest get "https://jsonplaceholder.typicode.com/posts/1"
                  None);
             Print (status_line r);
             FileWrite ("out" ++ ".json") content], Ok tt)
       /\ PyJson.loads content
          = Ok (JArr [JObj [("id", JInt 1); ("name", JStr "a")]]).
Proof.
  split; [reflexivity|]. split; [reflexivity|].
  apply (object_body_round_trip
           (requests := RequestsRef.canned
                          (mkResponse 200 "OK" "" sample_body))
           PandasRef.read_json
           (mkPayload get "posts/1" None (Some ("out" ++ ".json")))
           (mkRequest get "https://jsonplaceholder.typicode.com/posts/1" None)
           (mkResponse 200 "OK" "" sample_body) "out"
           [("id", JInt 1); ("name", JStr "a")]); reflexivity.
Defined.
